(** * Analytics reconciliation and cache engine of the farm dashboard

    A shallow embedding of the JavaScript sources

    - [src/pages/FarmDashboard.js] (the file [src/unnamed/part_000]):
      [parseCoords], [normalizeAnalytics], [fetchAnalytics], the two
      effects that load and save the cache, and what the summary is
      computed with: [CircleIndicator], [safeAvg], the rainfall total and
      the text of the status card;
    - [src/frontend/src/pages/FarmInsights.js]: [normalizeToLatLngArray],
      [centroidOfLatLngs], [normalizeAnalytics], [loadForFarm] with its cache
      selection and its back-end fall-back, [soilPoints], and the markers
      drawn from them with [moistureToColor] and [moistureToRadius];

    followed by the properties of the specification that concern them and
    by further properties of the same code.

    Modelling conventions.

    - JavaScript values are the inductive type [value]; an object is the list
      of its own enumerable properties in [Object.keys] order.
    - A JavaScript number is an extended rational ([number]): [NaN], the two
      infinities, or a rational, the doubles being among the rationals.
      The sum, difference, product and quotient of two finite numbers are
      rounded as IEEE-754 binary64 rounds them, to the nearest double, ties
      to even, with subnormals and overflow to infinity ([round64]); a
      decimal literal of the sources is the double nearest to it ([lit]).
      [Math.round], [Math.max], [Math.abs] and the comparisons are exact on
      doubles and are modelled as such.  The sign of zero is not
      represented.
    - A raised exception is the [Throw] outcome of the [result] type.
    - Asynchronous code is run to completion, one call at a time; what it
      finds outside (the provider's answer, the mount flag, the clock) is a
      [world] record passed to it.
    - Built-ins of the JavaScript runtime whose code is not part of the
      repository ([Number] on strings, number printing, [JSON.parse],
      [Date.parse]) are the fields of the class [Runtime]; every statement
      holds for every runtime. *)

From Stdlib Require Import List String Ascii Bool Arith ZArith QArith Qabs Lia.
From Stdlib Require Import Qround Qpower Lqa.
From Stdlib Require Import DecimalString.
Import ListNotations.
Set Warnings "-register-all".
Open Scope string_scope.
Open Scope list_scope.

(* ================================================================= *)
(** ** JavaScript values and the operators the sources use *)

Module JS.

(** *** Numbers *)

Inductive number : Type :=
| NaN
| PosInf
| NegInf
| Fin (q : Q).

Definition isNaN (n : number) : bool :=
  match n with NaN => true | _ => false end.

Definition Qltb (a b : Q) : bool :=
  match Qcompare a b with Lt => true | _ => false end.

(** [a < b]; every comparison with [NaN] is false. *)
Definition num_lt (a b : number) : bool :=
  match a, b with
  | NaN, _ | _, NaN => false
  | _, NegInf => false
  | NegInf, _ => true
  | PosInf, _ => false
  | Fin _, PosInf => true
  | Fin x, Fin y => Qltb x y
  end.

(** [a <= b]. *)
Definition num_le (a b : number) : bool :=
  match a, b with
  | NaN, _ | _, NaN => false
  | NegInf, _ => true
  | _, NegInf => false
  | _, PosInf => true
  | PosInf, _ => false
  | Fin x, Fin y => Qle_bool x y
  end.

Definition num_gt (a b : number) : bool := num_lt b a.
Definition num_ge (a b : number) : bool := num_le b a.

(** *** Rounding

    The arithmetic of the sources is that of IEEE-754 binary64: the exact
    result of an operation is rounded to the nearest double, ties going
    to the even significand, and to an infinity beyond the largest
    double. *)

Definition num_neg (a : number) : number :=
  match a with
  | NaN => NaN
  | PosInf => NegInf
  | NegInf => PosInf
  | Fin x => Fin (Qred (- x))
  end.

Definition pow2 (k : Z) : Q := 2 ^ k.

(** [floor (log2 x)], for [0 < x]. *)
Definition ilog2 (x : Q) : Z :=
  let k := (Z.log2 (Qnum x) - Z.log2 (Zpos (Qden x)))%Z in
  if Qle_bool (pow2 k) x then k else (k - 1)%Z.

(** The nearest integer, ties to even. *)
Definition rne (q : Q) : Z :=
  let f := Qfloor q in
  match Qcompare (q - inject_Z f) (1 # 2) with
  | Lt => f
  | Gt => (f + 1)%Z
  | Eq => if Z.even f then f else (f + 1)%Z
  end.

(** The exponent of the last place of the doubles around [x]: 53
    significant bits, and [-1074] for the subnormal ones. *)
Definition binade (x : Q) : Z := Z.max (ilog2 x - 52) (-1074).

Definition nearest (x : Q) : Q :=
  inject_Z (rne (x / pow2 (binade x))) * pow2 (binade x).

Definition round_pos (x : Q) : number :=
  let r := nearest x in
  if Qle_bool (pow2 1024) r then PosInf else Fin (Qred r).

(** The double that the exact result [x] is rounded to. *)
Definition round64 (x : Q) : number :=
  match Qcompare x 0 with
  | Eq => Fin 0
  | Gt => round_pos x
  | Lt => num_neg (round_pos (- x))
  end.

(** A decimal literal of the sources: the double nearest to it. *)
Definition lit (q : Q) : number := round64 q.

Definition num_add (a b : number) : number :=
  match a, b with
  | NaN, _ | _, NaN => NaN
  | PosInf, NegInf | NegInf, PosInf => NaN
  | PosInf, _ | _, PosInf => PosInf
  | NegInf, _ | _, NegInf => NegInf
  | Fin x, Fin y => round64 (x + y)
  end.

Definition num_sub (a b : number) : number :=
  match a, b with
  | NaN, _ | _, NaN => NaN
  | PosInf, PosInf | NegInf, NegInf => NaN
  | PosInf, _ | _, NegInf => PosInf
  | NegInf, _ | _, PosInf => NegInf
  | Fin x, Fin y => round64 (x - y)
  end.

(** Sign of a finite rational: [Lt] negative, [Eq] zero, [Gt] positive. *)
Definition Qsign (x : Q) : comparison := Qcompare x 0.

Definition num_mul (a b : number) : number :=
  match a, b with
  | NaN, _ | _, NaN => NaN
  | Fin x, Fin y => round64 (x * y)
  | PosInf, PosInf | NegInf, NegInf => PosInf
  | PosInf, NegInf | NegInf, PosInf => NegInf
  | PosInf, Fin x | Fin x, PosInf =>
      match Qsign x with Eq => NaN | Lt => NegInf | Gt => PosInf end
  | NegInf, Fin x | Fin x, NegInf =>
      match Qsign x with Eq => NaN | Lt => PosInf | Gt => NegInf end
  end.

Definition num_div (a b : number) : number :=
  match a, b with
  | NaN, _ | _, NaN => NaN
  | Fin x, Fin y =>
      match Qsign y with
      | Eq => match Qsign x with Eq => NaN | Lt => NegInf | Gt => PosInf end
      | _ => round64 (x / y)
      end
  | Fin _, PosInf | Fin _, NegInf => Fin 0
  | PosInf, Fin y => match Qsign y with Lt => NegInf | _ => PosInf end
  | NegInf, Fin y => match Qsign y with Lt => PosInf | _ => NegInf end
  | _, _ => NaN
  end.

(** [Math.abs]. *)
Definition num_abs (a : number) : number :=
  match a with
  | NaN => NaN
  | PosInf | NegInf => PosInf
  | Fin x => Fin (Qabs x)
  end.

(** Truthiness of a number: [NaN] and zero are falsy. *)
Definition num_truthy (a : number) : bool :=
  match a with
  | NaN => false
  | Fin x => negb (Qeq_bool x 0)
  | _ => true
  end.

Definition of_nat (n : nat) : number := Fin (inject_Z (Z.of_nat n)).
Definition of_Z (z : Z) : number := Fin (inject_Z z).

(** [Math.max] and [Math.min] of two numbers: [NaN] if either is. *)
Definition num_max (a b : number) : number :=
  if isNaN a || isNaN b then NaN else if num_lt a b then b else a.

Definition num_min (a b : number) : number :=
  if isNaN a || isNaN b then NaN else if num_lt b a then b else a.

(** [Math.round]: the nearest integer, halves going up. *)
Definition num_round (a : number) : number :=
  match a with
  | Fin x => Fin (inject_Z (Qfloor (x + (1 # 2))))
  | other => other
  end.

(** *** Values *)

Inductive value : Type :=
| VUndefined
| VNull
| VBool (b : bool)
| VNum (n : number)
| VStr (s : string)
| VArr (xs : list value)
| VObj (fields : list (string * value)).

Definition fields : Type := list (string * value).

(** Outcome of an operation that may raise: [Throw] is an exception that a
    [try]/[catch] intercepts; [OutOfFuel] marks a recursion that was cut by
    its bound and is never intercepted. *)
Inductive error : Type := TypeError.

Inductive result (A : Type) : Type :=
| Ok (a : A)
| Throw (e : error)
| OutOfFuel.
Arguments Ok {A} a.
Arguments Throw {A} e.
Arguments OutOfFuel {A}.

Definition bind {A B : Type} (c : result A) (k : A -> result B) : result B :=
  match c with
  | Ok a => k a
  | Throw e => Throw e
  | OutOfFuel => OutOfFuel
  end.

Declare Scope js_scope.
Delimit Scope js_scope with js.
Notation "'let*' x ':=' c 'in' k" := (bind c (fun x => k))
  (at level 10, x name, c at level 100, k at level 200) : js_scope.
Open Scope js_scope.

(** [Array.prototype.map] with a callback that may raise. *)
Fixpoint map_result {A B : Type} (f : A -> result B) (l : list A)
  : result (list B) :=
  match l with
  | [] => Ok []
  | x :: rest =>
      let* y := f x in
      let* ys := map_result f rest in
      Ok (y :: ys)
  end.

(** [Array.prototype.reduce] with a callback that may raise. *)
Fixpoint fold_result {A B : Type} (f : A -> B -> result A) (l : list B)
         (a : A) : result A :=
  match l with
  | [] => Ok a
  | x :: rest =>
      let* a' := f a x in
      fold_result f rest a'
  end.

(** [try { c } catch { h }]. *)
Definition try_catch {A : Type} (c : result A) (h : error -> result A)
  : result A :=
  match c with
  | Throw e => h e
  | other => other
  end.

Definition truthy (v : value) : bool :=
  match v with
  | VUndefined | VNull => false
  | VBool b => b
  | VNum n => num_truthy n
  | VStr s => negb (String.eqb s "")
  | VArr _ | VObj _ => true
  end.

(** [v == null]. *)
Definition nullish (v : value) : bool :=
  match v with
  | VUndefined | VNull => true
  | _ => false
  end.

(** [typeof v === "object"]. *)
Definition typeof_object (v : value) : bool :=
  match v with
  | VNull | VArr _ | VObj _ => true
  | _ => false
  end.

Definition typeof_number (v : value) : bool :=
  match v with VNum _ => true | _ => false end.

Definition isArray (v : value) : bool :=
  match v with VArr _ => true | _ => false end.

(** [a ?? b] and [a || b]. *)
Definition coalesce (a b : value) : value := if nullish a then b else a.
Definition or_else (a b : value) : value := if truthy a then a else b.

(** Property tables. *)
Fixpoint lookup (k : string) (fs : fields) : option value :=
  match fs with
  | [] => None
  | (k', v) :: rest => if String.eqb k k' then Some v else lookup k rest
  end.

Definition has_key (k : string) (fs : fields) : bool :=
  match lookup k fs with Some _ => true | None => false end.

(** [obj[k] = v]: an existing property keeps its place, a new one is
    appended. *)
Fixpoint set_prop (k : string) (v : value) (fs : fields) : fields :=
  match fs with
  | [] => [(k, v)]
  | (k', v') :: rest =>
      if String.eqb k k' then (k, v) :: rest else (k', v') :: set_prop k v rest
  end.

Definition field (k : string) (fs : fields) : value :=
  match lookup k fs with Some v => v | None => VUndefined end.

(** Decimal spelling of an array index. *)
Definition index_key (i : nat) : string :=
  NilZero.string_of_uint (Nat.to_uint i).

(** The index below [n] that the key [k] spells, if any. *)
Definition index_of_key (k : string) (n : nat) : option nat :=
  find (fun i => String.eqb (index_key i) k) (seq 0 n).

Fixpoint string_chars (s : string) : list string :=
  match s with
  | EmptyString => []
  | String c rest => String c EmptyString :: string_chars rest
  end.

(** [v[k]] on a value that is neither [null] nor [undefined].  The property
    names the sources read are own properties or absent; none of them is
    inherited from a prototype. *)
Definition get_own (v : value) (k : string) : value :=
  match v with
  | VUndefined | VNull | VBool _ | VNum _ => VUndefined
  | VStr s =>
      if String.eqb k "length" then VNum (of_nat (String.length s))
      else match index_of_key k (String.length s) with
           | Some i => nth i (map VStr (string_chars s)) VUndefined
           | None => VUndefined
           end
  | VArr xs =>
      if String.eqb k "length" then VNum (of_nat (List.length xs))
      else match index_of_key k (List.length xs) with
           | Some i => nth i xs VUndefined
           | None => VUndefined
           end
  | VObj fs => field k fs
  end.

(** [v.k]: raises on [null] and [undefined]. *)
Definition get_prop (v : value) (k : string) : result value :=
  if nullish v then Throw TypeError else Ok (get_own v k).

(** [v?.k]. *)
Definition get_opt (v : value) (k : string) : value :=
  if nullish v then VUndefined else get_own v k.

(** [k in v]: raises unless [v] is an object or an array. *)
Definition has_in (k : string) (v : value) : result bool :=
  match v with
  | VObj fs => Ok (has_key k fs)
  | VArr xs =>
      Ok (String.eqb k "length"
          || match index_of_key k (List.length xs) with
             | Some _ => true
             | None => false
             end)
  | _ => Throw TypeError
  end.

(** [Object.keys(v)]. *)
Definition object_keys (v : value) : result (list string) :=
  match v with
  | VUndefined | VNull => Throw TypeError
  | VBool _ | VNum _ => Ok []
  | VStr s => Ok (map index_key (seq 0 (String.length s)))
  | VArr xs => Ok (map index_key (seq 0 (List.length xs)))
  | VObj fs => Ok (map fst fs)
  end.

(** [{ ...v }]. *)
Definition spread (v : value) : fields :=
  match v with
  | VObj fs => fs
  | VArr xs => combine (map index_key (seq 0 (List.length xs))) xs
  | VStr s =>
      combine (map index_key (seq 0 (String.length s)))
              (map VStr (string_chars s))
  | _ => []
  end.

(** *** Runtime built-ins *)

Class Runtime : Type := {
  (** [Number(s)] on a string. *)
  StringToNumber : string -> number;
  (** [String(n)] on a number. *)
  NumberToString : number -> string;
  (** [JSON.parse(s)]; [None] when it raises a [SyntaxError]. *)
  JSON_parse : string -> option value;
  (** [Date.parse(s)]. *)
  Date_parse : string -> number
}.

Section Conversions.
Context {rt : Runtime}.

(** [String(v)]. *)
Fixpoint to_string (v : value) : string :=
  match v with
  | VUndefined => "undefined"
  | VNull => "null"
  | VBool true => "true"
  | VBool false => "false"
  | VNum n => NumberToString n
  | VStr s => s
  | VArr xs =>
      (fix join (l : list value) : string :=
         match l with
         | [] => ""
         | x :: rest =>
             let sx := match x with
                       | VUndefined | VNull => ""
                       | _ => to_string x
                       end in
             match rest with
             | [] => sx
             | _ => (sx ++ "," ++ join rest)%string
             end
         end) xs
  | VObj _ => "[object Object]"
  end.

(** [Number(v)]. *)
Definition to_number (v : value) : number :=
  match v with
  | VUndefined => NaN
  | VNull => Fin 0
  | VBool true => Fin 1
  | VBool false => Fin 0
  | VNum n => n
  | VStr s => StringToNumber s
  | VArr _ => StringToNumber (to_string v)
  | VObj _ => NaN
  end.

(** [a + b]: concatenation as soon as one side is a string, an array or an
    object, the sum of the two numbers otherwise. *)
Definition js_add (a b : value) : value :=
  let stringy v := match v with
                   | VStr _ | VArr _ | VObj _ => true
                   | _ => false
                   end in
  if stringy a || stringy b then VStr (to_string a ++ to_string b)%string
  else VNum (num_add (to_number a) (to_number b)).

End Conversions.

(** *** Strings *)

Definition is_space (c : ascii) : bool :=
  let n := nat_of_ascii c in
  (9 <=? n)%nat && (n <=? 13)%nat || (n =? 32)%nat.

Fixpoint trim_left (s : string) : string :=
  match s with
  | String c rest => if is_space c then trim_left rest else s
  | EmptyString => EmptyString
  end.

Fixpoint rev_string (s acc : string) : string :=
  match s with
  | EmptyString => acc
  | String c rest => rev_string rest (String c acc)
  end.

(** [s.trim()], on the ASCII white space. *)
Definition trim (s : string) : string :=
  rev_string (trim_left (rev_string (trim_left s) "")) "".

(** [s.includes(c)] for a one-character needle. *)
Fixpoint includes_char (c : ascii) (s : string) : bool :=
  match s with
  | EmptyString => false
  | String c' rest => Ascii.eqb c c' || includes_char c rest
  end.

(** [s.split(c)] for a one-character separator. *)
Fixpoint split_on (c : ascii) (s : string) : list string :=
  match s with
  | EmptyString => [EmptyString]
  | String c' rest =>
      match split_on c rest with
      | [] => [String c' EmptyString]
      | cur :: others =>
          if Ascii.eqb c c' then EmptyString :: cur :: others
          else String c' cur :: others
      end
  end.

End JS.

(* ================================================================= *)
(** ** The analytics provider, as both views call it *)

Module Provider.
Import JS.

(** Body of the [POST /analytics] request. *)
Record request : Type := {
  coordinates : value;
  start_date : value;
  end_date : value;
  farm_id : string;
  force_refresh : bool
}.

End Provider.

(* ================================================================= *)
(** ** The dashboard view: [src/pages/FarmDashboard.js] *)

Module Dashboard.
Import JS Provider.

Section Code.
Context {rt : Runtime}.

(** *** [parseCoords] *)

(** The [catch] branch of the string case: ["lat,lng;lat,lng"]. *)
Definition parse_delimited (coords : string) : value :=
  if includes_char "," coords then
    let parts := map trim (split_on ";" coords) in
    VArr (map (fun pr =>
                 let nums := map StringToNumber (split_on "," pr) in
                 let a := match nums with
                          | x :: _ => VNum x
                          | [] => VUndefined
                          end in
                 let b := match nums with
                          | _ :: y :: _ => VNum y
                          | _ => VUndefined
                          end in
                 VArr [b; a]) parts)
  else VArr [].

(** [(p) => [Number(p[1]), Number(p[0])]] *)
Definition swap_pair (p : value) : result value :=
  let* p1 := get_prop p "1" in
  let* p0 := get_prop p "0" in
  Ok (VArr [VNum (to_number p1); VNum (to_number p0)]).

(** [(p) => [Number(p[0]), Number(p[1])]] *)
Definition keep_pair (p : value) : result value :=
  let* p0 := get_prop p "0" in
  let* p1 := get_prop p "1" in
  Ok (VArr [VNum (to_number p0); VNum (to_number p1)]).

(** [(pt) => [Number(pt.lng), Number(pt.lat)]] and its long-name twin. *)
Definition lng_lat_of (lng lat : string) (pt : value) : result value :=
  let* x := get_prop pt lng in
  let* y := get_prop pt lat in
  Ok (VArr [VNum (to_number x); VNum (to_number y)]).

(** The object fall-back: two numeric properties, guessed (lat, lng). *)
Definition guess_pair (pt : value) : result value :=
  let* keys := object_keys pt in
  let nums := filter (fun v => negb (isNaN v))
                     (map (fun k => to_number (get_own pt k)) keys) in
  match nums with
  | n0 :: n1 :: _ => Ok (VArr [VNum n1; VNum n0])
  | _ => Ok (VArr [])
  end.

Definition has_length_2 (p : value) : bool :=
  match p with
  | VArr [_; _] => true
  | _ => false
  end.

Definition lat_first (a b : number) : bool :=
  num_ge a (Fin (-90)) && num_le a (Fin 90)
  && num_ge b (Fin (-180)) && num_le b (Fin 180).

(** The [Array.isArray(coords)] branch, [xs] being the elements. *)
Definition parseCoords_array (xs : list value) : result value :=
  let nonempty := negb (Nat.eqb (List.length xs) 0) in
  let first := nth 0 xs VUndefined in
  let a := to_number (get_own first "0") in
  let b := to_number (get_own first "1") in
  if nonempty && isArray first && negb (isNaN a) && negb (isNaN b) then
    if lat_first a b then
      let* r := map_result swap_pair xs in Ok (VArr r)
    else
      let* r := map_result keep_pair xs in Ok (VArr r)
  else if nonempty && typeof_object first then
    let* lat := has_in "lat" first in
    let* lng := if lat then has_in "lng" first else Ok false in
    if lat && lng then
      let* r := map_result (lng_lat_of "lng" "lat") xs in Ok (VArr r)
    else
      let* latitude := has_in "latitude" first in
      let* longitude :=
        if latitude then has_in "longitude" first else Ok false in
      if latitude && longitude then
        let* r := map_result (lng_lat_of "longitude" "latitude") xs in
        Ok (VArr r)
      else
        let* r := map_result guess_pair xs in
        Ok (VArr (filter has_length_2 r))
  else Ok (VArr xs).

(** The cases of [parseCoords] below the string case; [coords] is truthy
    and not a string. *)
Definition parseCoords_value (coords : value) : result value :=
  let* point :=
    if typeof_object coords then
      let* latitude := has_in "latitude" coords in
      if latitude then has_in "longitude" coords else Ok false
    else Ok false in
  if point then
    Ok (VArr [VArr [get_own coords "longitude"; get_own coords "latitude"]])
  else
    match coords with
    | VArr xs => parseCoords_array xs
    | _ => Ok (VArr [])
    end.

(** [parseCoords]; the recursion on the result of [JSON.parse] is bounded
    by [fuel], one unit per string unwrapped. *)
Fixpoint parseCoords_fuel (fuel : nat) (coords : value) : result value :=
  if negb (truthy coords) then Ok (VArr [])
  else
    match coords with
    | VStr s =>
        match fuel with
        | O => OutOfFuel
        | S fuel' =>
            match JSON_parse s with
            | Some parsed =>
                try_catch (parseCoords_fuel fuel' parsed)
                          (fun _ => Ok (parse_delimited s))
            | None => Ok (parse_delimited s)
            end
        end
    | _ => parseCoords_value coords
    end.

(** A JSON text is longer than any string it encodes, so the length of the
    input bounds the number of strings unwrapped. *)
Definition parseCoords (coords : value) : result value :=
  parseCoords_fuel
    (match coords with VStr s => S (String.length s) | _ => 0 end) coords.

(** *** [normalizeAnalytics] *)

(** Promotion of a series nested in [out.weather] or [out.soil]. *)
Definition promote (key group nested : string) (out : fields) : fields :=
  let cur := field key out in
  let g := field group out in
  if (negb (truthy cur) || negb (truthy (get_own cur "length")))
     && truthy g && isArray (get_own g nested)
  then set_prop key (get_own g nested) out
  else out.

(** The loop [for (const k of Object.keys(d))] that returns the first
    property other than [date] whose [Number] is not [NaN]. *)
Fixpoint first_numeric (d : value) (keys : list string) : option number :=
  match keys with
  | [] => None
  | k :: rest =>
      if String.eqb k "date" then first_numeric d rest
      else
        let n := to_number (get_own d k) in
        if isNaN n then first_numeric d rest else Some n
  end.

(** The value [val] that the temperature callback resolves; [None] is the
    initial [null]. *)
Definition temperature_val (d : value) : result (option number) :=
  let* temp := has_in "temp" d in
  if temp then Ok (Some (to_number (get_own d "temp")))
  else
    let* temperature := has_in "temperature" d in
    if temperature then Ok (Some (to_number (get_own d "temperature")))
    else
      let* keys := object_keys d in
      Ok (first_numeric d keys).

Definition temperature_sample (d : value) : result value :=
  if negb (truthy d) then Ok d
  else
    let* val := temperature_val d in
    match val with
    | None => Ok d
    | Some v =>
        if isNaN v then Ok d
        else
          let v' := if num_gt v (Fin 100) then num_sub v (lit 273.15)
                    else v in
          Ok (VObj [("date", get_own d "date"); ("temp", VNum v')])
    end.

(** [val] of the soil-temperature callback once [soil_temp] is absent. *)
Definition soil_temperature_val (d : value) : result (option number) :=
  let* st := has_in "st" d in
  if st then Ok (Some (to_number (get_own d "st")))
  else
    let* keys := object_keys d in
    Ok (first_numeric d keys).

Definition soil_temperature_sample (d : value) : result value :=
  if negb (truthy d) then Ok d
  else
    let* soil_temp := has_in "soil_temp" d in
    if soil_temp then
      let v := to_number (get_own d "soil_temp") in
      Ok (VObj [("date", get_own d "date");
                ("soil_temp",
                 if isNaN v then VNull
                 else VNum (if num_gt v (Fin 100)
                            then num_sub v (lit 273.15) else v))])
    else
      let* val := soil_temperature_val d in
      match val with
      | None => Ok (VObj [("date", get_own d "date"); ("soil_temp", VNull)])
      | Some v =>
          if isNaN v then
            Ok (VObj [("date", get_own d "date"); ("soil_temp", VNull)])
          else
            let v' := if num_gt v (Fin 100) then num_sub v (lit 273.15)
                      else v in
            Ok (VObj [("date", get_own d "date"); ("soil_temp", VNum v')])
      end.

Definition canopy_temperature_val (d : value) : result (option number) :=
  let* canopy_temp := has_in "canopy_temp" d in
  if canopy_temp then Ok (Some (to_number (get_own d "canopy_temp")))
  else
    let* keys := object_keys d in
    Ok (first_numeric d keys).

Definition canopy_temperature_sample (d : value) : result value :=
  if negb (truthy d) then Ok d
  else
    let* val := canopy_temperature_val d in
    match val with
    | None => Ok (VObj [("date", get_own d "date"); ("canopy_temp", VNull)])
    | Some v =>
        if isNaN v then
          Ok (VObj [("date", get_own d "date"); ("canopy_temp", VNull)])
        else
          let v' := if num_gt v (Fin 100) then num_sub v (lit 273.15)
                    else v in
          Ok (VObj [("date", get_own d "date"); ("canopy_temp", VNum v')])
    end.

Definition rainfall_sample (d : value) : result value :=
  if negb (truthy d) then Ok d
  else
    let* rain_mm := has_in "rain_mm" d in
    if rain_mm then Ok d
    else
      let* rain := has_in "rain" d in
      if rain then
        Ok (VObj [("date", get_own d "date");
                  ("rain_mm", VNum (to_number (get_own d "rain")))])
      else
        let* keys := object_keys d in
        match first_numeric d keys with
        | Some n => Ok (VObj [("date", get_own d "date"); ("rain_mm", VNum n)])
        | None => Ok (VObj [("date", get_own d "date"); ("rain_mm", VNull)])
        end.

(** [if (Array.isArray(out[key])) out[key] = out[key].map(f);
     else out[key] = [];] *)
Definition normalize_series (key : string) (f : value -> result value)
           (out : fields) : result fields :=
  match field key out with
  | VArr xs =>
      let* ys := map_result f xs in
      Ok (set_prop key (VArr ys) out)
  | _ => Ok (set_prop key (VArr []) out)
  end.

Definition expectedArrays : list string :=
  [ "ndvi_timeseries"; "evi_timeseries"; "gndvi_timeseries";
    "savi_timeseries"; "ndwi_timeseries"; "msavi_timeseries";
    "arvi_timeseries"; "lai_timeseries"; "chlorophyll_index";
    "water_stress_index"; "biomass_proxy"; "canopy_fraction";
    "soil_moisture" ].

Definition ensure_array (out : fields) (k : string) : fields :=
  if isArray (field k out) then out else set_prop k (VArr []) out.

Definition ensure_soil_profile (out : fields) : fields :=
  if truthy (field "soil_profile" out) then out
  else
    let soil := field "soil" out in
    set_prop "soil_profile"
             (if truthy soil then or_else (get_own soil "profile") (VObj [])
              else VObj [])
             out.

Definition ensure_alerts (out : fields) : fields :=
  if truthy (field "alerts" out) then out
  else set_prop "alerts"
                (VObj [("frost", VArr []); ("heat", VArr [])]) out.

Definition normalizeAnalytics (raw : value) : result value :=
  if negb (truthy raw) || negb (typeof_object raw) then Ok VNull
  else
    let out := spread raw in
    let out := promote "temperature" "weather" "temperature" out in
    let out := promote "rainfall" "weather" "rainfall" out in
    let out := promote "soil_moisture" "soil" "moisture" out in
    let out := promote "soil_temperature" "soil" "temperature" out in
    let* out := normalize_series "temperature" temperature_sample out in
    let* out :=
      normalize_series "soil_temperature" soil_temperature_sample out in
    let* out :=
      normalize_series "canopy_temperature" canopy_temperature_sample out in
    let* out := normalize_series "rainfall" rainfall_sample out in
    let out := fold_left ensure_array expectedArrays out in
    let out := ensure_soil_profile out in
    let out := ensure_alerts out in
    Ok (VObj out).

(** *** [fetchAnalytics] *)

(** What the component does to the outside, in order.  [Normalize] marks
    a call of [normalizeAnalytics]. *)
Inductive event : Type :=
| Fetch (body : request)
| Alert (msg : string)
| Normalize (data : value).

(** The React state of the component and [analyticsCacheRef.current]. *)
Record state : Type := {
  analytics : value;
  loading : bool;
  updatingLabel : string;
  analyticsCache : fields
}.

(** What the call finds outside: the JSON body of the provider's answer
    ([None] when [fetch] or [res.json()] rejects) and the value of
    [isMounted.current] once the answer has arrived. *)
Record world : Type := {
  response : option value;
  mounted : bool
}.

Definition cache_key (id start end_ : string) : string :=
  (id ++ "_" ++ start ++ "_" ++ end_)%string.

(** [finally { if (isMounted.current) setLoading(false); }] *)
Definition finally_ (w : world) (st : state) : state :=
  if mounted w then
    {| analytics := analytics st; loading := false;
       updatingLabel := updatingLabel st;
       analyticsCache := analyticsCache st |}
  else st.

Definition failed_alert : event :=
  Alert "Failed to fetch analytics (check console).".

(** [fetchAnalytics(coords, start, end, showLabel, forceRefresh)] for the
    farm [id].  The timer that clears the label 2.4 s after a success is
    left out. *)
Definition fetchAnalytics (id : string) (coords : value)
           (start end_ : string) (showLabel forceRefresh : bool)
           (w : world) (st : state) : result (state * list event) :=
  let* cleanCoords := parseCoords coords in
  let cacheKey := cache_key id start end_ in
  if negb forceRefresh && truthy (field cacheKey (analyticsCache st)) then
    Ok ({| analytics := field cacheKey (analyticsCache st);
           loading := loading st;
           updatingLabel := updatingLabel st;
           analyticsCache := analyticsCache st |}, [])
  else
    let st1 :=
      {| analytics := VNull;
         loading := true;
         updatingLabel :=
           if showLabel
           then ("Analyzing between " ++ start ++ " and " ++ end_
                 ++ "...")%string
           else updatingLabel st;
         analyticsCache := analyticsCache st |} in
    let body :=
      {| coordinates := cleanCoords;
         start_date := VStr start;
         end_date := VStr end_;
         farm_id := id;
         force_refresh := forceRefresh |} in
    match response w with
    | None => Ok (finally_ w st1, [Fetch body; failed_alert])
    | Some data =>
        match get_prop data "error" with
        | OutOfFuel => OutOfFuel
        | Throw _ => Ok (finally_ w st1, [Fetch body; failed_alert])
        | Ok err =>
            if truthy err then
              Ok (finally_ w st1,
                  [Fetch body;
                   Alert ("Server error: " ++ to_string err)%string])
            else
              match normalizeAnalytics data with
              | OutOfFuel => OutOfFuel
              | Throw _ =>
                  Ok (finally_ w st1,
                      [Fetch body; Normalize data; failed_alert])
              | Ok normalized =>
                  let st2 :=
                    if mounted w then
                      {| analytics := VObj (spread normalized);
                         loading := loading st1;
                         updatingLabel :=
                           if showLabel
                           then ("Analysis complete between " ++ start
                                 ++ " and " ++ end_)%string
                           else updatingLabel st1;
                         analyticsCache :=
                           set_prop cacheKey normalized
                                    (analyticsCache st1) |}
                    else st1 in
                  Ok (finally_ w st2, [Fetch body; Normalize data])
              end
        end
    end.

(** The two effects that tie [analyticsCacheRef.current] to the blob kept
    in IndexedDB under ["analyticsCache"] ([None]: no blob). *)
Definition loadCache (blob : option fields) (st : state) : state :=
  match blob with
  | Some savedCache =>
      {| analytics := analytics st; loading := loading st;
         updatingLabel := updatingLabel st;
         analyticsCache := savedCache |}
  | None => st
  end.

Definition saveCache (st : state) : option fields :=
  Some (analyticsCache st).

(** *** [CircleIndicator]

    What the gauge is computed from; the printed digits and the length of
    the arc are left out. *)

Record threshold : Type := {
  limit : number;
  label : string;
  colorClass : option string
}.

Inductive indicator : Type :=
| NotAvailable
| Gauge (percent : number) (status : string) (colour : string).

(** [c || d] on an optional class name. *)
Definition class_or (c : option string) (d : string) : string :=
  match c with
  | Some s => if String.eqb s "" then d else s
  | None => d
  end.

(** The loop [for (let t of thresholds)], stopped by its [break]. *)
Fixpoint first_threshold (value_ : value) (thresholds : list threshold)
  : option threshold :=
  match thresholds with
  | [] => None
  | t :: rest =>
      if num_le (to_number value_) (limit t) then Some t
      else first_threshold value_ rest
  end.

Definition CircleIndicator (value_ max : value) (thresholds : list threshold)
  : indicator :=
  if nullish value_ || isNaN (to_number value_) then NotAvailable
  else
    let percent :=
      num_min (num_max (num_mul (num_div (to_number value_) (to_number max))
                                (Fin 100))
                       (Fin 0))
              (Fin 100) in
    let found :=
      match first_threshold value_ thresholds with
      | Some t => (label t, class_or (colorClass t) "indicator-default")
      | None => ("Unknown", "indicator-default")
      end in
    let final :=
      match rev thresholds with
      | lst :: _ =>
          if num_gt (to_number value_) (limit lst)
          then (label lst, class_or (colorClass lst) (snd found))
          else found
      | [] => found
      end in
    Gauge percent (fst final) (snd final).

(** *** [safeAvg] *)

Definition safeAvg_item (key : string) (d : value) : result (option number) :=
  if nullish d then Ok None
  else if negb (String.eqb key "") then Ok (Some (to_number (get_own d key)))
  else
    match d with
    | VNum n => Ok (Some n)
    | _ =>
        let* value_ := has_in "value" d in
        if value_ then Ok (Some (to_number (get_own d "value")))
        else Ok (Some NaN)
    end.

(** [.filter((v) => v != null && !isNaN(v))] *)
Definition known_numbers (vals : list (option number)) : list number :=
  flat_map (fun v => match v with
                     | Some n => if isNaN n then [] else [n]
                     | None => []
                     end) vals.

(** [vals.reduce((a, b) => a + b, 0) / vals.length] *)
Definition mean (vals : list number) : number :=
  num_div (fold_left num_add vals (Fin 0)) (of_nat (List.length vals)).

(** A series that is not an array but has a length has no [map]. *)
Definition safeAvg (series : value) (key : string) : result value :=
  if negb (truthy series) || negb (truthy (get_own series "length"))
  then Ok VNull
  else
    match series with
    | VArr xs =>
        let* vals := map_result (safeAvg_item key) xs in
        match known_numbers vals with
        | [] => Ok VNull
        | nums => Ok (VNum (mean nums))
        end
    | _ => Throw TypeError
    end.

(** *** The figures of the summary row *)

(** [analytics?.rainfall?.length
      ? analytics.rainfall.reduce((a, b) => a + (b.rain_mm || 0), 0) : 0] *)
Definition totalRain (analytics_ : value) : result value :=
  let rainfall := get_opt analytics_ "rainfall" in
  if truthy (get_opt rainfall "length") then
    match rainfall with
    | VArr xs =>
        fold_result
          (fun a b =>
             let* rain_mm := get_prop b "rain_mm" in
             Ok (js_add a (or_else rain_mm (VNum (Fin 0)))))
          xs (VNum (Fin 0))
    | _ => Throw TypeError
    end
  else Ok (VNum (Fin 0)).

(** [v === 0] *)
Definition is_zero (v : value) : bool :=
  match v with
  | VNum (Fin q) => Qeq_bool q 0
  | _ => false
  end.

(** The text of the "Overall Farm Status" card. *)
Definition overallStatus (avgNDVI avgMoisture totalRain_ : value) : string :=
  if nullish avgNDVI then "No NDVI data"
  else
    let issues :=
      (if num_lt (to_number avgNDVI) (lit 0.35)
       then ["Crop health low"] else [])
      ++ (if negb (nullish avgMoisture)
             && num_lt (to_number avgMoisture) (lit 0.12)
          then ["Soil moisture low"] else [])
      ++ (if is_zero totalRain_ then ["No rainfall data"] else []) in
    match issues with
    | [] => "All core metrics look OK."
    | _ => String.concat " — " issues
    end.

End Code.
End Dashboard.

(* ================================================================= *)
(** ** The insights view: [src/pages/FarmInsights.js] *)

Module Insights.
Import JS Provider.

(** A map marker, [{ lat, lng, moisture, date }]. *)
Record point : Type := {
  lat : number;
  lng : number;
  moisture : value;
  date : value
}.

Section Code.
Context {rt : Runtime}.

(** *** [normalizeToLatLngArray] and [centroidOfLatLngs]

    Every element the function returns is built as
    [[Number(..), Number(..)]], hence the result type. *)

Definition named_pair (pt : value) : result (number * number) :=
  if nullish pt then Throw TypeError
  else
    let lat := coalesce (coalesce (get_own pt "lat") (get_own pt "latitude"))
                        VNull in
    let lng := coalesce (coalesce (get_own pt "lng") (get_own pt "longitude"))
                        VNull in
    Ok (to_number lat, to_number lng).

Definition both_numbers (p : number * number) : bool :=
  negb (isNaN (fst p)) && negb (isNaN (snd p)).

Definition index_pair (i j : string) (p : value)
  : result (number * number) :=
  let* x := get_prop p i in
  let* y := get_prop p j in
  Ok (to_number x, to_number y).

Definition normalizeToLatLngArray (coords : value)
  : result (list (number * number)) :=
  if negb (truthy coords) then Ok []
  else
    match coords with
    | VArr xs =>
        let nonempty := negb (Nat.eqb (List.length xs) 0) in
        let first := nth 0 xs VUndefined in
        let* named :=
          if nonempty && typeof_object first then
            let* lat := has_in "lat" first in
            if lat then Ok true else has_in "latitude" first
          else Ok false in
        if named then
          let* r := map_result named_pair xs in
          Ok (filter both_numbers r)
        else
          match first with
          | VArr elems =>
              let nums := map to_number elems in
              let f0 := nth 0 nums NaN in
              let f1 := nth 1 nums NaN in
              if num_le (num_abs f0) (Fin 90)
                 && num_le (num_abs f1) (Fin 180)
              then map_result (index_pair "0" "1") xs
              else map_result (index_pair "1" "0") xs
          | _ => Ok []
          end
    | VObj fs =>
        if has_key "latitude" fs && has_key "longitude" fs then
          Ok [(to_number (field "latitude" fs),
               to_number (field "longitude" fs))]
        else Ok []
    | _ => Ok []
    end.

(** [None] is the [null] returned for an empty list. *)
Definition centroidOfLatLngs (latlngs : list (number * number))
  : option (number * number) :=
  match latlngs with
  | [] => None
  | _ =>
      let sumLat := fold_left (fun s p => num_add s (fst p)) latlngs (Fin 0) in
      let sumLng := fold_left (fun s p => num_add s (snd p)) latlngs (Fin 0) in
      let n := of_nat (List.length latlngs) in
      Some (num_div sumLat n, num_div sumLng n)
  end.

(** *** [normalizeAnalytics] (the insights subset) *)

Fixpoint first_numeric (d : value) (keys : list string) : option number :=
  match keys with
  | [] => None
  | k :: rest =>
      if String.eqb k "date" then first_numeric d rest
      else
        let n := to_number (get_own d k) in
        if isNaN n then first_numeric d rest else Some n
  end.

(** The callback of [safeAvg]; [None] is [null]. *)
Definition safeAvg_item (key : string) (d : value)
  : result (option number) :=
  if nullish d then Ok None
  else if negb (String.eqb key "") then Ok (Some (to_number (get_own d key)))
  else
    match d with
    | VNum n => Ok (Some n)
    | _ =>
        let* value_ := has_in "value" d in
        if value_ then Ok (Some (to_number (get_own d "value")))
        else
          let* moisture_ := has_in "moisture" d in
          if moisture_ then Ok (Some (to_number (get_own d "moisture")))
          else
            let* keys := object_keys d in
            Ok (first_numeric d keys)
    end.

(** [.filter(v => v != null && !isNaN(v))] *)
Definition known_numbers (vals : list (option number)) : list number :=
  flat_map (fun v => match v with
                     | Some n => if isNaN n then [] else [n]
                     | None => []
                     end) vals.

(** [vals.reduce((a, b) => a + b, 0) / vals.length] *)
Definition mean (vals : list number) : number :=
  num_div (fold_left num_add vals (Fin 0)) (of_nat (List.length vals)).

Definition safeAvg (arr : value) (key : string) : result value :=
  match arr with
  | VArr ((_ :: _) as l) =>
      let* vals := map_result (safeAvg_item key) l in
      match known_numbers vals with
      | [] => Ok VNull
      | nums => Ok (VNum (mean nums))
      end
  | _ => Ok VNull
  end.

Definition default_array (k : string) (out : fields) : fields :=
  if isArray (field k out) then out
  else set_prop k (or_else (field k out) (VArr [])) out.

Definition default_soil_profile (out : fields) : fields :=
  if truthy (field "soil_profile" out) then out
  else
    set_prop "soil_profile"
             (or_else (field "soil_profile" out)
                      (or_else (get_opt (field "soil" out) "profile")
                               (VObj [])))
             out.

(** [(s, d) => s + Number(d?.rain_mm || d?.rain || 0)] *)
Definition add_rain (s : number) (d : value) : number :=
  num_add s (to_number (or_else (or_else (get_opt d "rain_mm")
                                         (get_opt d "rain"))
                                (VNum (Fin 0)))).

Definition total_rain_mm (rainfall : value) : value :=
  match rainfall with
  | VArr ds => VNum (fold_left add_rain ds (Fin 0))
  | _ => VNull
  end.

(** The [try] block of aggregates: an exception abandons the remaining
    assignments. *)
Definition aggregates (out : fields) : fields :=
  match safeAvg (field "ndvi_timeseries" out) "ndvi" with
  | Ok a1 =>
      let out := set_prop "avg_ndvi" a1 out in
      match safeAvg (field "soil_moisture" out) "moisture" with
      | Ok a2 =>
          let out := set_prop "avg_soil_moisture" a2 out in
          let out :=
            set_prop "total_rain_mm" (total_rain_mm (field "rainfall" out))
                     out in
          match safeAvg (field "canopy_temperature" out) "canopy_temp" with
          | Ok a3 =>
              let out := set_prop "avg_canopy_temp" a3 out in
              match safeAvg (field "lai_timeseries" out) "lai" with
              | Ok a4 => set_prop "avg_lai" a4 out
              | _ => out
              end
          | _ => out
          end
      | _ => out
      end
  | _ => out
  end.

Definition normalizeAnalytics (raw : value) : value :=
  if negb (truthy raw) || negb (typeof_object raw) then VNull
  else
    let out := spread raw in
    let out := default_array "soil_moisture" out in
    let out := default_array "ndvi_timeseries" out in
    let out := default_array "rainfall" out in
    let out := default_array "temperature" out in
    let out := default_array "lai_timeseries" out in
    let out := default_array "canopy_temperature" out in
    let out := default_array "soil_temperature" out in
    let out := default_soil_profile out in
    VObj (aggregates out).

(** *** [loadForFarm] *)

Inductive event : Type :=
| Fetch (body : request).

Record state : Type := {
  analytics : value;
  loading : bool;
  error : string
}.

(** What the loader finds outside: whether the effect has been cleaned up
    ([cancelled]), the JSON body of the provider's answer ([None] when
    [fetch] or [res.json()] rejects) and [Date.now()] in milliseconds.
    The blob kept in IndexedDB under ["analyticsCache"] is only written by
    the two views, as a plain object; [None] is the absent blob. *)
Record world : Type := {
  cancelled : bool;
  response : option value;
  now_ms : Z
}.

(** The timestamp the loop computes for a truthy entry [val]. *)
Definition entry_stamp (val : value) : number :=
  let resp := get_own val "response" in
  if truthy resp && truthy (get_own resp "timestamp") then
    Date_parse (to_string (get_own resp "timestamp"))
  else
    let ts := get_own val "_cached_at_ts" in
    if truthy ts then num_mul (to_number ts) (Fin 1000) else NegInf.

(** One turn of [candidateKeys.forEach], on [(bestKey, bestStamp)]. *)
Definition select_step (savedCache : fields) (best : string * number)
           (k : string) : string * number :=
  let val := field k savedCache in
  if negb (truthy val) then best
  else
    let stamp := entry_stamp val in
    if num_truthy stamp && num_gt stamp (snd best) then (k, stamp)
    else best.

Definition candidateKeys (id : string) (savedCache : fields)
  : list string :=
  filter (String.prefix (id ++ "_")%string) (map fst savedCache).

(** [bestKey] after the loop; [None] when there is no candidate. *)
Definition bestKey (savedCache : fields) (cands : list string)
  : option string :=
  match cands with
  | [] => None
  | k0 :: _ =>
      Some (fst (fold_left (select_step savedCache) cands (k0, NegInf)))
  end.

(** Step 1 of the loader: the entry served from the blob, if any. *)
Definition cachedEntry (id : string) (blob : option fields)
  : option value :=
  match blob with
  | None => None
  | Some savedCache =>
      match bestKey savedCache (candidateKeys id savedCache) with
      | None => None
      | Some k =>
          let entry := field k savedCache in
          if truthy entry then Some entry else None
      end
  end.

Definition set_error (w : world) (msg : string) (st : state) : state :=
  if cancelled w then st
  else {| analytics := analytics st; loading := loading st; error := msg |}.

Definition set_analytics (w : world) (v : value) (st : state) : state :=
  if cancelled w then st
  else {| analytics := v; loading := loading st; error := error st |}.

Definition set_loading (b : bool) (st : state) : state :=
  {| analytics := analytics st; loading := b; error := error st |}.

(** [finally { if (!cancelled) setLoading(false); }] *)
Definition finally_ (w : world) (st : state) : state :=
  if cancelled w then st else set_loading false st.

(** The entry the loader stores after a fetch. *)
Definition new_entry (w : world) (data : value) : value :=
  VObj [("_cached_at_ts", VNum (of_Z (now_ms w / 1000)));
        ("response", data)].

Definition insights_key (id : string) (data : value) : string :=
  let start := or_else (get_own data "start_date") (VStr "") in
  let end_ := or_else (get_own data "end_date") (VStr "") in
  (id ++ "_" ++ to_string (or_else start (VStr "auto")) ++ "_"
      ++ to_string (or_else end_ (VStr "auto")))%string.

(** [loadForFarm] for the farm [id] whose document is [farm] (not
    [null]: the effect returns early otherwise).  Result: the state, the
    blob and the requests sent. *)
Definition loadForFarm (id : string) (farm : value) (w : world)
           (blob : option fields) (st : state)
  : state * option fields * list event :=
  let st := set_loading true st in
  match cachedEntry id blob with
  | Some entry =>
      let normalized :=
        normalizeAnalytics (or_else (get_own entry "response") entry) in
      (finally_ w (set_loading false (set_analytics w normalized st)),
       blob, [])
  | None =>
      let coords := get_own farm "coordinates" in
      if truthy coords && truthy (get_own coords "length") then
        let body :=
          {| coordinates := coords;
             start_date := VUndefined;
             end_date := VUndefined;
             farm_id := id;
             force_refresh := false |} in
        let rejected :=
          set_error w "Failed to fetch analytics (check console)." st in
        match response w with
        | None => (finally_ w rejected, blob, [Fetch body])
        | Some data =>
            match get_prop data "error" with
            | Ok err =>
                if truthy err then
                  (finally_ w
                     (set_error w ("Failed to fetch analytics: "
                                   ++ to_string err)%string st),
                   blob, [Fetch body])
                else
                  let normalized := normalizeAnalytics data in
                  let globalCache :=
                    match blob with Some c => c | None => [] end in
                  (finally_ w (set_analytics w normalized st),
                   Some (set_prop (insights_key id data)
                                  (new_entry w data) globalCache),
                   [Fetch body])
            | _ => (finally_ w rejected, blob, [Fetch body])
            end
        end
      else (finally_ w st, blob, [])
  end.

(** *** [soilPoints] *)

(** Callback of the [soil_moisture_points] branch. *)
Definition moisture_point (p : value) : result point :=
  if nullish p then Throw TypeError
  else
    let lat_ := coalesce (coalesce (get_own p "lat") (get_own p "latitude"))
                         (get_own p "1") in
    let lng_ := coalesce (coalesce (get_own p "lng") (get_own p "longitude"))
                         (get_own p "0") in
    Ok {| lat := to_number lat_;
          lng := to_number lng_;
          moisture :=
            VNum (to_number
                    (coalesce (coalesce (coalesce (get_own p "moisture")
                                                  (get_own p "value"))
                                        (get_own p "m"))
                              VNull));
          date := coalesce (coalesce (get_own p "date")
                                     (get_own p "timestamp"))
                           VNull |}.

(** Callback of the [soil_samples] branch. *)
Definition sample_point (s : value) : result point :=
  if nullish s then Throw TypeError
  else
    let loc := get_own s "location" in
    let lat_ :=
      coalesce (coalesce (coalesce (get_own s "lat") (get_own s "latitude"))
                         (get_opt loc "lat"))
               VNull in
    let lng_ :=
      coalesce (coalesce (coalesce (get_own s "lng") (get_own s "longitude"))
                         (get_opt loc "lng"))
               VNull in
    Ok {| lat := to_number lat_;
          lng := to_number lng_;
          moisture :=
            VNum (to_number
                    (coalesce (coalesce (coalesce (get_own s "moisture")
                                                  (get_own s "value"))
                                        (get_own s "moisture_value"))
                              VNull));
          date := coalesce (coalesce (get_own s "date")
                                     (get_own s "sample_date"))
                           VNull |}.

Definition on_map (pt : point) : bool :=
  negb (isNaN (lat pt)) && negb (isNaN (lng pt)).

(** Callback of the centroid fall-back; [None] is [null]. *)
Definition series_moisture (d : value) : result (option number) :=
  match d with
  | VNum n => Ok (Some n)
  | _ =>
      if nullish d then Ok None
      else
        let* moisture_ := has_in "moisture" d in
        if moisture_ then Ok (Some (to_number (get_own d "moisture")))
        else
          let* value_ := has_in "value" d in
          if value_ then Ok (Some (to_number (get_own d "value")))
          else
            let* keys := object_keys d in
            Ok (first_numeric d keys)
  end.

(** [polygonPositions], memoised from the [farm] document. *)
Definition polygonPositions (farm : value)
  : result (list (number * number)) :=
  normalizeToLatLngArray (get_opt farm "coordinates").

(** [soilPoints], from the [analytics] state, the [farm] document and the
    memoised [polygonPositions]. *)
Definition soilPoints (analytics_ farm : value)
           (positions : list (number * number))
  : result (list point) :=
  if negb (truthy analytics_) && negb (truthy farm) then Ok []
  else
    match get_opt analytics_ "soil_moisture_points" with
    | VArr ps =>
        let* pts := map_result moisture_point ps in
        Ok (filter on_map pts)
    | _ =>
        match get_opt analytics_ "soil_samples" with
        | VArr ss =>
            let* pts := map_result sample_point ss in
            Ok (filter on_map pts)
        | _ =>
            match centroidOfLatLngs positions with
            | None => Ok []
            | Some centroid =>
                let arr :=
                  coalesce
                    (coalesce (get_opt analytics_ "soil_moisture")
                              (get_opt analytics_ "soil_moisture_timeseries"))
                    (VArr []) in
                let* avg :=
                  match arr with
                  | VArr ((_ :: _) as l) =>
                      let* vals := map_result series_moisture l in
                      match known_numbers vals with
                      | [] => Ok VNull
                      | nums => Ok (VNum (mean nums))
                      end
                  | _ => Ok VNull
                  end in
                let soil_moisture := get_opt analytics_ "soil_moisture" in
                let avg :=
                  if nullish avg && typeof_number soil_moisture
                  then soil_moisture else avg in
                Ok [{| lat := fst centroid; lng := snd centroid;
                       moisture := avg; date := VNull |}]
            end
        end
    end.

(** *** The markers of the map *)

Definition moistureToColor (m : value) : string :=
  if nullish m || isNaN (to_number m) then "#888"
  else if num_lt (to_number m) (lit 0.12) then "#e11d48"
  else if num_lt (to_number m) (lit 0.20) then "#f97316"
  else if num_lt (to_number m) (lit 0.35) then "#f59e0b"
  else if num_lt (to_number m) (lit 0.6) then "#10b981"
  else "#06b6d4".

Definition moistureToRadius (m : value) : number :=
  if nullish m || isNaN (to_number m) then Fin 6
  else
    let base := Fin 6 in
    let scale := num_max (Fin 0) (num_sub (lit 0.3) (to_number m)) in
    num_round (num_add base (num_mul scale (Fin 60))).

(** What [soilPoints.map] draws for one point: the main circle and, under
    the critical threshold, a halo around it.  The tooltip is left out. *)
Record marker : Type := {
  center : number * number;
  radius : number;
  colour : string;
  halo : option number
}.

Definition soilMarker (p : point) : marker :=
  let color := moistureToColor (moisture p) in
  let r := moistureToRadius (moisture p) in
  {| center := (lat p, lng p);
     radius := num_max (Fin 6) r;
     colour := color;
     halo := if negb (nullish (moisture p))
                && num_lt (to_number (moisture p)) (lit 0.12)
             then Some (num_add r (Fin 8))
             else None |}.

End Code.
End Insights.

(* ================================================================= *)
(** ** A runtime to run examples with

    It agrees with JavaScript on the strings and numbers the examples use:
    unsigned decimal integers.  No statement below depends on it except the
    closed examples. *)

Module Example.
Import JS.

Definition StringToNumber (s : string) : number :=
  if String.eqb s "" then Fin 0
  else match NilEmpty.uint_of_string s with
       | Some u => of_Z (Z.of_uint u)
       | None => NaN
       end.

Definition NumberToString (n : number) : string :=
  match n with
  | NaN => "NaN"
  | PosInf => "Infinity"
  | NegInf => "-Infinity"
  | Fin q => NilZero.string_of_int (Z.to_int (Qnum q / Zpos (Qden q)))
  end.

#[export] Instance runtime : Runtime := {|
  JS.StringToNumber := StringToNumber;
  JS.NumberToString := NumberToString;
  JS.JSON_parse := fun _ => None;
  JS.Date_parse := fun _ => NaN
|}.

(** A runtime that reads a few JSON texts and dates. *)
Definition reading : Runtime := {|
  JS.StringToNumber := StringToNumber;
  JS.NumberToString := NumberToString;
  JS.JSON_parse := fun s =>
    if String.eqb s "null" then Some VNull
    else if String.eqb s "[null]" then Some (VArr [VNull])
    else if String.eqb s "[[1,2],null]"
         then Some (VArr [VArr [VNum (Fin 1); VNum (Fin 2)]; VNull])
    else None;
  JS.Date_parse := fun s =>
    if String.eqb s "1970-01-01T00:00:00Z" then Fin 0
    else if String.eqb s "1969-12-31T00:00:00Z" then Fin (-86400000)
    else if String.eqb s "2025-01-01T00:00:00Z" then Fin 1735689600000
    else NaN
|}.

(** Sample data. *)

Definition polygon : list value :=
  [ VArr [VNum (Fin 23.01); VNum (Fin 72.50)];
    VArr [VNum (Fin 23.02); VNum (Fin 72.51)];
    VArr [VNum (Fin 23.03); VNum (Fin 72.50)] ].

Definition payload : value :=
  VObj [("temperature",
         VArr [VObj [("temp", VNum (Fin 305)); ("date", VStr "2025-01-01")]]);
        ("rainfall",
         VArr [VObj [("rain", VNum (Fin 4.2)); ("date", VStr "2025-01-01")]])].

Definition failure : value := VObj [("error", VStr "quota exceeded")].

Definition key : string := "farm1_2025-01-01_2025-03-31".

Definition idle : Dashboard.state :=
  {| Dashboard.analytics := VNull;
     Dashboard.loading := false;
     Dashboard.updatingLabel := "";
     Dashboard.analyticsCache := [] |}.

Definition warm : Dashboard.state :=
  {| Dashboard.analytics := VNull;
     Dashboard.loading := false;
     Dashboard.updatingLabel := "";
     Dashboard.analyticsCache :=
       [(key, VObj [("growth_stage", VStr "tillering")])] |}.

Definition answers (data : value) : Dashboard.world :=
  {| Dashboard.response := Some data; Dashboard.mounted := true |}.

Definition farm : value :=
  VObj [("name", VStr "North field"); ("coordinates", VArr polygon)].

Definition insights_idle : Insights.state :=
  {| Insights.analytics := VNull;
     Insights.loading := true;
     Insights.error := "" |}.

Definition insights_answers (data : value) : Insights.world :=
  {| Insights.cancelled := false;
     Insights.response := Some data;
     Insights.now_ms := 1767225600123 |}.

Definition entry_at (seconds : Z) : value :=
  VObj [("_cached_at_ts", VNum (of_Z seconds)); ("response", payload)].

Definition store : fields :=
  [ ("farm1_2025-01-01_2025-03-31", entry_at 1700000000);
    ("farm2_auto_auto", entry_at 1800000000);
    ("farm1_auto_auto", entry_at 1750000000);
    ("farm1_2024-01-01_2024-03-31",
     VObj [("growth_stage", VStr "tillering")]) ].

(** The output of the dashboard's normalizer on [raw], when it is an
    object. *)
Definition normalized (raw : value) : fields :=
  match Dashboard.normalizeAnalytics (rt := runtime) raw with
  | Ok (VObj out) => out
  | _ => []
  end.

Definition named_polygon : list value :=
  [ VObj [("lat", VNum (Fin 23.01)); ("lng", VNum (Fin 72.50))];
    VObj [("lat", VNum (Fin 23.02)); ("lng", VNum (Fin 72.51))] ].

Definition delimited : string := "72,23;73,24".

Definition nested : fields :=
  [("soil", VObj [("moisture", VArr [VObj [("moisture", VNum (Fin 0.2))]])])].

Definition broken : fields := [("temperature", VArr [VNum (Fin 300)])].

Definition gaps : fields := [("rainfall", VArr [VNull])].

Definition typed_rain : value :=
  VObj [("rainfall", VArr [VObj [("rain_mm", VStr "4")]])].

Definition dry : value :=
  VObj [("rainfall",
         VArr [VObj [("rain_mm", VNum (Fin 0)); ("date", VStr "2025-01-01")];
               VObj [("rain_mm", VNum (Fin 0)); ("date", VStr "2025-01-02")]])].

Definition ndvi_series : list value :=
  [ VObj [("ndvi", VNum (Fin 0.4))]; VNull; VObj [("ndvi", VNum (Fin 0.6))] ].

(** The thresholds of the NDVI gauge. *)
Definition ndvi_thresholds : list Dashboard.threshold :=
  [ {| Dashboard.limit := lit 0.3; Dashboard.label := "Poor";
       Dashboard.colorClass := Some "indicator-bad" |};
    {| Dashboard.limit := lit 0.6; Dashboard.label := "Moderate";
       Dashboard.colorClass := Some "indicator-warning" |};
    {| Dashboard.limit := Fin 1; Dashboard.label := "Healthy";
       Dashboard.colorClass := Some "indicator-good" |} ].

(** A first request of the dashboard for the year before. *)
Definition earlier : Dashboard.state * list Dashboard.event :=
  match Dashboard.fetchAnalytics
          (rt := runtime) "farm1" (VArr polygon) "2024-01-01" "2024-03-31"
          true false (answers payload) warm with
  | Ok r => r
  | _ => (warm, [])
  end.

Definition unplaced_samples : value :=
  VObj [("soil_samples", VArr [VObj [("moisture", VNum (Fin 0.2))]])].

Definition mixed_points : value :=
  VObj [("soil_moisture_points",
         VArr [ VObj [("moisture", VNum (Fin 0.2))];
                VObj [("lat", VNum (Fin 23.01)); ("lng", VNum (Fin 72.50));
                      ("moisture", VNum (Fin 0.1))] ])].


(** Two stores with an entry stamped at the epoch itself: by its
    [response.timestamp], next to an entry of the day before, and by its
    [_cached_at_ts], after an entry without any timestamp. *)
Definition dated (timestamp : string) : value :=
  VObj [("response", VObj [("timestamp", VStr timestamp)])].

Definition dated_store : fields :=
  [ ("farm1_x", dated "1969-12-31T00:00:00Z");
    ("farm1_y", dated "1970-01-01T00:00:00Z") ].

Definition epoch_store : fields :=
  [ ("farm1_a",
     VObj [("response", VObj [("growth_stage", VStr "tillering")])]);
    ("farm1_b", VObj [("_cached_at_ts", VNum (Fin 0));
                      ("response", payload)]) ].

(** Three samples of one tenth, as the double nearest to it. *)
Definition tenths : list value :=
  [ VObj [("ndvi", VNum (lit 0.1))]; VObj [("ndvi", VNum (lit 0.1))];
    VObj [("ndvi", VNum (lit 0.1))] ].

End Example.

(* ================================================================= *)
(** ** Vocabulary of the specification *)

Module Spec.
Import JS.

(** A 2-element numeric pair: an array of two numbers, neither [NaN]. *)
Definition numeric_pair (p : value) : bool :=
  match p with
  | VArr [VNum x; VNum y] => negb (isNaN x) && negb (isNaN y)
  | _ => false
  end.

(** A pair with its two components exchanged. *)
Definition swapped (p : value) : value :=
  match p with
  | VArr [a; b] => VArr [b; a]
  | _ => p
  end.

(** [-90 <= a <= 90] and [-180 <= b <= 180]. *)
Definition lat_lng_range (a b : number) : Prop :=
  match a, b with
  | Fin x, Fin y => (-90 <= x /\ x <= 90) /\ (-180 <= y /\ y <= 180)
  | _, _ => False
  end.

(** The two numbers of a numeric pair. *)
Definition pair_numbers (p : value) : number * number :=
  match p with
  | VArr [VNum x; VNum y] => (x, y)
  | _ => (NaN, NaN)
  end.

(** A property name that is not the decimal spelling of an index. *)
Definition starts_with_digit (s : string) : bool :=
  match s with
  | String c _ =>
      let n := nat_of_ascii c in (48 <=? n)%nat && (n <=? 57)%nat
  | EmptyString => false
  end.

(** *** Metric families *)

Section Families.
Context {rt : Runtime}.








(** A sample object on which none of [names] is present and no property
    other than [date] has a numeric value. *)
Definition unresolvable (names : list string) (fs : fields) : Prop :=
  (forall n, In n names -> has_key n fs = false)
  /\ Dashboard.first_numeric (VObj fs) (map fst fs) = None.

(** The four series [normalizeAnalytics] maps a callback over. *)
Definition series_callback (key : string)
  : option (value -> result value) :=
  if String.eqb key "temperature" then Some Dashboard.temperature_sample
  else if String.eqb key "soil_temperature"
       then Some Dashboard.soil_temperature_sample
  else if String.eqb key "canopy_temperature"
       then Some Dashboard.canopy_temperature_sample
  else if String.eqb key "rainfall" then Some Dashboard.rainfall_sample
  else None.

(** A sample that is neither falsy nor an object: a number other than
    zero, a non-empty string, [true]. *)
Definition primitive_sample (d : value) : bool :=
  truthy d && negb (typeof_object d).

End Families.

(** The seventeen metric families of the normalized analytics. *)
Definition metric_families : list string :=
  [ "temperature"; "soil_temperature"; "canopy_temperature"; "rainfall";
    "ndvi_timeseries"; "evi_timeseries"; "gndvi_timeseries";
    "savi_timeseries"; "ndwi_timeseries"; "msavi_timeseries";
    "arvi_timeseries"; "lai_timeseries"; "chlorophyll_index";
    "water_stress_index"; "biomass_proxy"; "canopy_fraction";
    "soil_moisture" ].

(** The keys [normalizeAnalytics] reads on its input: the metric families,
    [soil_profile], [alerts] and the two nested groups. *)
Definition expected_keys : list string :=
  metric_families ++ [ "soil_profile"; "alerts"; "weather"; "soil" ].

(** The keys [normalizeAnalytics] may assign. *)
Definition written_keys : list string :=
  metric_families ++ [ "soil_profile"; "alerts" ].

(** What the normalizer appends to an input that has none of them. *)
Definition defaults : fields :=
  map (fun k => (k, VArr [])) metric_families
  ++ [ ("soil_profile", VObj []);
       ("alerts", VObj [("frost", VArr []); ("heat", VArr [])]) ].

(** *** Inputs of the coordinate resolver *)

Section Shapes.
Context {rt : Runtime}.


End Shapes.

(** Every property that holds an array in [out] holds one in [out']. *)
Definition keeps_arrays (out out' : fields) : Prop :=
  forall k, isArray (field k out) = true -> isArray (field k out') = true.

(** *** Ranges of sample values *)

(** A finite number between [lo] and [hi]. *)
Definition finite_between (lo hi : Q) (n : number) : Prop :=
  match n with
  | Fin x => lo <= x /\ x <= hi
  | _ => False
  end.

Section Samples.
Context {rt : Runtime}.

(** A sample that [safeAvg] skips ([null], [undefined], or no number under
    [key]) or whose value under [key] lies between [lo] and [hi]. *)
Definition sample_in_range (key : string) (lo hi : Q) (d : value) : Prop :=
  nullish d = true
  \/ isNaN (to_number (get_own d key)) = true
  \/ finite_between lo hi (to_number (get_own d key)).

End Samples.


(** *** Cache and provider *)


(** The cache serves the key [k]: the lookup yields an entry (a value
    JavaScript takes for true, as every object is). *)
Definition cache_hit (k : string) (cache : fields) : bool :=
  truthy (field k cache).

(** The shape [{cachedAtEpochSeconds: number, response}] of a cache entry,
    the timestamp being stored under [_cached_at_ts]. *)
Definition is_cache_entry (v : value) : bool :=
  match v with
  | VObj fs => typeof_number (field "_cached_at_ts" fs) && has_key "response" fs
  | _ => false
  end.

(** A timestamp the selection can use: a number other than [NaN], zero and
    [-Infinity]. *)
Definition usable_stamp (s : number) : bool :=
  num_truthy s && num_gt s NegInf.

Section Stamps.
Context {rt : Runtime}.

(** The timestamp of the entry stored under [k], when the entry is there
    and its timestamp can be used. *)
Definition stamp_of (savedCache : fields) (k : string) : option number :=
  let val := field k savedCache in
  if truthy val then
    let s := Insights.entry_stamp val in
    if usable_stamp s then Some s else None
  else None.

End Stamps.

(** The entry [val] carries [response.timestamp]. *)
Definition has_response_timestamp (val : value) : bool :=
  truthy (get_own val "response")
  && truthy (get_own (get_own val "response") "timestamp").

Section Selection.
Context {rt : Runtime}.

(** What holds of [(bestKey, bestStamp)] once the loop has gone through the
    keys [pre], [k0] being the first candidate: either no key of [pre] has
    a usable timestamp and the pair is still [(k0, -Infinity)], or
    [bestKey] is in [pre] with timestamp [bestStamp], every key before it
    is strictly older and no key after it is newer. *)
Definition selection_inv (savedCache : fields) (k0 : string)
           (pre : list string) (best : string * number) : Prop :=
  (fst best = k0 /\ snd best = NegInf
   /\ forall k, In k pre -> stamp_of savedCache k = None)
  \/ (stamp_of savedCache (fst best) = Some (snd best)
      /\ exists l1 l2,
           pre = l1 ++ fst best :: l2
           /\ (forall k s, In k l1 -> stamp_of savedCache k = Some s ->
                           num_lt s (snd best) = true)
           /\ (forall k s, In k l2 -> stamp_of savedCache k = Some s ->
                           num_le s (snd best) = true)).

End Selection.

(** *** Positions on the map *)

(** A sample of [soil_samples] that carries no position at all. *)
Definition without_position (s : value) : bool :=
  negb (nullish s)
  && nullish (get_own s "lat") && nullish (get_own s "latitude")
  && nullish (get_opt (get_own s "location") "lat")
  && nullish (get_own s "lng") && nullish (get_own s "longitude")
  && nullish (get_opt (get_own s "location") "lng").

Definition is_undefined (v : value) : bool :=
  match v with VUndefined => true | _ => false end.

(** A point of [soil_moisture_points] with no latitude to read: neither
    [lat] nor [latitude], and nothing at index 1. *)
Definition without_latitude (p : value) : bool :=
  nullish (get_own p "lat") && nullish (get_own p "latitude")
  && is_undefined (get_own p "1").

(** A position with finite coordinates inside the box. *)
Definition in_box (south north west east : Q) (p : number * number) : Prop :=
  finite_between south north (fst p) /\ finite_between west east (snd p).

End Spec.

(* ================================================================= *)
(** ** Properties of the rounding *)

Section Rounding.
Import JS.
Local Open Scope Q_scope.


Lemma pow2_pos (k : Z) : 0 < pow2 k.
Proof. unfold pow2. now apply Qpower_0_lt. Qed.

Lemma pow2_le (k k' : Z) : (k <= k')%Z -> pow2 k <= pow2 k'.
Proof. intros H. unfold pow2. apply Qpower_le_compat_l; [exact H|discriminate]. Qed.

Lemma pow2_lt_inv (k k' : Z) : pow2 k < pow2 k' -> (k < k')%Z.
Proof. intros H. unfold pow2 in H. apply Qpower_lt_compat_l_inv in H; [exact H|reflexivity]. Qed.

Lemma pow2_plus (k k' : Z) : pow2 (k + k') == pow2 k * pow2 k'.
Proof. unfold pow2. apply Qpower_plus. discriminate. Qed.

Lemma pow2_Z (k : Z) : (0 <= k)%Z -> pow2 k == inject_Z (2 ^ k).
Proof. intros H. unfold pow2. now rewrite Zpower_Qpower. Qed.

Lemma Qle_bool_false (x y : Q) : Qle_bool x y = false -> y < x.
Proof.
  intros H. apply Qnot_le_lt. intros Hle. apply Qle_bool_iff in Hle. congruence.
Qed.

(** [ilog2] is the floor of the binary logarithm. *)
Lemma ilog2_spec (x : Q) :
  0 < x -> pow2 (ilog2 x) <= x /\ x < pow2 (ilog2 x + 1).
Proof.
  intros Hx. destruct x as [n d]. unfold Qlt in Hx. simpl in Hx.
  assert (Hn : (0 < n)%Z) by lia.
  unfold ilog2. cbn [Qnum Qden].
  set (a := Z.log2 n). set (b := Z.log2 (Z.pos d)).
  assert (Ha0 : (0 <= a)%Z) by apply Z.log2_nonneg.
  assert (Hb0 : (0 <= b)%Z) by apply Z.log2_nonneg.
  destruct (Z.log2_spec n Hn) as [Ha1 Ha2]. fold a in Ha1, Ha2.
  destruct (Z.log2_spec (Z.pos d) eq_refl) as [Hb1 Hb2]. fold b in Hb1, Hb2.
  assert (Ea : pow2 a == inject_Z (2 ^ a)) by now apply pow2_Z.
  assert (Ea' : pow2 (a + 1) == inject_Z (2 ^ (a + 1)))
    by (apply pow2_Z; lia).
  assert (Eb : pow2 b == inject_Z (2 ^ b)) by now apply pow2_Z.
  assert (Eb' : pow2 (b + 1) == inject_Z (2 ^ (b + 1)))
    by (apply pow2_Z; lia).
  assert (Hx' : n # d == inject_Z n / inject_Z (Z.pos d)) by apply Qmake_Qdiv.
  assert (Hd : 0 < inject_Z (Z.pos d)) by reflexivity.
  assert (Qa1 : pow2 a <= inject_Z n) by (rewrite Ea, <- Zle_Qle; exact Ha1).
  assert (Qa2 : inject_Z n < pow2 (a + 1))
    by (rewrite Ea', <- Zlt_Qlt; lia).
  assert (Qb1 : pow2 b <= inject_Z (Z.pos d))
    by (rewrite Eb, <- Zle_Qle; exact Hb1).
  assert (Qb2 : inject_Z (Z.pos d) < pow2 (b + 1))
    by (rewrite Eb', <- Zlt_Qlt; lia).
  pose proof (pow2_pos a) as Pa. pose proof (pow2_pos b) as Pb.
  pose proof (pow2_pos (b + 1)) as Pb'.
  (* the two outer bounds *)
  assert (Lo : pow2 (a - b - 1) <= n # d).
  { rewrite Hx'. apply Qle_shift_div_l; [exact Hd|].
    apply Qle_trans with (pow2 (a - b - 1) * pow2 (b + 1)).
    - apply Qmult_le_l; [apply pow2_pos|now apply Qlt_le_weak].
    - rewrite <- pow2_plus. replace (a - b - 1 + (b + 1))%Z with a by lia.
      exact Qa1. }
  assert (Hi : n # d < pow2 (a - b + 1)).
  { rewrite Hx'. apply Qlt_shift_div_r; [exact Hd|].
    apply Qlt_le_trans with (pow2 (a + 1)); [exact Qa2|].
    replace (a + 1)%Z with (a - b + 1 + b)%Z at 1 by lia.
    rewrite pow2_plus. apply Qmult_le_l; [apply pow2_pos|exact Qb1]. }
  destruct (Qle_bool (pow2 (a - b)) (n # d)) eqn:E.
  - apply Qle_bool_iff in E. split; [exact E|exact Hi].
  - apply Qle_bool_false in E. split; [exact Lo|].
    now replace (a - b - 1 + 1)%Z with (a - b)%Z by lia.
Qed.

Lemma ilog2_mono (x y : Q) : 0 < x -> x <= y -> (ilog2 x <= ilog2 y)%Z.
Proof.
  intros Hx Hxy.
  destruct (ilog2_spec x Hx) as [H1 _].
  destruct (ilog2_spec y (Qlt_le_trans _ _ _ Hx Hxy)) as [_ H2].
  assert (H : pow2 (ilog2 x) < pow2 (ilog2 y + 1))
    by (eapply Qle_lt_trans; [exact H1|]; eapply Qle_lt_trans; eassumption).
  apply pow2_lt_inv in H. lia.
Qed.

Lemma rne_bounds (q : Q) :
  (rne q = Qfloor q \/ rne q = Qfloor q + 1)%Z.
Proof.
  unfold rne. destruct (Qcompare _ _); auto. destruct (Z.even _); auto.
Qed.

Lemma rne_mono (a b : Q) : a <= b -> (rne a <= rne b)%Z.
Proof.
  intros Hab. pose proof (Qfloor_resp_le a b Hab) as Hf.
  destruct (Z.eq_dec (Qfloor a) (Qfloor b)) as [E|Hne].
  - unfold rne. rewrite <- E.
    destruct (Qcompare (a - inject_Z (Qfloor a)) (1 # 2)) eqn:Ca,
             (Qcompare (b - inject_Z (Qfloor a)) (1 # 2)) eqn:Cb;
      try (destruct (Z.even (Qfloor a))); try lia; exfalso;
      first [apply Qeq_alt in Ca|apply Qlt_alt in Ca|apply Qgt_alt in Ca];
      first [apply Qeq_alt in Cb|apply Qlt_alt in Cb|apply Qgt_alt in Cb];
      lra.
  - destruct (rne_bounds a), (rne_bounds b); lia.
Qed.

Lemma rne_int (z : Z) : rne (inject_Z z) = z.
Proof.
  unfold rne. rewrite Qfloor_Z.
  assert (E : inject_Z z - inject_Z z == 0) by ring.
  assert (C : Qcompare (inject_Z z - inject_Z z) (1 # 2) = Lt).
  { apply Qlt_alt. rewrite E. reflexivity. }
  now rewrite C.
Qed.

Lemma binade_mono (x y : Q) : 0 < x -> x <= y -> (binade x <= binade y)%Z.
Proof.
  intros Hx Hxy. unfold binade.
  pose proof (ilog2_mono x y Hx Hxy). lia.
Qed.

Lemma nearest_nonneg (x : Q) : 0 < x -> 0 <= nearest x.
Proof.
  intros Hx. unfold nearest.
  apply Qmult_le_0_compat; [|apply Qlt_le_weak, pow2_pos].
  change 0 with (inject_Z 0). rewrite <- Zle_Qle.
  rewrite <- (rne_int 0). apply rne_mono.
  apply Qle_shift_div_l; [apply pow2_pos|].
  change (inject_Z 0) with 0. rewrite Qmult_0_l. now apply Qlt_le_weak.
Qed.

Lemma nearest_mono (x y : Q) : 0 < x -> x <= y -> nearest x <= nearest y.
Proof.
  intros Hx Hxy. pose proof (Qlt_le_trans _ _ _ Hx Hxy) as Hy.
  pose proof (binade_mono x y Hx Hxy) as He.
  unfold nearest.
  destruct (Z.eq_dec (binade x) (binade y)) as [E|Hne].
  - rewrite <- E. apply Qmult_le_compat_r; [|apply Qlt_le_weak, pow2_pos].
    rewrite <- Zle_Qle. apply rne_mono.
    apply Qle_shift_div_l; [apply pow2_pos|].
    unfold Qdiv. rewrite <- Qmult_assoc, (Qmult_comm (/ _)), Qmult_inv_r,
      Qmult_1_r; [exact Hxy|].
    apply Qnot_eq_sym, Qlt_not_eq, pow2_pos.
  - assert (Hlt : (binade x < binade y)%Z) by lia.
    apply Qle_trans with (pow2 (binade x + 53)).
    + (* the value of [x] stays within its binade *)
      rewrite pow2_plus, (Qmult_comm (pow2 (binade x))).
      apply Qmult_le_compat_r; [|apply Qlt_le_weak, pow2_pos].
      rewrite (pow2_Z 53) by lia. rewrite <- Zle_Qle.
      rewrite <- (rne_int (2 ^ 53)). apply rne_mono.
      apply Qle_shift_div_r; [apply pow2_pos|].
      rewrite <- (pow2_Z 53) by lia. rewrite <- pow2_plus.
      destruct (ilog2_spec x Hx) as [_ H2].
      apply Qlt_le_weak. eapply Qlt_le_trans; [exact H2|].
      apply pow2_le. unfold binade. lia.
    + apply Qle_trans with (pow2 (binade y + 52)); [apply pow2_le; lia|].
      rewrite pow2_plus, (Qmult_comm (pow2 (binade y))).
      apply Qmult_le_compat_r; [|apply Qlt_le_weak, pow2_pos].
      rewrite (pow2_Z 52) by lia. rewrite <- Zle_Qle.
      rewrite <- (rne_int (2 ^ 52)). apply rne_mono.
      apply Qle_shift_div_l; [apply pow2_pos|].
      rewrite <- (pow2_Z 52) by lia. rewrite <- pow2_plus.
      destruct (ilog2_spec y Hy) as [H1 _].
      eapply Qle_trans; [|exact H1].
      apply pow2_le. unfold binade in *. lia.
Qed.

Lemma round_pos_cases (x : Q) :
  round_pos x = PosInf
  \/ exists r, round_pos x = Fin r /\ r == nearest x.
Proof.
  unfold round_pos. destruct (Qle_bool _ _); [now left|right].
  eexists. split; [reflexivity|apply Qred_correct].
Qed.

Lemma round_pos_mono (x y : Q) :
  0 < x -> x <= y -> num_le (round_pos x) (round_pos y) = true.
Proof.
  intros Hx Hxy. pose proof (nearest_mono x y Hx Hxy) as H.
  unfold round_pos.
  destruct (Qle_bool (pow2 1024) (nearest y)) eqn:Ey.
  - now destruct (Qle_bool (pow2 1024) (nearest x)).
  - apply Qle_bool_false in Ey.
    destruct (Qle_bool (pow2 1024) (nearest x)) eqn:Ex.
    + apply Qle_bool_iff in Ex. lra.
    + cbn [num_le]. apply Qle_bool_iff. now rewrite !Qred_correct.
Qed.

Lemma round_pos_nonneg (x : Q) :
  0 < x -> num_le (Fin 0) (round_pos x) = true.
Proof.
  intros Hx. unfold round_pos. destruct (Qle_bool _ _); [reflexivity|].
  cbn [num_le]. apply Qle_bool_iff. rewrite Qred_correct.
  now apply nearest_nonneg.
Qed.

Lemma round64_not_nan (x : Q) : round64 x <> NaN.
Proof.
  unfold round64, round_pos.
  destruct (Qcompare x 0); try discriminate;
    destruct (Qle_bool _ _); discriminate.
Qed.

Lemma round64_zero (x : Q) : x == 0 -> round64 x = Fin 0.
Proof. intros H. unfold round64. apply Qeq_alt in H. now rewrite H. Qed.

Lemma num_le_neg (a b : number) :
  num_le a b = true -> num_le (num_neg b) (num_neg a) = true.
Proof.
  destruct a as [| | |x], b as [| | |y]; cbn [num_le num_neg];
    try discriminate; auto.
  intros H. apply Qle_bool_iff in H. apply Qle_bool_iff.
  rewrite !Qred_correct. lra.
Qed.

Lemma num_le_neg_zero (a : number) :
  num_le (Fin 0) a = true -> num_le (num_neg a) (Fin 0) = true.
Proof.
  destruct a as [| | |x]; cbn [num_le num_neg]; try discriminate; auto.
  intros H. apply Qle_bool_iff in H. apply Qle_bool_iff.
  rewrite Qred_correct. lra.
Qed.

Lemma num_le_trans (a b c : number) :
  num_le a b = true -> num_le b c = true -> num_le a c = true.
Proof.
  destruct a as [| | |x], b as [| | |y], c as [| | |z]; cbn [num_le];
    try discriminate; auto.
  intros H1 H2. apply Qle_bool_iff in H1, H2. apply Qle_bool_iff. lra.
Qed.

(** Rounding keeps the order. *)
Lemma round64_mono (x y : Q) :
  x <= y -> num_le (round64 x) (round64 y) = true.
Proof.
  intros Hxy. unfold round64.
  destruct (Qcompare x 0) eqn:Cx, (Qcompare y 0) eqn:Cy;
    first [apply Qeq_alt in Cx|apply Qlt_alt in Cx|apply Qgt_alt in Cx];
    first [apply Qeq_alt in Cy|apply Qlt_alt in Cy|apply Qgt_alt in Cy];
    try (exfalso; lra).
  - reflexivity.
  - now apply round_pos_nonneg.
  - apply num_le_neg_zero, round_pos_nonneg. lra.
  - apply num_le_neg, round_pos_mono; lra.
  - apply num_le_trans with (Fin 0).
    + apply num_le_neg_zero, round_pos_nonneg. lra.
    + now apply round_pos_nonneg.
  - now apply round_pos_mono.
Qed.

Lemma round64_nonneg (x : Q) : 0 <= x -> num_le (Fin 0) (round64 x) = true.
Proof.
  intros H. rewrite <- (round64_zero 0) by reflexivity.
  now apply round64_mono.
Qed.

End Rounding.

(* ================================================================= *)
(** ** Properties of the value layer *)

Section ValueFacts.
  Import JS.

Lemma lookup_app_none (k : string) (fs gs : fields) :
    lookup k fs = None -> lookup k (fs ++ gs) = lookup k gs.
  Proof.
    induction fs as [|[k' v] fs IH]; simpl; [reflexivity|].
    destruct (String.eqb k k'); [discriminate|exact IH].
  Qed.

Lemma lookup_set_prop_same (k : string) (v : value) (fs : fields) :
    lookup k (set_prop k v fs) = Some v.
  Proof.
    induction fs as [|[k' v'] fs IH]; simpl.
    - now rewrite String.eqb_refl.
    - destruct (String.eqb k k') eqn:E; simpl.
      + now rewrite String.eqb_refl.
      + now rewrite E.
  Qed.

Lemma lookup_set_prop_other (k k' : string) (v : value) (fs : fields) :
    k <> k' -> lookup k (set_prop k' v fs) = lookup k fs.
  Proof.
    intros Hne.
    induction fs as [|[k2 v2] fs IH]; simpl.
    - destruct (String.eqb_spec k k'); [contradiction|reflexivity].
    - destruct (String.eqb_spec k' k2) as [->|Hk]; simpl.
      + destruct (String.eqb_spec k k2); [contradiction|reflexivity].
      + destruct (String.eqb k k2); [reflexivity|exact IH].
  Qed.

Lemma field_set_prop_same (k : string) (v : value) (fs : fields) :
    field k (set_prop k v fs) = v.
  Proof. unfold field. now rewrite lookup_set_prop_same. Qed.

Lemma map_result_ok {A B : Type} (f : A -> result B) (g : A -> B)
        (l : list A) :
    (forall x, In x l -> f x = Ok (g x)) -> map_result f l = Ok (map g l).
  Proof.
    induction l as [|x l IH]; simpl; intros H; [reflexivity|].
    rewrite (H x (or_introl eq_refl)); simpl.
    rewrite IH by (intros y Hy; apply H; now right).
    reflexivity.
  Qed.

  (** Order facts on numbers. *)

Lemma Qltb_lt (x y : Q) : Qltb x y = true <-> (x < y)%Q.
  Proof.
    unfold Qltb. rewrite Qlt_alt.
    destruct (x ?= y)%Q; split; congruence.
  Qed.

Lemma Qltb_false_le (x y : Q) : Qltb x y = false <-> (y <= x)%Q.
  Proof.
    split; intros H.
    - apply Qnot_lt_le. intros Hlt. apply Qltb_lt in Hlt. congruence.
    - destruct (Qltb x y) eqn:E; [|reflexivity].
      apply Qltb_lt in E. exfalso. exact (Qlt_not_le _ _ E H).
  Qed.

Lemma num_gt_or_le (v c : number) :
    isNaN v = false -> isNaN c = false ->
    (num_gt v c = true /\ num_le v c = false)
    \/ (num_gt v c = false /\ num_le v c = true).
  Proof.
    unfold num_gt.
    destruct v as [| | |x], c as [| | |y]; simpl; try discriminate;
      intros _ _; auto.
    destruct (Qltb y x) eqn:E.
    - left. split; [reflexivity|].
      apply Qltb_lt in E.
      destruct (Qle_bool x y) eqn:E2; [|reflexivity].
      apply Qle_bool_iff in E2. exfalso. exact (Qlt_not_le _ _ E E2).
    - right. split; [reflexivity|].
      apply Qle_bool_iff. now apply Qltb_false_le.
  Qed.



End ValueFacts.

Section ArrayKeys.
  Import JS Spec.

Lemma index_key_digit (i : nat) : starts_with_digit (index_key i) = true.
  Proof.
    unfold index_key.
    destruct (Nat.to_uint i) as [|d|d|d|d|d|d|d|d|d|d]; reflexivity.
  Qed.

Lemma index_of_key_named (k : string) (n : nat) :
    starts_with_digit k = false -> index_of_key k n = None.
  Proof.
    intros Hk. unfold index_of_key.
    destruct (find _ (seq 0 n)) as [i|] eqn:E; [|reflexivity].
    apply find_some in E. destruct E as [_ E].
    apply String.eqb_eq in E. subst k.
    rewrite index_key_digit in Hk. discriminate.
  Qed.

Lemma has_in_array_named (k : string) (xs : list value) :
    starts_with_digit k = false -> String.eqb k "length" = false ->
    has_in k (VArr xs) = Ok false.
  Proof.
    intros Hk Hl. simpl. rewrite Hl, index_of_key_named by exact Hk.
    reflexivity.
  Qed.

End ArrayKeys.

(** Nothing in the value layer cuts a recursion short. *)

Section Returns.
Import JS.

Lemma bind_returns {A B : Type} (c : result A) (k : A -> result B) :
  c <> OutOfFuel -> (forall a, k a <> OutOfFuel) -> bind c k <> OutOfFuel.
Proof. destruct c; simpl; intros Hc Hk; [apply Hk|discriminate|congruence]. Qed.

Lemma map_result_returns {A B : Type} (f : A -> result B) (l : list A) :
  (forall x, f x <> OutOfFuel) -> map_result f l <> OutOfFuel.
Proof.
  intros Hf. induction l as [|x l IH]; simpl; [discriminate|].
  apply bind_returns; [apply Hf|intros y].
  apply bind_returns; [exact IH|discriminate].
Qed.

Lemma get_prop_returns (v : value) (k : string) : get_prop v k <> OutOfFuel.
Proof. unfold get_prop. destruct (nullish v); discriminate. Qed.

Lemma has_in_returns (k : string) (v : value) : has_in k v <> OutOfFuel.
Proof. destruct v; discriminate. Qed.

Lemma object_keys_returns (v : value) : object_keys v <> OutOfFuel.
Proof. destruct v; discriminate. Qed.

End Returns.

Ltac returns :=
  repeat first
    [ apply bind_returns; [|intros ?]
    | apply map_result_returns; intros ?
    | apply get_prop_returns
    | apply has_in_returns
    | apply object_keys_returns
    | discriminate
    | match goal with
      | |- (if ?b then _ else _) <> JS.OutOfFuel => destruct b
      | |- (match ?x with _ => _ end) <> JS.OutOfFuel => destruct x
      end ].

(* ================================================================= *)
(** ** The coordinate order resolver *)

Section Resolver.
  Import JS Spec Dashboard.
Context {rt : Runtime}.

Lemma lat_first_range (a b : number) :
    lat_first a b = true <-> lat_lng_range a b.
  Proof.
    unfold lat_first, lat_lng_range, num_ge.
    destruct a as [| | |x], b as [| | |y]; simpl;
      try (split; [discriminate|tauto]);
      try (rewrite ?andb_false_r; split; [discriminate|tauto]).
    rewrite !andb_true_iff, !Qle_bool_iff. tauto.
  Qed.

Lemma swap_pair_numeric (p : value) :
    numeric_pair p = true -> swap_pair p = Ok (swapped p).
  Proof.
    destruct p as [| | | | |[|[| | |x| | |] [|[| | |y| | |] [|? ?]]]|];
      simpl; try discriminate.
    reflexivity.
  Qed.

Lemma keep_pair_numeric (p : value) :
    numeric_pair p = true -> keep_pair p = Ok p.
  Proof.
    destruct p as [| | | | |[|[| | |x| | |] [|[| | |y| | |] [|? ?]]]|];
      simpl; try discriminate.
    reflexivity.
  Qed.

Lemma parseCoords_array_numeric (a b : number) (ps : list value) :
    let coords := VArr [VNum a; VNum b] :: ps in
    forallb numeric_pair coords = true ->
    parseCoords_array coords
    = if lat_first a b then Ok (VArr (map swapped coords))
      else Ok (VArr coords).
  Proof.
    intros coords H.
    assert (Hall : forall p, In p coords -> numeric_pair p = true)
      by (apply forallb_forall; exact H).
    assert (Hab : negb (isNaN a) && negb (isNaN b) = true)
      by (apply (Hall (VArr [VNum a; VNum b])); now left).
    apply andb_true_iff in Hab. destruct Hab as [Ha Hb].
    unfold parseCoords_array.
    change (nth 0 coords VUndefined) with (VArr [VNum a; VNum b]).
    change (to_number (get_own (VArr [VNum a; VNum b]) "0")) with a.
    change (to_number (get_own (VArr [VNum a; VNum b]) "1")) with b.
    change (negb (List.length coords =? 0)%nat) with true.
    rewrite Ha, Hb. cbn [isArray andb].
    destruct (lat_first a b).
    - rewrite (map_result_ok swap_pair swapped)
        by (intros p Hp; apply swap_pair_numeric, Hall, Hp).
      reflexivity.
    - rewrite (map_result_ok keep_pair (fun p => p))
        by (intros p Hp; apply keep_pair_numeric, Hall, Hp).
      now rewrite map_id.
  Qed.

Lemma parseCoords_of_array (xs : list value) :
    parseCoords (VArr xs) = parseCoords_array xs.
  Proof.
    unfold parseCoords, parseCoords_fuel, parseCoords_value.
    cbn [truthy negb typeof_object].
    rewrite has_in_array_named by reflexivity.
    reflexivity.
  Qed.

  (** C1.  On a non-empty array of 2-element numeric pairs the resolver
      looks at the first pair [(a, b)] only: when [-90 <= a <= 90] and
      [-180 <= b <= 180] every pair comes back swapped, otherwise every pair
      comes back unchanged; a sequence that starts with [(172, 40)] is
      returned unchanged. *)
Theorem parseCoords_numeric_pairs (a b : number) (ps : list value) :
    let coords := VArr [VNum a; VNum b] :: ps in
    forallb numeric_pair coords = true ->
    (lat_lng_range a b ->
     parseCoords (VArr coords) = Ok (VArr (map swapped coords)))
    /\ (~ lat_lng_range a b -> parseCoords (VArr coords) = Ok (VArr coords))
    /\ (a = Fin 172 -> b = Fin 40 ->
        parseCoords (VArr coords) = Ok (VArr coords)).
  Proof.
    intros coords H. subst coords.
    rewrite parseCoords_of_array.
    rewrite (parseCoords_array_numeric a b ps H).
    repeat split.
    - intros Hr. apply lat_first_range in Hr. now rewrite Hr.
    - intros Hr. destruct (lat_first a b) eqn:E; [|reflexivity].
      apply lat_first_range in E. contradiction.
    - intros -> ->. reflexivity.
  Qed.


(** The resolver raises on an array that holds [null] where it expects a
    vertex. *)
Lemma parseCoords_null_vertex :
  parseCoords (VArr [VNull]) = Throw TypeError
  /\ parseCoords (VArr [VArr [VNum (Fin 1); VNum (Fin 2)]; VNull])
     = Throw TypeError.
Proof. split; reflexivity. Qed.

(** *** The bound of the recursion is never reached *)

Lemma parseCoords_array_returns (xs : list value) :
  parseCoords_array xs <> OutOfFuel.
Proof.
  unfold parseCoords_array, swap_pair, keep_pair, lng_lat_of, guess_pair.
  returns.
Qed.

Lemma parseCoords_value_returns (coords : value) :
  parseCoords_value coords <> OutOfFuel.
Proof.
  unfold parseCoords_value.
  apply bind_returns; [returns|intros point].
  destruct point; [discriminate|].
  destruct coords; try discriminate. apply parseCoords_array_returns.
Qed.

Section Fuel.

(** A JSON text is longer than the string it encodes. *)
Hypothesis JSON_parse_shorter :
  forall s s', JSON_parse s = Some (VStr s') ->
               (String.length s' < String.length s)%nat.

Lemma parseCoords_fuel_enough (fuel : nat) (coords : value) :
  match coords with
  | VStr s => (String.length s < fuel)%nat
  | _ => True
  end ->
  parseCoords_fuel fuel coords <> OutOfFuel.
Proof.
  revert coords. induction fuel as [|fuel IH]; intros coords Hlen.
  - destruct coords; try (exfalso; lia);
      unfold parseCoords_fuel;
      (destruct (negb (truthy _)); [discriminate|]);
      apply parseCoords_value_returns.
  - cbn [parseCoords_fuel].
    destruct (negb (truthy coords)); [discriminate|].
    destruct coords; try apply parseCoords_value_returns.
    destruct (JSON_parse s) as [parsed|] eqn:E; [|discriminate].
    assert (Hrec : parseCoords_fuel fuel parsed <> OutOfFuel).
    { apply IH. destruct parsed; try exact I.
      apply JSON_parse_shorter in E. lia. }
    unfold try_catch.
    destruct (parseCoords_fuel fuel parsed); [discriminate|discriminate|].
    contradiction.
Qed.

(** [parseCoords] returns or raises on every input. *)
Lemma parseCoords_returns (coords : value) : parseCoords coords <> OutOfFuel.
Proof.
  unfold parseCoords. apply parseCoords_fuel_enough.
  destruct coords; try exact I. lia.
Qed.

End Fuel.

End Resolver.

(* ================================================================= *)
(** ** The metric series normalizer *)

Section Normalizer.
Import JS Spec Dashboard.
Context {rt : Runtime}.

Lemma has_in_ok_truthy (k : string) (d : value) (b : bool) :
  has_in k d = Ok b -> truthy d = true.
Proof. destruct d; simpl; congruence. Qed.

Lemma bind_ok_inv {A B : Type} (c : result A) (k : A -> result B) (b : B) :
  bind c k = Ok b -> exists a, c = Ok a /\ k a = Ok b.
Proof. destruct c; simpl; intros H; try discriminate. eauto. Qed.


Lemma has_key_lookup (k : string) (fs : fields) :
  has_key k fs = match lookup k fs with Some _ => true | None => false end.
Proof. reflexivity. Qed.







Lemma field_app_absent (k : string) (fs gs : fields) :
  lookup k fs = None -> field k (fs ++ gs) = field k gs.
Proof. intros H. unfold field. now rewrite lookup_app_none. Qed.

Lemma set_prop_app_absent (k : string) (v : value) (fs gs : fields) :
  lookup k fs = None -> set_prop k v (fs ++ gs) = fs ++ set_prop k v gs.
Proof.
  induction fs as [|[k' v'] fs IH]; simpl; [reflexivity|].
  destruct (String.eqb k k'); [discriminate|].
  intros H. now rewrite IH.
Qed.

Lemma in_by_eqb (k : string) (l : list string) :
  existsb (String.eqb k) l = true -> In k l.
Proof.
  intros H. apply existsb_exists in H. destruct H as [x [Hx E]].
  apply String.eqb_eq in E. now subst.
Qed.

Lemma Ok_VObj_inj (a b : fields) : Ok (VObj a) = Ok (VObj b) -> a = b.
Proof. congruence. Qed.

Lemma promote_frame (key group nested : string) (fs gs : fields) :
  lookup key fs = None -> lookup group fs = None ->
  promote key group nested (fs ++ gs) = fs ++ promote key group nested gs.
Proof.
  intros Hk Hg. unfold promote.
  rewrite !field_app_absent by assumption.
  destruct (_ && _); [now apply set_prop_app_absent|reflexivity].
Qed.

Lemma normalize_series_frame (key : string) (f : value -> result value)
      (fs gs : fields) :
  lookup key fs = None ->
  normalize_series key f (fs ++ gs)
  = (let* out := normalize_series key f gs in Ok (fs ++ out)).
Proof.
  intros Hk. unfold normalize_series.
  rewrite field_app_absent by assumption.
  destruct (field key gs); simpl;
    try (now rewrite set_prop_app_absent by assumption).
  destruct (map_result f xs); simpl; try reflexivity.
  now rewrite set_prop_app_absent by assumption.
Qed.

Lemma ensure_array_frame (k : string) (fs gs : fields) :
  lookup k fs = None ->
  ensure_array (fs ++ gs) k = fs ++ ensure_array gs k.
Proof.
  intros Hk. unfold ensure_array.
  rewrite field_app_absent by assumption.
  destruct (isArray _); [reflexivity|now apply set_prop_app_absent].
Qed.

Lemma ensure_arrays_frame (keys : list string) (fs gs : fields) :
  (forall k, In k keys -> lookup k fs = None) ->
  fold_left ensure_array keys (fs ++ gs)
  = fs ++ fold_left ensure_array keys gs.
Proof.
  revert gs. induction keys as [|k keys IH]; intros gs H; [reflexivity|].
  cbn [fold_left].
  rewrite ensure_array_frame by (apply H; now left).
  apply IH. intros k' Hk'. apply H. now right.
Qed.

Lemma ensure_soil_profile_frame (fs gs : fields) :
  lookup "soil_profile" fs = None -> lookup "soil" fs = None ->
  ensure_soil_profile (fs ++ gs) = fs ++ ensure_soil_profile gs.
Proof.
  intros Hp Hs. unfold ensure_soil_profile.
  rewrite !field_app_absent by assumption.
  destruct (truthy (field "soil_profile" gs)); [reflexivity|].
  now apply set_prop_app_absent.
Qed.

Lemma ensure_alerts_frame (fs gs : fields) :
  lookup "alerts" fs = None ->
  ensure_alerts (fs ++ gs) = fs ++ ensure_alerts gs.
Proof.
  intros Ha. unfold ensure_alerts.
  rewrite field_app_absent by assumption.
  destruct (truthy _); [reflexivity|now apply set_prop_app_absent].
Qed.

(** What the normalizer makes of the empty object. *)
Lemma normalizeAnalytics_empty :
  normalizeAnalytics (VObj []) = Ok (VObj defaults).
Proof. reflexivity. Qed.

Lemma eqb_by_in (k : string) (l : list string) :
  In k l -> existsb (String.eqb k) l = true.
Proof.
  intros H. apply existsb_exists. exists k. split; [exact H|].
  apply String.eqb_refl.
Qed.

(** The families are the four mapped series and the arrays the normalizer
    makes sure of. *)
Lemma metric_families_split :
  metric_families
  = [ "temperature"; "soil_temperature"; "canopy_temperature"; "rainfall" ]
    ++ expectedArrays.
Proof. reflexivity. Qed.

(** On an object without any of the keys the normalizer reads, the
    normalizer appends the defaults and changes nothing else. *)
Lemma normalizeAnalytics_absent (fs : fields) :
  (forall k, In k expected_keys -> lookup k fs = None) ->
  normalizeAnalytics (VObj fs) = Ok (VObj (fs ++ defaults)).
Proof.
  intros H.
  assert (Hk : forall k, existsb (String.eqb k) expected_keys = true ->
                         lookup k fs = None)
    by (intros k Hk; apply H, in_by_eqb, Hk).
  pose proof normalizeAnalytics_empty as E.
  unfold normalizeAnalytics in *.
  cbn [truthy typeof_object negb orb spread] in *.
  rewrite <- (app_nil_r fs) at 1.
  rewrite !promote_frame by (apply Hk; reflexivity).
  set (p := promote _ _ _ (promote _ _ _ (promote _ _ _ (promote _ _ _ []))))
    in *.
  rewrite normalize_series_frame by (apply Hk; reflexivity).
  destruct (normalize_series "temperature" _ p) as [o1| |];
    cbn [bind] in *; try discriminate.
  rewrite normalize_series_frame by (apply Hk; reflexivity).
  destruct (normalize_series "soil_temperature" _ o1) as [o2| |];
    cbn [bind] in *; try discriminate.
  rewrite normalize_series_frame by (apply Hk; reflexivity).
  destruct (normalize_series "canopy_temperature" _ o2) as [o3| |];
    cbn [bind] in *; try discriminate.
  rewrite normalize_series_frame by (apply Hk; reflexivity).
  destruct (normalize_series "rainfall" _ o3) as [o4| |];
    cbn [bind] in *; try discriminate.
  rewrite ensure_arrays_frame
    by (intros k Hin; apply H; unfold expected_keys;
        rewrite metric_families_split;
        apply in_or_app; left; apply in_or_app; right; exact Hin).
  rewrite ensure_soil_profile_frame by (apply Hk; reflexivity).
  rewrite ensure_alerts_frame by (apply Hk; reflexivity).
  apply Ok_VObj_inj in E. now rewrite E.
Qed.

Lemma normalize_series_returns (key : string) (f : value -> result value)
      (out : fields) :
  (forall d, f d <> OutOfFuel) -> normalize_series key f out <> OutOfFuel.
Proof. intros Hf. unfold normalize_series. returns. apply Hf. Qed.

Lemma normalizeAnalytics_returns (raw : value) :
  normalizeAnalytics raw <> OutOfFuel.
Proof.
  unfold normalizeAnalytics.
  destruct (_ || _); [discriminate|].
  repeat (apply bind_returns;
          [apply normalize_series_returns; intros d|intros ?]);
    try discriminate.
  - unfold temperature_sample, temperature_val. returns.
  - unfold soil_temperature_sample, soil_temperature_val. returns.
  - unfold canopy_temperature_sample, canopy_temperature_val. returns.
  - unfold rainfall_sample. returns.
Qed.


(** The three families whose callback ends in [{ date, key: null }]. *)
Lemma sibling_samples_unresolved (fs : fields) :
  (unresolvable ["soil_temp"; "st"] fs ->
   soil_temperature_sample (VObj fs)
   = Ok (VObj [("date", field "date" fs); ("soil_temp", VNull)]))
  /\ (unresolvable ["canopy_temp"] fs ->
      canopy_temperature_sample (VObj fs)
      = Ok (VObj [("date", field "date" fs); ("canopy_temp", VNull)]))
  /\ (unresolvable ["rain_mm"; "rain"] fs ->
      rainfall_sample (VObj fs)
      = Ok (VObj [("date", field "date" fs); ("rain_mm", VNull)])).
Proof.
  repeat split; intros [Hn Hf].
  - unfold soil_temperature_sample, soil_temperature_val.
    cbn [truthy negb has_in bind object_keys get_own].
    rewrite (Hn "soil_temp") by (simpl; tauto).
    rewrite (Hn "st") by (simpl; tauto).
    cbn [bind]. now rewrite Hf.
  - unfold canopy_temperature_sample, canopy_temperature_val.
    cbn [truthy negb has_in bind object_keys get_own].
    rewrite (Hn "canopy_temp") by (simpl; tauto).
    cbn [bind]. now rewrite Hf.
  - unfold rainfall_sample.
    cbn [truthy negb has_in bind object_keys get_own].
    rewrite (Hn "rain_mm") by (simpl; tauto).
    rewrite (Hn "rain") by (simpl; tauto).
    cbn [bind]. now rewrite Hf.
Qed.

(** The temperature callback returns such a sample as it came. *)
Lemma temperature_sample_unresolved (fs : fields) :
  unresolvable ["temp"; "temperature"] fs ->
  temperature_sample (VObj fs) = Ok (VObj fs) /\ lookup "temp" fs = None.
Proof.
  intros [Hn Hf]. split.
  - unfold temperature_sample, temperature_val.
    cbn [truthy negb has_in bind object_keys get_own].
    rewrite (Hn "temp") by (simpl; tauto).
    rewrite (Hn "temperature") by (simpl; tauto).
    cbn [bind]. now rewrite Hf.
  - specialize (Hn "temp" (or_introl eq_refl)). unfold has_key in Hn.
    now destruct (lookup "temp" fs).
Qed.

(** C7.  The sample [{date: "2025-01-01"}] has no accepted field name and
    no numeric field.  In the rainfall, soil-temperature and
    canopy-temperature series it becomes [{date, key: null}]; in the
    temperature series it is left as it came, with no [temp] field. *)
Theorem temperature_sample_without_value :
  let d := VObj [("date", VStr "2025-01-01")] in
  temperature_sample d = Ok d
  /\ get_own d "temp" = VUndefined
  /\ rainfall_sample d
     = Ok (VObj [("date", VStr "2025-01-01"); ("rain_mm", VNull)])
  /\ soil_temperature_sample d
     = Ok (VObj [("date", VStr "2025-01-01"); ("soil_temp", VNull)])
  /\ canopy_temperature_sample d
     = Ok (VObj [("date", VStr "2025-01-01"); ("canopy_temp", VNull)])
  /\ (exists out,
        normalizeAnalytics (VObj [("temperature", VArr [d])]) = Ok (VObj out)
        /\ lookup "temperature" out = Some (VArr [d])).
Proof.
  cbv zeta. repeat split.
  eexists. split; reflexivity.
Qed.

(** *** Every metric family is an array on every output *)

Lemma field_set_prop_other (k k' : string) (v : value) (fs : fields) :
  k <> k' -> field k (set_prop k' v fs) = field k fs.
Proof. intros H. unfold field. now rewrite lookup_set_prop_other. Qed.

Lemma keeps_arrays_trans (a b c : fields) :
  keeps_arrays a b -> keeps_arrays b c -> keeps_arrays a c.
Proof. unfold keeps_arrays. auto. Qed.

Lemma set_prop_array_keeps (k : string) (xs : list value) (out : fields) :
  keeps_arrays out (set_prop k (VArr xs) out).
Proof.
  intros k' H. destruct (String.eqb_spec k' k) as [->|Hne].
  - now rewrite field_set_prop_same.
  - now rewrite field_set_prop_other.
Qed.

Lemma set_prop_fresh_keeps (k : string) (v : value) (out : fields) :
  isArray (field k out) = false -> keeps_arrays out (set_prop k v out).
Proof.
  intros Hk k' H. destruct (String.eqb_spec k' k) as [->|Hne].
  - congruence.
  - now rewrite field_set_prop_other.
Qed.

Lemma normalize_series_arrays (key : string) (f : value -> result value)
      (out out' : fields) :
  normalize_series key f out = Ok out' ->
  keeps_arrays out out' /\ isArray (field key out') = true.
Proof.
  unfold normalize_series. intros H.
  assert (E : exists xs, out' = set_prop key (VArr xs) out).
  { destruct (field key out); try (injection H as <-; eauto).
    destruct (map_result f xs); cbn [bind] in H; try discriminate.
    injection H as <-. eauto. }
  destruct E as [xs ->]. split; [apply set_prop_array_keeps|].
  now rewrite field_set_prop_same.
Qed.

Lemma ensure_array_arrays (k : string) (out : fields) :
  keeps_arrays out (ensure_array out k)
  /\ isArray (field k (ensure_array out k)) = true.
Proof.
  unfold ensure_array. destruct (isArray (field k out)) eqn:E.
  - split; [now intros k'|exact E].
  - split; [apply set_prop_array_keeps|now rewrite field_set_prop_same].
Qed.

Lemma ensure_arrays_fold (keys : list string) (out : fields) :
  keeps_arrays out (fold_left ensure_array keys out)
  /\ forall k, In k keys ->
               isArray (field k (fold_left ensure_array keys out)) = true.
Proof.
  revert out. induction keys as [|k keys IH]; intros out; cbn [fold_left].
  - split; [now intros k'|intros k []].
  - destruct (ensure_array_arrays k out) as [Hk Ha].
    destruct (IH (ensure_array out k)) as [Hkeep Hall].
    split; [exact (keeps_arrays_trans _ _ _ Hk Hkeep)|].
    intros k' [<-|Hin]; [now apply Hkeep|now apply Hall].
Qed.

Lemma ensure_soil_profile_keeps (out : fields) :
  keeps_arrays out (ensure_soil_profile out).
Proof.
  unfold ensure_soil_profile.
  destruct (truthy (field "soil_profile" out)) eqn:E; [now intros k|].
  apply set_prop_fresh_keeps.
  destruct (field "soil_profile" out); simpl in *; congruence.
Qed.

Lemma ensure_alerts_keeps (out : fields) :
  keeps_arrays out (ensure_alerts out).
Proof.
  unfold ensure_alerts.
  destruct (truthy (field "alerts" out)) eqn:E; [now intros k|].
  apply set_prop_fresh_keeps.
  destruct (field "alerts" out); simpl in *; congruence.
Qed.

(** X10.  Whatever object comes in, the output holds an array under each of the
    metric families. *)
Lemma normalizeAnalytics_families_are_arrays (raw : value) (out : fields) :
  normalizeAnalytics raw = Ok (VObj out) ->
  forall k, In k metric_families -> isArray (field k out) = true.
Proof.
  unfold normalizeAnalytics.
  destruct (_ || _); [discriminate|].
  set (o0 := promote _ _ _ (promote _ _ _ (promote _ _ _ (promote _ _ _ _)))).
  intros H.
  apply bind_ok_inv in H. destruct H as [o1 [H1 H]].
  apply bind_ok_inv in H. destruct H as [o2 [H2 H]].
  apply bind_ok_inv in H. destruct H as [o3 [H3 H]].
  apply bind_ok_inv in H. destruct H as [o4 [H4 H]].
  apply Ok_VObj_inj in H. subst out.
  apply normalize_series_arrays in H1, H2, H3, H4.
  destruct H1 as [_ A1], H2 as [K2 A2], H3 as [K3 A3], H4 as [K4 A4].
  destruct (ensure_arrays_fold expectedArrays o4) as [K5 A5].
  pose proof (ensure_soil_profile_keeps
                (fold_left ensure_array expectedArrays o4)) as K6.
  pose proof (ensure_alerts_keeps
                (ensure_soil_profile
                   (fold_left ensure_array expectedArrays o4))) as K7.
  intros k Hin. apply K7, K6.
  rewrite metric_families_split in Hin. apply in_app_or in Hin.
  destruct Hin as [Hin|Hin]; [|now apply A5].
  apply K5.
  destruct Hin as [<-|[<-|[<-|[<-|[]]]]].
  - now apply K4, K3, K2.
  - now apply K4, K3.
  - now apply K4.
  - exact A4.
Qed.

End Normalizer.

(* ================================================================= *)
(** ** The reconciliation orchestrator and the cache *)

Section Orchestrator.
Import JS Provider Spec.
Context {rt : Runtime}.

Lemma finally_cache (w : Dashboard.world) (st : Dashboard.state) :
  Dashboard.analyticsCache (Dashboard.finally_ w st)
  = Dashboard.analyticsCache st.
Proof. unfold Dashboard.finally_. now destruct (Dashboard.mounted w). Qed.

Lemma finally_analytics (w : Dashboard.world) (st : Dashboard.state) :
  Dashboard.analytics (Dashboard.finally_ w st) = Dashboard.analytics st.
Proof. unfold Dashboard.finally_. now destruct (Dashboard.mounted w). Qed.


(** C2, as the code has it.  The coordinate resolver runs first and
    outside the [try] block: when it raises, the call is rejected with its
    error whatever [forceRefresh] is, no cached entry is served and
    nothing is sent.  When it returns, with the key [k] built as
    [farmId_start_end]: a call that is not forced and finds an entry at
    [k] makes the cached analytics the result and sends nothing to the
    provider; a forced call sends a request whatever the cache holds;
    once it has succeeded and the view is still mounted, the entry at [k]
    is overwritten with the normalized response; when the view has been
    unmounted in the meantime, the cache is left as it was.  The resolver
    does one or the other, provided [JSON.parse] yields strings shorter
    than the text it reads. *)
Theorem fetchAnalytics_cache_policy
        (id : string) (coords : value) (start end_ : string)
        (showLabel : bool) (w : Dashboard.world) (st : Dashboard.state) :
  let k := Dashboard.cache_key id start end_ in
  let cache := Dashboard.analyticsCache st in
  (forall e forceRefresh,
      Dashboard.parseCoords coords = Throw e ->
      Dashboard.fetchAnalytics id coords start end_ showLabel
                               forceRefresh w st
      = Throw e)
  /\ (forall c,
         Dashboard.parseCoords coords = Ok c ->
         (cache_hit k cache = true ->
          exists st',
            Dashboard.fetchAnalytics id coords start end_ showLabel false
                                     w st
            = Ok (st', [])
            /\ Dashboard.analytics st' = field k cache
            /\ Dashboard.analyticsCache st' = cache)
         /\ (exists st' evs,
               Dashboard.fetchAnalytics id coords start end_ showLabel true
                                        w st
               = Ok (st',
                     Dashboard.Fetch {| coordinates := c;
                                        start_date := VStr start;
                                        end_date := VStr end_;
                                        farm_id := id;
                                        force_refresh := true |} :: evs))
         /\ (forall data err normalized,
               Dashboard.response w = Some data ->
               get_prop data "error" = Ok err -> truthy err = false ->
               Dashboard.normalizeAnalytics data = Ok normalized ->
               Dashboard.mounted w = true ->
               exists st' evs,
                 Dashboard.fetchAnalytics id coords start end_ showLabel
                                          true w st
                 = Ok (st', evs)
                 /\ Dashboard.analyticsCache st'
                    = set_prop k normalized cache
                 /\ field k (Dashboard.analyticsCache st') = normalized)
         /\ (Dashboard.mounted w = false ->
             exists st' evs,
               Dashboard.fetchAnalytics id coords start end_ showLabel true
                                        w st
               = Ok (st', evs)
               /\ Dashboard.analyticsCache st' = cache))
  /\ ((forall s s', JSON_parse s = Some (VStr s') ->
                    (String.length s' < String.length s)%nat) ->
      (exists e, Dashboard.parseCoords coords = Throw e)
      \/ (exists c, Dashboard.parseCoords coords = Ok c)).
Proof.
  intros k cache. split.
  { intros e forceRefresh He. unfold Dashboard.fetchAnalytics.
    now rewrite He. }
  split.
  2:{ intros Hjson.
      destruct (Dashboard.parseCoords coords) as [c|e|] eqn:E;
        [right; now exists c|left; now exists e|].
      exfalso. exact (parseCoords_returns Hjson coords E). }
  intros c Hc. unfold cache_hit. repeat split.
  - intros Hhit. eexists.
    unfold Dashboard.fetchAnalytics. rewrite Hc. cbn [bind negb andb].
    fold k. fold cache. rewrite Hhit.
    split; [reflexivity|]. split; reflexivity.
  - unfold Dashboard.fetchAnalytics. rewrite Hc. cbn [bind negb andb].
    destruct (Dashboard.response w) as [data|]; [|eauto].
    destruct (get_prop data "error") as [err| |] eqn:E; [|eauto|].
    + destruct (truthy err); [eauto|].
      destruct (Dashboard.normalizeAnalytics data) as [n| |] eqn:En; eauto.
      exfalso. exact (normalizeAnalytics_returns _ En).
    + exfalso. exact (get_prop_returns _ _ E).
  - intros data err normalized Hr He Ht Hn Hm.
    unfold Dashboard.fetchAnalytics. rewrite Hc. cbn [bind negb andb].
    rewrite Hr, He, Ht, Hn, Hm.
    do 2 eexists. split; [reflexivity|].
    rewrite finally_cache. cbn [Dashboard.analyticsCache].
    fold k. fold cache. split; [reflexivity|apply field_set_prop_same].
  - intros Hm.
    unfold Dashboard.fetchAnalytics. rewrite Hc. cbn [bind negb andb].
    destruct (Dashboard.response w) as [data|];
      [|do 2 eexists; split; [reflexivity|apply finally_cache]].
    destruct (get_prop data "error") as [err| |] eqn:E;
      [|do 2 eexists; split; [reflexivity|apply finally_cache]
       |exfalso; exact (get_prop_returns _ _ E)].
    destruct (truthy err);
      [do 2 eexists; split; [reflexivity|apply finally_cache]|].
    destruct (Dashboard.normalizeAnalytics data) as [n| |] eqn:En;
      [|do 2 eexists; split; [reflexivity|apply finally_cache]
       |exfalso; exact (normalizeAnalytics_returns _ En)].
    rewrite Hm. do 2 eexists. split; [reflexivity|apply finally_cache].
Qed.


(** At the boundary: an [error] field that JavaScript takes for false
    ([null], the empty string) does not stop the dashboard, which
    normalizes and caches the response. *)
Lemma falsy_error_is_cached (id start end_ : string) (st : Dashboard.state)
      (err : value) :
  truthy err = false ->
  exists st' normalized,
    Dashboard.fetchAnalytics
      id (VArr []) start end_ true true
      {| Dashboard.response := Some (VObj [("error", err)]);
         Dashboard.mounted := true |} st
    = Ok (st', [Dashboard.Fetch {| coordinates := VArr [];
                                   start_date := VStr start;
                                   end_date := VStr end_;
                                   farm_id := id;
                                   force_refresh := true |};
                Dashboard.Normalize (VObj [("error", err)])])
    /\ field (Dashboard.cache_key id start end_)
             (Dashboard.analyticsCache st') = normalized
    /\ truthy normalized = true.
Proof.
  intros Hf.
  assert (En : Dashboard.normalizeAnalytics (VObj [("error", err)])
               = Ok (VObj ([("error", err)] ++ defaults))).
  { apply normalizeAnalytics_absent. intros k Hin.
    cbn [lookup]. destruct (String.eqb_spec k "error") as [->|_];
      [|reflexivity].
    apply eqb_by_in in Hin. discriminate. }
  unfold Dashboard.fetchAnalytics.
  change (Dashboard.parseCoords (VArr [])) with (@Ok value (VArr [])).
  cbn [bind negb andb Dashboard.response Dashboard.mounted].
  change (get_prop (VObj [("error", err)]) "error") with (Ok err).
  cbv beta iota. rewrite Hf, En. do 2 eexists. split; [reflexivity|].
  rewrite finally_cache. cbn [Dashboard.analyticsCache].
  rewrite field_set_prop_same. split; reflexivity.
Qed.

(** What the dashboard saves is its cache, and a reload brings it back. *)
Lemma cache_survives_reload (st st0 : Dashboard.state) :
  Dashboard.analyticsCache (Dashboard.loadCache (Dashboard.saveCache st) st0)
  = Dashboard.analyticsCache st.
Proof. reflexivity. Qed.

(** C9, as the code has it.  Whatever the dashboard writes into the cache
    is the bare result of its normalizer on the response; whatever the
    insights view writes is [{_cached_at_ts, response}] around the response
    as the provider sent it. *)
Theorem cache_writes
        (id : string) (coords : value) (start end_ : string)
        (showLabel forceRefresh : bool)
        (w : Dashboard.world) (st st' : Dashboard.state)
        (evs : list Dashboard.event) :
  Dashboard.fetchAnalytics id coords start end_ showLabel forceRefresh w st
  = Ok (st', evs) ->
  (Dashboard.analyticsCache st' = Dashboard.analyticsCache st
   \/ exists data normalized,
        Dashboard.response w = Some data
        /\ Dashboard.normalizeAnalytics data = Ok normalized
        /\ Dashboard.analyticsCache st'
           = set_prop (Dashboard.cache_key id start end_) normalized
                      (Dashboard.analyticsCache st))
  /\ (forall farm wi blob sti,
         let '(_, blob', _) := Insights.loadForFarm id farm wi blob sti in
         blob' = blob
         \/ exists data,
              Insights.response wi = Some data
              /\ blob'
                 = Some (set_prop
                           (Insights.insights_key id data)
                           (VObj [("_cached_at_ts",
                                   VNum (of_Z (Insights.now_ms wi / 1000)));
                                  ("response", data)])
                           (match blob with Some c => c | None => [] end))).
Proof.
  intros H. split.
  - unfold Dashboard.fetchAnalytics in H.
    destruct (Dashboard.parseCoords coords); cbn [bind] in H;
      try discriminate.
    destruct (negb forceRefresh && _).
    { injection H as <- _. now left. }
    destruct (Dashboard.response w) as [data|] eqn:Hr.
    2:{ injection H as <- _. left. now rewrite finally_cache. }
    destruct (get_prop data "error") as [err| |]; try discriminate.
    2:{ injection H as <- _. left. now rewrite finally_cache. }
    destruct (truthy err).
    { injection H as <- _. left. now rewrite finally_cache. }
    destruct (Dashboard.normalizeAnalytics data) as [n| |] eqn:En;
      try discriminate.
    2:{ injection H as <- _. left. now rewrite finally_cache. }
    injection H as <- _. rewrite finally_cache.
    destruct (Dashboard.mounted w); [right|now left].
    exists data, n. split; [reflexivity|]. split; [exact En|reflexivity].
  - intros farm wi blob sti. unfold Insights.loadForFarm.
    destruct (Insights.cachedEntry id blob); [now left|].
    destruct (truthy _ && truthy _); [|now left].
    destruct (Insights.response wi) as [data|]; [|now left].
    destruct (get_prop data "error") as [err| |]; try (now left).
    destruct (truthy err); [now left|].
    right. exists data. split; reflexivity.
Qed.

End Orchestrator.

(* ================================================================= *)
(** ** The insights view: cache selection and map points *)

Section NumberOrder.
Import JS Spec.

Lemma num_lt_trans (a b c : number) :
  num_lt a b = true -> num_lt b c = true -> num_lt a c = true.
Proof.
  destruct a as [| | |x], b as [| | |y], c as [| | |z]; simpl;
    try congruence.
  rewrite !Qltb_lt. apply Qlt_trans.
Qed.

Lemma num_le_lt_trans (a b c : number) :
  num_le a b = true -> num_lt b c = true -> num_lt a c = true.
Proof.
  destruct a as [| | |x], b as [| | |y], c as [| | |z]; simpl;
    try congruence.
  rewrite !Qltb_lt, Qle_bool_iff. apply Qle_lt_trans.
Qed.

Lemma num_lt_le (a b : number) : num_lt a b = true -> num_le a b = true.
Proof.
  destruct a as [| | |x], b as [| | |y]; simpl; try congruence.
  rewrite Qltb_lt, Qle_bool_iff. apply Qlt_le_weak.
Qed.

Lemma num_le_refl (a : number) : isNaN a = false -> num_le a a = true.
Proof.
  destruct a as [| | |x]; simpl; try congruence.
  intros _. apply Qle_bool_iff, Qle_refl.
Qed.

Lemma usable_stamp_not_nan (s : number) :
  usable_stamp s = true -> isNaN s = false.
Proof. unfold usable_stamp. destruct s; simpl; congruence. Qed.

Lemma usable_stamp_above (s : number) :
  usable_stamp s = true -> num_lt NegInf s = true.
Proof.
  unfold usable_stamp, num_gt. intros H.
  apply andb_true_iff in H. tauto.
Qed.

End NumberOrder.

Section Selection.
Import JS Spec Insights.
Context {rt : Runtime}.

Lemma stamp_of_usable (sc : fields) (k : string) (s : number) :
  stamp_of sc k = Some s ->
  truthy (field k sc) = true /\ entry_stamp (field k sc) = s
  /\ usable_stamp s = true.
Proof.
  unfold stamp_of. destruct (truthy (field k sc)); [|discriminate].
  destruct (usable_stamp (entry_stamp (field k sc))) eqn:E; [|discriminate].
  intros H. injection H as <-. auto.
Qed.

(** One turn of the loop keeps the invariant. *)
Lemma select_step_inv (sc : fields) (k0 k : string) (pre : list string)
      (best : string * number) :
  selection_inv sc k0 pre best ->
  selection_inv sc k0 (pre ++ [k]) (select_step sc best k).
Proof.
  intros Inv. unfold select_step.
  destruct (truthy (field k sc)) eqn:Hval; cbn [negb].
  2:{ (* the entry is missing: nothing changes, and [k] has no stamp *)
    assert (Hk : stamp_of sc k = None) by (unfold stamp_of; now rewrite Hval).
    destruct Inv as [(H0 & Hs & Hnone)|(Hb & l1 & l2 & Hpre & H1 & H2)].
    - left. repeat split; [assumption|assumption|].
      intros k' Hin. apply in_app_or in Hin.
      destruct Hin as [Hin|[<-|[]]]; [now apply Hnone|exact Hk].
    - right. split; [assumption|].
      exists l1, (l2 ++ [k]). split; [now rewrite Hpre, <- app_assoc|].
      split; [assumption|].
      intros k' s Hin Hs'. apply in_app_or in Hin.
      destruct Hin as [Hin|[<-|[]]]; [now apply (H2 k')|congruence]. }
  set (stamp := entry_stamp (field k sc)).
  destruct Inv as [(H0 & Hs & Hnone)|(Hb & l1 & l2 & Hpre & H1 & H2)].
  - (* nothing selected so far *)
    rewrite Hs.
    change (num_truthy stamp && num_gt stamp NegInf)
      with (usable_stamp stamp).
    destruct (usable_stamp stamp) eqn:Hu.
    + right. cbn [fst snd].
      split; [unfold stamp_of; rewrite Hval; fold stamp; now rewrite Hu|].
      exists pre, []. split; [reflexivity|]. split.
      * intros k' s Hin Hs'. rewrite (Hnone k' Hin) in Hs'. discriminate.
      * intros k' s [].
    + left. repeat split; [assumption|assumption|].
      intros k' Hin. apply in_app_or in Hin.
      destruct Hin as [Hin|[<-|[]]]; [now apply Hnone|].
      unfold stamp_of. rewrite Hval. fold stamp. now rewrite Hu.
  - destruct (stamp_of_usable _ _ _ Hb) as (_ & _ & Hbu).
    destruct (num_truthy stamp && num_gt stamp (snd best)) eqn:Hc.
    + (* a strictly newer entry becomes the best one *)
      apply andb_true_iff in Hc. destruct Hc as [Ht Hgt].
      unfold num_gt in Hgt.
      assert (Hu : usable_stamp stamp = true).
      { unfold usable_stamp. rewrite Ht. cbn [andb]. unfold num_gt.
        exact (num_lt_trans _ _ _ (usable_stamp_above _ Hbu) Hgt). }
      right. cbn [fst snd].
      split; [unfold stamp_of; rewrite Hval; fold stamp; now rewrite Hu|].
      exists pre, []. split; [reflexivity|]. split; [|intros k' s []].
      intros k' s Hin Hs'. rewrite Hpre in Hin.
      apply in_app_or in Hin. destruct Hin as [Hin|[<-|Hin]].
      * exact (num_lt_trans _ _ _ (H1 k' s Hin Hs') Hgt).
      * rewrite Hb in Hs'. injection Hs' as <-. exact Hgt.
      * exact (num_le_lt_trans _ _ _ (H2 k' s Hin Hs') Hgt).
    + (* the best entry stays *)
      right. split; [assumption|].
      exists l1, (l2 ++ [k]). split; [now rewrite Hpre, <- app_assoc|].
      split; [assumption|].
      intros k' s Hin Hs'. apply in_app_or in Hin.
      destruct Hin as [Hin|[<-|[]]]; [now apply (H2 k')|].
      destruct (stamp_of_usable _ _ _ Hs') as (_ & Hst & Hsu).
      fold stamp in Hst. subst s.
      assert (Ht : num_truthy stamp = true)
        by (unfold usable_stamp in Hsu; apply andb_true_iff in Hsu; tauto).
      rewrite Ht in Hc. cbn [andb] in Hc.
      destruct (num_gt_or_le stamp (snd best)
                  (usable_stamp_not_nan _ Hsu) (usable_stamp_not_nan _ Hbu))
        as [[E _]|[_ E]]; [congruence|exact E].
Qed.

Lemma select_loop_inv (sc : fields) (k0 : string) (l pre : list string)
      (best : string * number) :
  selection_inv sc k0 pre best ->
  selection_inv sc k0 (pre ++ l) (fold_left (select_step sc) l best).
Proof.
  revert pre best. induction l as [|k l IH]; intros pre best Inv.
  - now rewrite app_nil_r.
  - cbn [fold_left].
    replace (pre ++ k :: l) with ((pre ++ [k]) ++ l)
      by (now rewrite <- app_assoc).
    apply IH, select_step_inv, Inv.
Qed.

(** C10, as the code has it.  Without a date range the insights view
    considers exactly the cache keys that start with the farm id and ["_"];
    an entry's timestamp is read from [response.timestamp] when that is
    there and otherwise from [_cached_at_ts], taken as seconds; the key
    selected is the first one with the greatest usable timestamp (a number
    other than [NaN], zero and [-Infinity]; an entry with neither field
    has [-Infinity]), and the first candidate when no candidate has one.  The entry under the selected key, when it is
    one, is what the loader serves: it sends no request, leaves the store
    as it is and, unless cancelled, shows the normalization of
    [entry.response || entry] with loading ended. *)
Theorem bestKey_selects_latest (id : string) (savedCache : fields) :
  let cands := candidateKeys id savedCache in
  (forall k, In k cands
             <-> In k (map fst savedCache)
                 /\ String.prefix (id ++ "_")%string k = true)
  /\ (forall val,
         has_response_timestamp val = true ->
         entry_stamp val
         = Date_parse
             (to_string (get_own (get_own val "response") "timestamp")))
  /\ (forall val,
         has_response_timestamp val = false ->
         truthy (get_own val "_cached_at_ts") = true ->
         entry_stamp val
         = num_mul (to_number (get_own val "_cached_at_ts")) (Fin 1000))
  /\ (forall val,
         has_response_timestamp val = false ->
         truthy (get_own val "_cached_at_ts") = false ->
         entry_stamp val = NegInf)
  /\ match bestKey savedCache cands with
     | None => cands = [] /\ cachedEntry id (Some savedCache) = None
     | Some kb =>
         In kb cands
         /\ ((forall k, In k cands -> stamp_of savedCache k = None) ->
             hd_error cands = Some kb)
         /\ ((exists k, In k cands /\ stamp_of savedCache k <> None) ->
             exists sb l1 l2,
               stamp_of savedCache kb = Some sb
               /\ cands = l1 ++ kb :: l2
               /\ (forall k s, In k l1 -> stamp_of savedCache k = Some s ->
                               num_lt s sb = true)
               /\ (forall k s, In k cands -> stamp_of savedCache k = Some s ->
                               num_le s sb = true))
         /\ (truthy (field kb savedCache) = false ->
             cachedEntry id (Some savedCache) = None)
         /\ (truthy (field kb savedCache) = true ->
             let entry := field kb savedCache in
             cachedEntry id (Some savedCache) = Some entry
             /\ forall farm w st,
                  exists st',
                    loadForFarm id farm w (Some savedCache) st
                    = (st', Some savedCache, [])
                    /\ (cancelled w = false ->
                        analytics st'
                        = Insights.normalizeAnalytics
                            (or_else (get_own entry "response") entry)
                        /\ loading st' = false))
     end.
Proof.
  intros cands. split; [|split; [|split; [|split]]].
  - intros k. unfold cands, candidateKeys. rewrite filter_In. tauto.
  - intros val H. unfold entry_stamp.
    unfold has_response_timestamp in H. now rewrite H.
  - intros val H Ht. unfold entry_stamp.
    unfold has_response_timestamp in H. now rewrite H, Ht.
  - intros val H Ht. unfold entry_stamp.
    unfold has_response_timestamp in H. now rewrite H, Ht.
  - assert (Hserve : forall kb,
               bestKey savedCache cands = Some kb ->
               (truthy (field kb savedCache) = false ->
                cachedEntry id (Some savedCache) = None)
               /\ (truthy (field kb savedCache) = true ->
                   let entry := field kb savedCache in
                   cachedEntry id (Some savedCache) = Some entry
                   /\ forall farm w st,
                        exists st',
                          loadForFarm id farm w (Some savedCache) st
                          = (st', Some savedCache, [])
                          /\ (cancelled w = false ->
                              analytics st'
                              = Insights.normalizeAnalytics
                                  (or_else (get_own entry "response") entry)
                              /\ loading st' = false))).
    { intros kb Hkb. unfold loadForFarm, cachedEntry. fold cands.
      rewrite Hkb. split; [now intros ->|]. intros Ht. rewrite Ht.
      split; [reflexivity|]. intros farm w st.
      eexists. split; [reflexivity|].
      intros Hc. unfold finally_, set_analytics. rewrite Hc.
      split; reflexivity. }
    unfold bestKey in *. destruct cands as [|k0 rest] eqn:Ec.
    { split; [reflexivity|]. unfold cachedEntry, bestKey.
      fold cands. now rewrite Ec. }
    specialize (Hserve _ eq_refl).
    pose proof (select_loop_inv savedCache k0 (k0 :: rest) []
                  (k0, NegInf)) as Inv.
    cbn [app] in Inv.
    specialize (Inv (or_introl (conj eq_refl (conj eq_refl
                                   (fun k (H : In k []) => match H with end))))).
    set (best := fold_left (select_step savedCache) (k0 :: rest)
                           (k0, NegInf)) in *.
    destruct Inv as [(H0 & Hs & Hnone)|(Hb & l1 & l2 & Hpre & H1 & H2)].
    + split; [rewrite H0; now left|]. split; [|split; [|exact Hserve]].
      * intros _. cbn [hd_error]. now rewrite H0.
      * intros (k & Hin & Hk). elim Hk. now apply Hnone.
    + split; [rewrite Hpre; apply in_or_app; right; now left|].
      split; [|split; [|exact Hserve]].
      * intros Hnone. rewrite Hnone in Hb; [discriminate|].
        rewrite Hpre. apply in_or_app. right. now left.
      * intros _. exists (snd best), l1, l2.
        split; [assumption|]. split; [assumption|]. split; [assumption|].
        intros k s Hin Hs'. rewrite Hpre in Hin.
        apply in_app_or in Hin. destruct Hin as [Hin|[<-|Hin]].
        -- apply num_lt_le. now apply (H1 k).
        -- rewrite Hb in Hs'. injection Hs' as <-.
           apply num_le_refl, usable_stamp_not_nan.
           now destruct (stamp_of_usable _ _ _ Hb) as (_ & _ & Hu).
        -- now apply (H2 k).
Qed.

End Selection.

Section MapPoints.
Import JS Spec Insights.
Context {rt : Runtime}.

(** A point of [soil_moisture_points] that carries no moisture value gets
    the moisture [Number(null)], which is zero. *)
Lemma moisture_point_unresolved (p : value) :
  nullish p = false ->
  nullish (get_own p "moisture") = true ->
  nullish (get_own p "value") = true ->
  nullish (get_own p "m") = true ->
  exists pt, moisture_point p = Ok pt /\ moisture pt = VNum (Fin 0).
Proof.
  intros Hp H1 H2 H3. unfold moisture_point. rewrite Hp.
  eexists. split; [reflexivity|]. cbn [moisture].
  unfold coalesce. now rewrite H1, H2, H3.
Qed.

(** So does a sample of [soil_samples]. *)
Lemma sample_point_unresolved (s : value) :
  nullish s = false ->
  nullish (get_own s "moisture") = true ->
  nullish (get_own s "value") = true ->
  nullish (get_own s "moisture_value") = true ->
  exists pt, sample_point s = Ok pt /\ moisture pt = VNum (Fin 0).
Proof.
  intros Hs H1 H2 H3. unfold sample_point. rewrite Hs.
  eexists. split; [reflexivity|]. cbn [moisture].
  unfold coalesce. now rewrite H1, H2, H3.
Qed.

(** The centroid fall-back does produce [moisture = null] when the payload
    has no moisture series. *)
Lemma centroid_point_unresolved (farm : value)
      (positions : list (number * number)) (c : number * number) :
  centroidOfLatLngs positions = Some c ->
  soilPoints (VObj []) farm positions
  = Ok [{| lat := fst c; lng := snd c; moisture := VNull; date := VNull |}].
Proof.
  intros Hc. unfold soilPoints.
  cbn [truthy negb andb get_opt nullish get_own field lookup].
  now rewrite Hc.
Qed.

(** C8.  A point listed in [soil_moisture_points] or [soil_samples]
    without any moisture value is kept, but its moisture is the number 0,
    not [null]. *)
Theorem soilPoints_unresolved_moisture
        (farm : value) (positions : list (number * number)) :
  soilPoints
    (VObj [("soil_moisture_points",
            VArr [VObj [("lat", VNum (Fin 23)); ("lng", VNum (Fin 72.5))]])])
    farm positions
  = Ok [{| lat := Fin 23; lng := Fin 72.5;
           moisture := VNum (Fin 0); date := VNull |}]
  /\ soilPoints
       (VObj [("soil_samples",
               VArr [VObj [("lat", VNum (Fin 23)); ("lng", VNum (Fin 72.5))]])])
       farm positions
     = Ok [{| lat := Fin 23; lng := Fin 72.5;
              moisture := VNum (Fin 0); date := VNull |}].
Proof. split; reflexivity. Qed.

End MapPoints.

(* ================================================================= *)
(** ** The statements at concrete inputs *)

Section Instances.
Import JS Provider Spec.

Lemma parseCoords_numeric_pairs_witness :
  forallb numeric_pair Example.polygon = true
  /\ Dashboard.parseCoords (rt := Example.runtime) (VArr Example.polygon)
     = Ok (VArr [ VArr [VNum (Fin 72.50); VNum (Fin 23.01)];
                  VArr [VNum (Fin 72.51); VNum (Fin 23.02)];
                  VArr [VNum (Fin 72.50); VNum (Fin 23.03)] ]).
Proof.
  split; [reflexivity|].
  apply (proj1 (parseCoords_numeric_pairs
                  (rt := Example.runtime) (Fin 23.01) (Fin 72.50)
                  (tl Example.polygon) eq_refl)).
  unfold lat_lng_range, Qle. simpl. lia.
Defined.

Lemma fetchAnalytics_cache_policy_witness :
  Dashboard.parseCoords (rt := Example.runtime) (VArr Example.polygon)
  = Ok (VArr (map swapped Example.polygon))
  /\ (exists st',
         Dashboard.fetchAnalytics
           (rt := Example.runtime) "farm1" (VArr Example.polygon)
           "2025-01-01" "2025-03-31" true false
           (Example.answers Example.payload) Example.warm
         = Ok (st', [])
         /\ Dashboard.analytics st'
            = VObj [("growth_stage", VStr "tillering")]
         /\ Dashboard.analyticsCache st'
            = Dashboard.analyticsCache Example.warm)
  /\ Dashboard.fetchAnalytics
       (rt := Example.runtime) "farm1"
       (VArr [VArr [VNum (Fin 23.01); VNum (Fin 72.50)]; VNull])
       "2025-01-01" "2025-03-31" true true
       (Example.answers Example.payload) Example.warm
     = Throw TypeError.
Proof.
  split; [reflexivity|]. split.
  - apply (proj1 (proj1 (proj2 (fetchAnalytics_cache_policy
                                  (rt := Example.runtime) "farm1"
                                  (VArr Example.polygon)
                                  "2025-01-01" "2025-03-31" true
                                  (Example.answers Example.payload)
                                  Example.warm))
                        (VArr (map swapped Example.polygon)) eq_refl)).
    reflexivity.
  - apply (proj1 (fetchAnalytics_cache_policy
                    (rt := Example.runtime) "farm1"
                    (VArr [VArr [VNum (Fin 23.01); VNum (Fin 72.50)];
                           VNull])
                    "2025-01-01" "2025-03-31" true
                    (Example.answers Example.payload)
                    Example.warm)).
    reflexivity.
Defined.






(** A forced refresh whose answer arrives after the view has been
    unmounted does not overwrite the entry, and a key bound to [null] is
    not served. *)
Lemma unmounted_refresh_not_cached :
  (exists st' evs,
      Dashboard.fetchAnalytics
        (rt := Example.runtime) "farm1" (VArr Example.polygon)
        "2025-01-01" "2025-03-31" true true
        {| Dashboard.response := Some Example.payload;
           Dashboard.mounted := false |} Example.warm
      = Ok (st', evs)
      /\ Dashboard.normalizeAnalytics (rt := Example.runtime) Example.payload
         <> Ok (field Example.key (Dashboard.analyticsCache st'))
      /\ field Example.key (Dashboard.analyticsCache st')
         = VObj [("growth_stage", VStr "tillering")])
  /\ (has_key Example.key [(Example.key, VNull)] = true
      /\ exists st' body evs,
           Dashboard.fetchAnalytics
             (rt := Example.runtime) "farm1" (VArr Example.polygon)
             "2025-01-01" "2025-03-31" true false
             (Example.answers Example.payload)
             {| Dashboard.analytics := VNull;
                Dashboard.loading := false;
                Dashboard.updatingLabel := "";
                Dashboard.analyticsCache := [(Example.key, VNull)] |}
           = Ok (st', Dashboard.Fetch body :: evs)).
Proof.
  split.
  - do 2 eexists. split; [reflexivity|]. split; [|reflexivity].
    vm_compute. discriminate.
  - split; [reflexivity|]. do 3 eexists. reflexivity.
Qed.



Lemma cache_writes_witness :
  match Dashboard.fetchAnalytics
          (rt := Example.runtime) "farm1" (VArr Example.polygon)
          "2025-01-01" "2025-03-31" true false
          (Example.answers Example.payload) Example.idle with
  | Ok (st', _) =>
      Dashboard.analyticsCache st'
      = Dashboard.analyticsCache Example.idle
      \/ exists data normalized,
           Dashboard.response (Example.answers Example.payload) = Some data
           /\ Dashboard.normalizeAnalytics (rt := Example.runtime) data
              = Ok normalized
           /\ Dashboard.analyticsCache st'
              = set_prop Example.key normalized
                         (Dashboard.analyticsCache Example.idle)
  | _ => False
  end.
Proof.
  destruct (Dashboard.fetchAnalytics
              (rt := Example.runtime) "farm1" (VArr Example.polygon)
              "2025-01-01" "2025-03-31" true false
              (Example.answers Example.payload) Example.idle)
    as [[st' evs]| |] eqn:H.
  - exact (proj1 (cache_writes
                    (rt := Example.runtime) "farm1" (VArr Example.polygon)
                    "2025-01-01" "2025-03-31" true false
                    (Example.answers Example.payload) Example.idle
                    st' evs H)).
  - vm_compute in H. discriminate.
  - vm_compute in H. discriminate.
Defined.

(** The entry the dashboard stores has neither a timestamp nor a
    [response] field, and the [response] the insights view stores is the raw
    answer, which differs from its normalized form. *)
Lemma cache_entries_not_uniform :
  (exists st' evs,
      Dashboard.fetchAnalytics
        (rt := Example.runtime) "farm1" (VArr Example.polygon)
        "2025-01-01" "2025-03-31" true false
        (Example.answers Example.payload) Example.idle
      = Ok (st', evs)
      /\ has_key Example.key (Dashboard.analyticsCache st') = true
      /\ is_cache_entry (field Example.key (Dashboard.analyticsCache st'))
         = false)
  /\ (exists st' entry evs,
         Insights.loadForFarm
           (rt := Example.runtime) "farm1" Example.farm
           (Example.insights_answers Example.payload) None
           Example.insights_idle
         = (st', Some [("farm1_auto_auto", entry)], evs)
         /\ get_own entry "response" = Example.payload
         /\ Dashboard.normalizeAnalytics (rt := Example.runtime)
                                         Example.payload
            <> Ok (get_own entry "response")).
Proof.
  split.
  - do 2 eexists. split; [reflexivity|]. split; reflexivity.
  - do 3 eexists. split; [reflexivity|]. split; [reflexivity|].
    vm_compute. discriminate.
Qed.

(** The two end-to-end scenarios of the specification. *)
Lemma normalizeAnalytics_payload :
  exists out,
    Dashboard.normalizeAnalytics (rt := Example.runtime) Example.payload
    = Ok (VObj out)
    /\ lookup "temperature" out
       = Some (VArr [VObj [("date", VStr "2025-01-01");
                           ("temp", VNum (num_sub (Fin 305) (lit 273.15)))]])
    /\ lookup "rainfall" out
       = Some (VArr [VObj [("date", VStr "2025-01-01");
                           ("rain_mm", VNum (Fin 4.2))]])
    /\ lookup "ndvi_timeseries" out = Some (VArr []).
Proof. eexists. split; [reflexivity|]. repeat split. Qed.

Lemma parseCoords_polygon :
  Dashboard.parseCoords (rt := Example.runtime) (VArr Example.polygon)
  = Ok (VArr [ VArr [VNum (Fin 72.50); VNum (Fin 23.01)];
               VArr [VNum (Fin 72.51); VNum (Fin 23.02)];
               VArr [VNum (Fin 72.50); VNum (Fin 23.03)] ]).
Proof. reflexivity. Qed.

(** Without point samples the map shows one marker at the mean of the
    polygon's vertices, with unknown moisture. *)
Lemma soilPoints_centroid :
  Insights.polygonPositions (rt := Example.runtime) Example.farm
  = Ok [(Fin 23.01, Fin 72.50); (Fin 23.02, Fin 72.51);
        (Fin 23.03, Fin 72.50)]
  /\ exists la lo,
       Insights.soilPoints
         (rt := Example.runtime) (VObj []) Example.farm
         [(Fin 23.01, Fin 72.50); (Fin 23.02, Fin 72.51);
          (Fin 23.03, Fin 72.50)]
       = Ok [{| Insights.lat := Fin la;
                Insights.lng := Fin lo;
                Insights.moisture := VNull;
                Insights.date := VNull |}]
       /\ (Qabs (la - 23.02) < 1 # 1000000000000)%Q
       /\ (Qabs (lo - 217.51 / 3) < 1 # 1000000000000)%Q.
Proof.
  split; [reflexivity|]. do 2 eexists.
  split; [vm_compute; reflexivity|]. split; vm_compute; reflexivity.
Qed.

(** The selection on a store shared by two farms: the newest entry of
    [farm1] is chosen, the entry of [farm2] is not considered and the entry
    without a timestamp does not compete. *)
Lemma bestKey_store :
  Insights.candidateKeys "farm1" Example.store
  = [ "farm1_2025-01-01_2025-03-31"; "farm1_auto_auto";
      "farm1_2024-01-01_2024-03-31" ]
  /\ Insights.bestKey (rt := Example.runtime) Example.store
                      (Insights.candidateKeys "farm1" Example.store)
     = Some "farm1_auto_auto"
  /\ stamp_of (rt := Example.runtime) Example.store "farm1_auto_auto"
     = Some (Fin 1750000000000)
  /\ stamp_of (rt := Example.runtime) Example.store
              "farm1_2024-01-01_2024-03-31" = None.
Proof. repeat split. Qed.

(** An entry stamped at the epoch itself is not selected although its
    timestamp is the greatest: the entry of the day before is served in its
    place, and so is an entry without any timestamp that comes first. *)
Lemma epoch_entry_not_selected :
  Insights.candidateKeys "farm1" Example.dated_store
  = [ "farm1_x"; "farm1_y" ]
  /\ Insights.entry_stamp (rt := Example.reading)
                          (field "farm1_x" Example.dated_store)
     = Fin (-86400000)
  /\ Insights.entry_stamp (rt := Example.reading)
                          (field "farm1_y" Example.dated_store)
     = Fin 0
  /\ Insights.bestKey (rt := Example.reading) Example.dated_store
                      (Insights.candidateKeys "farm1" Example.dated_store)
     = Some "farm1_x"
  /\ Insights.cachedEntry (rt := Example.reading) "farm1"
                          (Some Example.dated_store)
     = Some (Example.dated "1969-12-31T00:00:00Z")
  /\ Insights.candidateKeys "farm1" Example.epoch_store
     = [ "farm1_a"; "farm1_b" ]
  /\ has_response_timestamp (field "farm1_a" Example.epoch_store) = false
  /\ get_own (field "farm1_a" Example.epoch_store) "_cached_at_ts"
     = VUndefined
  /\ has_response_timestamp (field "farm1_b" Example.epoch_store) = false
  /\ get_own (field "farm1_b" Example.epoch_store) "_cached_at_ts"
     = VNum (Fin 0)
  /\ Insights.bestKey (rt := Example.runtime) Example.epoch_store
                      (Insights.candidateKeys "farm1" Example.epoch_store)
     = Some "farm1_a"
  /\ Insights.cachedEntry (rt := Example.runtime) "farm1"
                          (Some Example.epoch_store)
     = Some (field "farm1_a" Example.epoch_store).
Proof. repeat split; vm_compute; reflexivity. Qed.

End Instances.

(* ================================================================= *)
(** ** More on the coordinate order resolver *)

Section ResolverShapes.
Import JS Spec Dashboard.
Context {rt : Runtime}.

Lemma result_throw_is_type_error {A : Type} (r : result A) (e : error) :
  r = Throw e -> r = Throw TypeError.
Proof. destruct e. auto. Qed.

(** A [map] whose callback raises on some element raises. *)
Lemma map_result_throws {A B : Type} (f : A -> result B) (l : list A) :
  (forall x, f x <> OutOfFuel) ->
  (exists x, In x l /\ f x = Throw TypeError) ->
  map_result f l = Throw TypeError.
Proof.
  intros Hf [x [Hin Hx]].
  induction l as [|y l IH]; [destruct Hin|].
  cbn [map_result].
  destruct (f y) as [b|[]|] eqn:E; cbn [bind];
    [|reflexivity|now elim (Hf y)].
  destruct Hin as [->|Hin]; [congruence|].
  rewrite (IH Hin). reflexivity.
Qed.

Lemma has_in_object (k : string) (fs : fields) :
  has_in k (VObj fs) = Ok (has_key k fs).
Proof. reflexivity. Qed.

(** X1.  An array of objects is read through the names its first element
    carries: [lat]/[lng] first, [latitude]/[longitude] otherwise; every
    element gives one [[lng, lat]] pair, whatever it holds. *)
Theorem parseCoords_named_objects (first : fields) (rest : list value) :
  forallb (fun p => negb (nullish p)) rest = true ->
  (has_key "lat" first && has_key "lng" first = true ->
   parseCoords (VArr (VObj first :: rest))
   = Ok (VArr (map (fun p => VArr [VNum (to_number (get_own p "lng"));
                                   VNum (to_number (get_own p "lat"))])
                   (VObj first :: rest))))
  /\ (has_key "lat" first && has_key "lng" first = false ->
      has_key "latitude" first && has_key "longitude" first = true ->
      parseCoords (VArr (VObj first :: rest))
      = Ok (VArr (map (fun p =>
                         VArr [VNum (to_number (get_own p "longitude"));
                               VNum (to_number (get_own p "latitude"))])
                      (VObj first :: rest)))).
Proof.
  intros Hrest.
  assert (Hall : forall lng lat p, In p (VObj first :: rest) ->
                   lng_lat_of lng lat p
                   = Ok (VArr [VNum (to_number (get_own p lng));
                               VNum (to_number (get_own p lat))])).
  { intros lng lat p [<-|Hin]; [reflexivity|].
    rewrite forallb_forall in Hrest. specialize (Hrest p Hin).
    unfold lng_lat_of, get_prop.
    destruct (nullish p); [discriminate|reflexivity]. }
  rewrite parseCoords_of_array. unfold parseCoords_array.
  cbn [nth List.length Nat.eqb negb isArray andb typeof_object].
  rewrite !has_in_object.
  rewrite (map_result_ok _ _ _ (Hall "lng" "lat")).
  rewrite (map_result_ok _ _ _ (Hall "longitude" "latitude")).
  destruct (has_key "lat" first), (has_key "lng" first),
    (has_key "latitude" first), (has_key "longitude" first);
    cbn [bind andb]; split; intros; try discriminate; reflexivity.
Qed.

Lemma swapped_numeric (p : value) :
  numeric_pair p = true ->
  numeric_pair (swapped p) = true /\ swapped (swapped p) = p.
Proof.
  destruct p as [| | | | |[|[| | |x| | |] [|[| | |y| | |] [|? ?]]]|];
    simpl; try discriminate.
  intros H. split; [now rewrite andb_comm|reflexivity].
Qed.

Lemma swapped_all_numeric (ps : list value) :
  forallb numeric_pair ps = true ->
  forallb numeric_pair (map swapped ps) = true
  /\ map swapped (map swapped ps) = ps.
Proof.
  induction ps as [|p ps IH]; cbn [forallb map]; [auto|].
  intros H. apply andb_true_iff in H. destruct H as [Hp Hps].
  destruct (swapped_numeric p Hp) as [H1 H2], (IH Hps) as [H3 H4].
  rewrite H1, H3, H2, H4. auto.
Qed.

(** X2.  Feeding the resolver its own output.  When the first pair is taken
    for (lat, lng) and its longitude also lies within [-90, 90], the second
    pass swaps every pair back; when the longitude lies outside, the second
    pass leaves the canonical pairs alone. *)
Theorem parseCoords_twice (a b : number) (ps : list value) :
  let coords := VArr [VNum a; VNum b] :: ps in
  forallb numeric_pair coords = true ->
  lat_lng_range a b ->
  parseCoords (VArr coords) = Ok (VArr (map swapped coords))
  /\ (lat_lng_range b a ->
      parseCoords (VArr (map swapped coords)) = Ok (VArr coords))
  /\ (~ lat_lng_range b a ->
      parseCoords (VArr (map swapped coords))
      = Ok (VArr (map swapped coords))).
Proof.
  intros coords H Hr. subst coords.
  destruct (swapped_all_numeric _ H) as [Hs Hinv].
  apply lat_first_range in Hr.
  rewrite !parseCoords_of_array.
  rewrite (parseCoords_array_numeric a b ps H), Hr.
  split; [reflexivity|].
  cbn [map swapped] in *.
  rewrite (parseCoords_array_numeric b a (map swapped ps) Hs).
  split.
  - intros Hr'. apply lat_first_range in Hr'. rewrite Hr'.
    cbn [map swapped]. now rewrite Hinv.
  - intros Hr'. destruct (lat_first b a) eqn:E; [|reflexivity].
    apply lat_first_range in E. contradiction.
Qed.

Lemma abs_range (a b : number) :
  num_le (num_abs a) (Fin 90) && num_le (num_abs b) (Fin 180)
  = lat_first a b.
Proof.
  assert (H : forall x c, (0 <= c)%Q ->
                Qle_bool (Qabs x) c
                = Qle_bool (- c) x && Qle_bool x c).
  { intros x c Hc. apply eq_true_iff_eq.
    rewrite andb_true_iff, !Qle_bool_iff. apply Qabs_Qle_condition. }
  unfold lat_first, num_ge.
  destruct a as [| | |x], b as [| | |y]; cbn [num_abs num_le];
    rewrite ?andb_false_r, ?andb_true_r; try reflexivity.
  rewrite (H x 90), (H y 180) by discriminate.
  change (- (90))%Q with (-90)%Q. change (- (180))%Q with (-180)%Q.
  now rewrite andb_assoc.
Qed.

Lemma pair_numbers_numeric (p : value) :
  numeric_pair p = true ->
  Insights.index_pair "0" "1" p = Ok (pair_numbers p)
  /\ Insights.index_pair "1" "0" p
     = Ok (snd (pair_numbers p), fst (pair_numbers p))
  /\ p = VArr [VNum (fst (pair_numbers p)); VNum (snd (pair_numbers p))]
  /\ swapped p
     = VArr [VNum (snd (pair_numbers p)); VNum (fst (pair_numbers p))].
Proof.
  destruct p as [| | | | |[|[| | |x| | |] [|[| | |y| | |] [|? ?]]]|];
    simpl; try discriminate. auto.
Qed.

(** X3.  The two views order the axes by the same test: on numeric pairs the
    map positions of the insights view are the pairs the dashboard sends
    to the provider, each turned around. *)
Theorem views_agree_on_axis_order (a b : number) (ps : list value) :
  let coords := VArr [VNum a; VNum b] :: ps in
  forallb numeric_pair coords = true ->
  exists positions,
    Insights.normalizeToLatLngArray (VArr coords) = Ok positions
    /\ parseCoords (VArr coords)
       = Ok (VArr (map (fun p => VArr [VNum (snd p); VNum (fst p)])
                       positions)).
Proof.
  intros coords H.
  assert (Hall : forall p, In p coords -> numeric_pair p = true)
    by (apply forallb_forall; exact H).
  rewrite parseCoords_of_array.
  unfold coords at 2. rewrite (parseCoords_array_numeric a b ps H).
  fold coords.
  assert (E : Insights.normalizeToLatLngArray (VArr coords)
              = if lat_first a b
                then map_result (Insights.index_pair "0" "1") coords
                else map_result (Insights.index_pair "1" "0") coords).
  { unfold Insights.normalizeToLatLngArray, coords.
    cbn [truthy negb List.length Nat.eqb nth typeof_object andb].
    rewrite !has_in_array_named by reflexivity. cbn [bind].
    change (map to_number [VNum a; VNum b]) with [a; b].
    cbn [nth]. now rewrite abs_range. }
  rewrite E. clear E.
  destruct (lat_first a b).
  - exists (map pair_numbers coords). split.
    + apply map_result_ok. intros p Hp. apply pair_numbers_numeric, Hall, Hp.
    + f_equal. f_equal. rewrite map_map. apply map_ext_in.
      intros p Hp. apply pair_numbers_numeric, Hall, Hp.
  - exists (map (fun p => (snd (pair_numbers p), fst (pair_numbers p)))
                coords).
    split.
    + apply map_result_ok. intros p Hp. apply pair_numbers_numeric, Hall, Hp.
    + f_equal. f_equal. rewrite map_map.
      rewrite <- (map_id coords) at 1. apply map_ext_in.
      intros p Hp. cbn [fst snd].
      apply pair_numbers_numeric, Hall, Hp.
Qed.

Lemma split_on_not_empty (c : ascii) (s : string) : split_on c s <> [].
Proof.
  induction s as [|c' s IH]; simpl; [discriminate|].
  destruct (split_on c s); [discriminate|].
  destruct (Ascii.eqb c c'); discriminate.
Qed.

(** X4.  A string that is not JSON and holds a comma yields one pair for each
    [;]-separated segment, at least one, whatever the segments hold. *)
Theorem parseCoords_delimited (s : string) :
  JSON_parse s = None -> includes_char "," s = true ->
  exists pairs,
    parseCoords (VStr s) = Ok (VArr pairs)
    /\ List.length pairs = List.length (split_on ";" s)
    /\ pairs <> []
    /\ forallb has_length_2 pairs = true.
Proof.
  intros Hj Hc.
  assert (Hs : String.eqb s "" = false) by (destruct s; [discriminate|auto]).
  unfold parseCoords, parseCoords_fuel. cbn [truthy]. rewrite Hs.
  cbn [negb]. rewrite Hj. unfold parse_delimited. rewrite Hc.
  eexists. split; [reflexivity|].
  rewrite !length_map. split; [reflexivity|]. split.
  - intros E. apply map_eq_nil, map_eq_nil in E.
    exact (split_on_not_empty _ _ E).
  - apply forallb_forall. intros p Hp.
    apply in_map_iff in Hp. destruct Hp as [pr [<- _]]. reflexivity.
Qed.

(** An array that holds the nullish [p] and starts with an object, an
    array or [null]. *)
Lemma nullish_vertex_raises (first p : value) (rest : list value) :
  typeof_object first = true ->
  In p (first :: rest) -> nullish p = true ->
  parseCoords (VArr (first :: rest)) = Throw TypeError.
Proof.
  intros Hobj Hin Hp.
  assert (Hex : exists p, In p (first :: rest) /\ nullish p = true)
    by (exists p; auto).
  clear p Hin Hp.
  assert (Hthrow : forall f : value -> result value,
             (forall x, f x <> OutOfFuel) ->
             (forall p, nullish p = true -> f p = Throw TypeError) ->
             map_result f (first :: rest) = Throw TypeError).
  { intros f Hf Hn. apply map_result_throws; [exact Hf|].
    destruct Hex as [p [Hin Hp]]. exists p. auto. }
  assert (Hswap := Hthrow swap_pair).
  assert (Hkeep := Hthrow keep_pair).
  assert (Hll := fun lng lat => Hthrow (lng_lat_of lng lat)).
  assert (Hguess := Hthrow guess_pair).
  rewrite parseCoords_of_array. unfold parseCoords_array.
  cbn [nth List.length Nat.eqb negb andb].
  rewrite Hobj.
  rewrite Hswap, Hkeep, !Hll, Hguess;
    try (intros p Hp; destruct p; try discriminate; reflexivity);
    try (intros x; unfold swap_pair, keep_pair, lng_lat_of, guess_pair;
         returns).
  cbn [bind].
  destruct (isArray first && _ && _).
  - now destruct (lat_first _ _).
  - destruct first; try discriminate; cbn [has_in bind]; try reflexivity;
      repeat (match goal with
              | |- context [if ?b then _ else _] => destruct b; cbn [bind]
              end); reflexivity.
Qed.

(** X5.  An array whose first element is an object, an array or [null] and
    which holds [null] or [undefined] somewhere makes the resolver raise. *)
Theorem parseCoords_nullish_vertex (first : value) (rest : list value) :
  typeof_object first = true ->
  (exists p, In p (first :: rest) /\ nullish p = true) ->
  parseCoords (VArr (first :: rest)) = Throw TypeError.
Proof.
  intros Hobj [p [Hin Hp]].
  exact (nullish_vertex_raises first p rest Hobj Hin Hp).
Qed.


(** *** Every input *)









End ResolverShapes.

(* ================================================================= *)
(** ** More on the metric series normalizer *)

Section NormalizerSteps.
Import JS Spec Dashboard.
Context {rt : Runtime}.

Lemma promote_other (k key group nested : string) (out : fields) :
  k <> key -> lookup k (promote key group nested out) = lookup k out.
Proof.
  intros H. unfold promote.
  destruct (_ && _); [now apply lookup_set_prop_other|reflexivity].
Qed.

Lemma promote_nonempty (key group nested : string) (out : fields)
      (x : value) (xs : list value) :
  field key out = VArr (x :: xs) -> promote key group nested out = out.
Proof. intros H. unfold promote. now rewrite H. Qed.

Lemma normalize_series_inv (key : string) (f : value -> result value)
      (out out' : fields) :
  normalize_series key f out = Ok out' ->
  (forall k, k <> key -> lookup k out' = lookup k out)
  /\ forall xs, field key out = VArr xs ->
                exists ys, map_result f xs = Ok ys
                           /\ field key out' = VArr ys.
Proof.
  unfold normalize_series. intros H. split.
  - intros k Hk.
    destruct (field key out); try (injection H as <-;
                                   now apply lookup_set_prop_other).
    destruct (map_result f xs); cbn [bind] in H; try discriminate.
    injection H as <-. now apply lookup_set_prop_other.
  - intros xs E. rewrite E in H.
    destruct (map_result f xs) as [ys| |]; cbn [bind] in H;
      try discriminate.
    injection H as <-. exists ys. now rewrite field_set_prop_same.
Qed.

Lemma ensure_array_other (k k' : string) (out : fields) :
  k <> k' -> lookup k (ensure_array out k') = lookup k out.
Proof.
  intros H. unfold ensure_array.
  destruct (isArray _); [reflexivity|now apply lookup_set_prop_other].
Qed.

Lemma ensure_arrays_other (k : string) (keys : list string) (out : fields) :
  ~ In k keys -> lookup k (fold_left ensure_array keys out) = lookup k out.
Proof.
  revert out. induction keys as [|k' keys IH]; intros out H; [reflexivity|].
  cbn [fold_left]. rewrite IH by (intros Hin; apply H; now right).
  apply ensure_array_other. intros ->. apply H. now left.
Qed.

Lemma ensure_soil_profile_other (k : string) (out : fields) :
  k <> "soil_profile" -> lookup k (ensure_soil_profile out) = lookup k out.
Proof.
  intros H. unfold ensure_soil_profile.
  destruct (truthy _); [reflexivity|now apply lookup_set_prop_other].
Qed.

Lemma ensure_alerts_other (k : string) (out : fields) :
  k <> "alerts" -> lookup k (ensure_alerts out) = lookup k out.
Proof.
  intros H. unfold ensure_alerts.
  destruct (truthy _); [reflexivity|now apply lookup_set_prop_other].
Qed.

(** The stages of a run of the normalizer that returns. *)
Lemma normalizeAnalytics_steps (raw : value) (out : fields) :
  normalizeAnalytics raw = Ok (VObj out) ->
  exists o1 o2 o3 o4,
    let o0 := promote "soil_temperature" "soil" "temperature"
                (promote "soil_moisture" "soil" "moisture"
                   (promote "rainfall" "weather" "rainfall"
                      (promote "temperature" "weather" "temperature"
                               (spread raw)))) in
    normalize_series "temperature" temperature_sample o0 = Ok o1
    /\ normalize_series "soil_temperature" soil_temperature_sample o1 = Ok o2
    /\ normalize_series "canopy_temperature" canopy_temperature_sample o2
       = Ok o3
    /\ normalize_series "rainfall" rainfall_sample o3 = Ok o4
    /\ out = ensure_alerts
               (ensure_soil_profile
                  (fold_left ensure_array expectedArrays o4)).
Proof.
  unfold normalizeAnalytics.
  destruct (_ || _); [discriminate|].
  intros H.
  apply bind_ok_inv in H. destruct H as [o1 [H1 H]].
  apply bind_ok_inv in H. destruct H as [o2 [H2 H]].
  apply bind_ok_inv in H. destruct H as [o3 [H3 H]].
  apply bind_ok_inv in H. destruct H as [o4 [H4 H]].
  apply Ok_VObj_inj in H. exists o1, o2, o3, o4. cbv zeta. auto.
Qed.

(** X6.  The normalizer leaves alone every field it has no rule for: scalars
    such as [growth_stage] or [elevation_m] come out as they came in. *)
Theorem normalizeAnalytics_keeps_other_fields
        (raw : value) (out : fields) (k : string) :
  normalizeAnalytics raw = Ok (VObj out) ->
  ~ In k written_keys ->
  lookup k out = lookup k (spread raw).
Proof.
  intros H Hk.
  destruct (normalizeAnalytics_steps raw out H)
    as (o1 & o2 & o3 & o4 & H1 & H2 & H3 & H4 & ->).
  assert (Hne : forall k', In k' written_keys -> k <> k')
    by (intros k' Hin ->; contradiction).
  assert (Hw : forall k', existsb (String.eqb k') written_keys = true ->
                          k <> k')
    by (intros k' E; apply Hne, in_by_eqb, E).
  rewrite ensure_alerts_other by (apply Hw; reflexivity).
  rewrite ensure_soil_profile_other by (apply Hw; reflexivity).
  rewrite ensure_arrays_other
    by (intros Hin; apply Hk; unfold written_keys;
        rewrite metric_families_split;
        apply in_or_app; left; apply in_or_app; now right).
  apply normalize_series_inv in H1, H2, H3, H4.
  rewrite (proj1 H4), (proj1 H3), (proj1 H2), (proj1 H1)
    by (apply Hw; reflexivity).
  rewrite !promote_other by (apply Hw; reflexivity).
  reflexivity.
Qed.

Lemma field_of_lookup (k : string) (a b : fields) :
  lookup k a = lookup k b -> field k a = field k b.
Proof. unfold field. now intros ->. Qed.

Lemma promote_keeps_nonempty (key key' group nested : string) (out : fields)
      (x : value) (xs : list value) :
  field key out = VArr (x :: xs) ->
  field key (promote key' group nested out) = VArr (x :: xs).
Proof.
  intros H. destruct (String.eqb_spec key key') as [<-|Hne].
  - now rewrite (promote_nonempty _ _ _ _ _ _ H).
  - rewrite <- H. now apply field_of_lookup, promote_other.
Qed.

Ltac sample_cases H :=
  repeat match type of H with
         | bind ?c _ = Ok _ =>
             let b := fresh "b" in
             let E := fresh "E" in
             apply bind_ok_inv in H; destruct H as [b [E H]]
         | (if ?c then _ else _) = Ok _ => destruct c
         | match ?x with _ => _ end = Ok _ => destruct x
         | Ok _ = Ok _ => injection H as <-
         end.

(** Each callback hands the date of its sample on. *)
Lemma sample_keeps_date (key : string) (f : value -> result value)
      (d r : value) :
  series_callback key = Some f -> f d = Ok r ->
  get_opt r "date" = get_opt d "date".
Proof.
  unfold series_callback. intros Hf H.
  assert (Hobj : forall fs x, get_opt (VObj (("date", x) :: fs)) "date" = x)
    by reflexivity.
  assert (Hd : truthy d = true -> get_opt d "date" = get_own d "date").
  { unfold get_opt. destruct d; try discriminate; reflexivity. }
  repeat match type of Hf with
         | (if ?c then _ else _) = _ => destruct c
         end; try discriminate; injection Hf as <-.
  - unfold temperature_sample, temperature_val in H.
    destruct (truthy d); cbn [negb] in *; [|now injection H as <-].
    rewrite Hd by reflexivity. sample_cases H; try discriminate;
      rewrite ?Hobj; try reflexivity; now apply Hd.
  - unfold soil_temperature_sample, soil_temperature_val in H.
    destruct (truthy d); cbn [negb] in *; [|now injection H as <-].
    rewrite Hd by reflexivity. sample_cases H; try discriminate;
      rewrite ?Hobj; reflexivity.
  - unfold canopy_temperature_sample, canopy_temperature_val in H.
    destruct (truthy d); cbn [negb] in *; [|now injection H as <-].
    rewrite Hd by reflexivity. sample_cases H; try discriminate;
      rewrite ?Hobj; reflexivity.
  - unfold rainfall_sample in H.
    destruct (truthy d); cbn [negb] in *; [|now injection H as <-].
    rewrite Hd by reflexivity. sample_cases H; try discriminate;
      rewrite ?Hobj; try reflexivity; now apply Hd.
Qed.

Lemma map_result_forall2 {A B : Type} (f : A -> result B) (l : list A)
      (l' : list B) :
  map_result f l = Ok l' -> Forall2 (fun x y => f x = Ok y) l l'.
Proof.
  revert l'. induction l as [|x l IH]; intros l' H; cbn [map_result] in H.
  - injection H as <-. constructor.
  - apply bind_ok_inv in H. destruct H as [y [Hy H]].
    apply bind_ok_inv in H. destruct H as [ys [Hys H]].
    injection H as <-. constructor; auto.
Qed.

(** A non-empty top-level series of one of the four mapped families
    comes out as the family's callback mapped over it. *)
Lemma series_mapped
        (raw : value) (out : fields) (key : string)
        (f : value -> result value) (x : value) (xs : list value) :
  series_callback key = Some f ->
  normalizeAnalytics raw = Ok (VObj out) ->
  field key (spread raw) = VArr (x :: xs) ->
  exists ys, field key out = VArr ys /\ map_result f (x :: xs) = Ok ys.
Proof.
  intros Hf H Hx.
  destruct (normalizeAnalytics_steps raw out H)
    as (o1 & o2 & o3 & o4 & H1 & H2 & H3 & H4 & ->).
  apply (promote_keeps_nonempty key "temperature" "weather" "temperature")
    in Hx.
  apply (promote_keeps_nonempty key "rainfall" "weather" "rainfall") in Hx.
  apply (promote_keeps_nonempty key "soil_moisture" "soil" "moisture") in Hx.
  apply (promote_keeps_nonempty key "soil_temperature" "soil" "temperature")
    in Hx.
  apply normalize_series_inv in H1, H2, H3, H4.
  destruct H1 as [K1 S1], H2 as [K2 S2], H3 as [K3 S3], H4 as [K4 S4].
  assert (Hfinal : forall ys,
             ~ In key expectedArrays -> key <> "soil_profile" ->
             key <> "alerts" ->
             (field key o4 = VArr ys) ->
             map_result f (x :: xs) = Ok ys ->
             exists ys,
               field key
                     (ensure_alerts
                        (ensure_soil_profile
                           (fold_left ensure_array expectedArrays o4)))
               = VArr ys
               /\ map_result f (x :: xs) = Ok ys).
  { intros ys Hk1 Hk2 Hk3 E M. exists ys. split; [|exact M].
    rewrite <- E. apply field_of_lookup.
    rewrite ensure_alerts_other, ensure_soil_profile_other,
      ensure_arrays_other by assumption.
    reflexivity. }
  pose proof Hf as Hf'. unfold series_callback in Hf'.
  destruct (String.eqb_spec key "temperature") as [->|_].
  { injection Hf' as <-.
    destruct (S1 _ Hx) as [ys [M E]].
    apply (Hfinal ys); try (intros Hin; apply eqb_by_in in Hin);
      try discriminate; [|exact M].
    rewrite <- E. apply field_of_lookup.
    rewrite K4, K3, K2 by discriminate. reflexivity. }
  destruct (String.eqb_spec key "soil_temperature") as [->|_].
  { injection Hf' as <-.
    rewrite <- (field_of_lookup _ _ _ (K1 "soil_temperature" ltac:(discriminate))) in Hx.
    destruct (S2 _ Hx) as [ys [M E]].
    apply (Hfinal ys); try (intros Hin; apply eqb_by_in in Hin);
      try discriminate; [|exact M].
    rewrite <- E. apply field_of_lookup.
    rewrite K4, K3 by discriminate. reflexivity. }
  destruct (String.eqb_spec key "canopy_temperature") as [->|_].
  { injection Hf' as <-.
    rewrite <- (field_of_lookup _ _ _ (K1 "canopy_temperature" ltac:(discriminate))) in Hx.
    rewrite <- (field_of_lookup _ _ _ (K2 "canopy_temperature" ltac:(discriminate))) in Hx.
    destruct (S3 _ Hx) as [ys [M E]].
    apply (Hfinal ys); try (intros Hin; apply eqb_by_in in Hin);
      try discriminate; [|exact M].
    rewrite <- E. apply field_of_lookup.
    rewrite K4 by discriminate. reflexivity. }
  destruct (String.eqb_spec key "rainfall") as [->|_]; [|discriminate].
  injection Hf' as <-.
  rewrite <- (field_of_lookup _ _ _ (K1 "rainfall" ltac:(discriminate))) in Hx.
  rewrite <- (field_of_lookup _ _ _ (K2 "rainfall" ltac:(discriminate))) in Hx.
  rewrite <- (field_of_lookup _ _ _ (K3 "rainfall" ltac:(discriminate))) in Hx.
  destruct (S4 _ Hx) as [ys [M E]].
  apply (Hfinal ys); try (intros Hin; apply eqb_by_in in Hin);
    try discriminate; [exact E|exact M].
Qed.

(** X7.  A non-empty top-level series of one of the four mapped families comes
    out with one sample for each sample that came in, in the same order,
    each made by the family's callback and carrying the date of its
    source. *)
Theorem normalizeAnalytics_series
        (raw : value) (out : fields) (key : string)
        (f : value -> result value) (x : value) (xs : list value) :
  series_callback key = Some f ->
  normalizeAnalytics raw = Ok (VObj out) ->
  field key (spread raw) = VArr (x :: xs) ->
  exists ys,
    field key out = VArr ys
    /\ Forall2 (fun d r => f d = Ok r
                           /\ get_opt r "date" = get_opt d "date")
               (x :: xs) ys.
Proof.
  intros Hf H Hx.
  destruct (series_mapped raw out key f x xs Hf H Hx) as [ys [E M]].
  exists ys. split; [exact E|].
  apply map_result_forall2 in M.
  eapply Forall2_impl; [|exact M].
  intros d r Hr. split; [exact Hr|].
  exact (sample_keeps_date key f d r Hf Hr).
Qed.

Lemma callback_primitive (key : string) (f : value -> result value)
      (d : value) :
  series_callback key = Some f -> primitive_sample d = true ->
  f d = Throw TypeError.
Proof.
  unfold series_callback, primitive_sample. intros Hf Hd.
  apply andb_true_iff in Hd. destruct Hd as [Ht Ho].
  repeat match type of Hf with
         | (if ?c then _ else _) = _ => destruct c
         end; try discriminate; injection Hf as <-;
    unfold temperature_sample, temperature_val, soil_temperature_sample,
      canopy_temperature_sample, canopy_temperature_val, rainfall_sample;
    rewrite Ht; destruct d; try discriminate; reflexivity.
Qed.

Lemma forall2_in_left {A B : Type} (P : A -> B -> Prop) (l : list A)
      (l' : list B) (x : A) :
  Forall2 P l l' -> In x l -> exists y, P x y.
Proof.
  induction 1 as [|a b l l' Hab _ IH]; intros Hin; [destruct Hin|].
  destruct Hin as [<-|Hin]; eauto.
Qed.

Lemma Ok_inj {A : Type} (a b : A) : Ok a = Ok b -> a = b.
Proof. congruence. Qed.

Lemma normalizeAnalytics_object (fs : fields) (v : value) :
  normalizeAnalytics (VObj fs) = Ok v -> exists out, v = VObj out.
Proof.
  unfold normalizeAnalytics.
  change (negb (truthy (VObj fs)) || negb (typeof_object (VObj fs)))
    with false.
  cbv iota. intros E.
  do 4 (apply bind_ok_inv in E; destruct E as [? [_ E]]).
  apply Ok_inj in E. rewrite <- E. eauto.
Qed.

(** X8.  One sample that is a bare number, string or [true] in one of the four
    mapped series makes the whole normalization raise. *)
Theorem normalizeAnalytics_primitive_sample
        (fs : fields) (key : string) (f : value -> result value)
        (x d : value) (xs : list value) :
  series_callback key = Some f ->
  field key fs = VArr (x :: xs) ->
  In d (x :: xs) -> primitive_sample d = true ->
  normalizeAnalytics (VObj fs) = Throw TypeError.
Proof.
  intros Hf Hx Hin Hd.
  destruct (normalizeAnalytics (VObj fs)) as [v|e|] eqn:E.
  - destruct (normalizeAnalytics_object fs v E) as [out ->].
    destruct (series_mapped (VObj fs) out key f x xs Hf E Hx)
      as [ys [_ M]].
    apply map_result_forall2 in M.
    destruct (forall2_in_left _ _ _ d M Hin) as [r Hr].
    rewrite (callback_primitive key f d Hf Hd) in Hr. discriminate.
  - now destruct e.
  - now elim (normalizeAnalytics_returns (VObj fs)).
Qed.

Lemma ensure_array_keeps_value (k k' : string) (out : fields) :
  isArray (field k out) = true ->
  field k (ensure_array out k') = field k out.
Proof.
  intros H. unfold ensure_array.
  destruct (String.eqb_spec k k') as [<-|Hne].
  - now rewrite H.
  - destruct (isArray (field k' out));
      [reflexivity|now apply field_set_prop_other].
Qed.

Lemma ensure_arrays_keep_value (k : string) (keys : list string)
      (out : fields) :
  isArray (field k out) = true ->
  field k (fold_left ensure_array keys out) = field k out.
Proof.
  revert out. induction keys as [|k' keys IH]; intros out H; [reflexivity|].
  cbn [fold_left].
  rewrite IH by (now rewrite ensure_array_keeps_value).
  now apply ensure_array_keeps_value.
Qed.

(** X9.  A moisture series nested under [soil] is promoted to the top level
    when the top-level [soil_moisture] is missing or empty, and comes out
    as it was. *)
Theorem normalizeAnalytics_promotes_soil_moisture
        (fs out : fields) (xs : list value) :
  truthy (field "soil_moisture" fs) = false
  \/ truthy (get_own (field "soil_moisture" fs) "length") = false ->
  truthy (field "soil" fs) = true ->
  get_own (field "soil" fs) "moisture" = VArr xs ->
  normalizeAnalytics (VObj fs) = Ok (VObj out) ->
  field "soil_moisture" out = VArr xs.
Proof.
  intros Hempty Hsoil Hm H.
  destruct (normalizeAnalytics_steps (VObj fs) out H)
    as (o1 & o2 & o3 & o4 & H1 & H2 & H3 & H4 & ->).
  apply normalize_series_inv in H1, H2, H3, H4.
  destruct H1 as [K1 _], H2 as [K2 _], H3 as [K3 _], H4 as [K4 _].
  change (spread (VObj fs)) with fs in K1.
  assert (E2 : forall k, k <> "temperature" -> k <> "rainfall" ->
                 field k (promote "rainfall" "weather" "rainfall"
                            (promote "temperature" "weather" "temperature"
                                     fs))
                 = field k fs).
  { intros k Ha Hb. apply field_of_lookup. now rewrite !promote_other. }
  assert (E3 : field "soil_moisture"
                     (promote "soil_moisture" "soil" "moisture"
                        (promote "rainfall" "weather" "rainfall"
                           (promote "temperature" "weather" "temperature"
                                    fs)))
               = VArr xs).
  { unfold promote at 1. rewrite !E2 by discriminate.
    rewrite Hsoil, Hm.
    replace (negb (truthy (field "soil_moisture" fs))
             || negb (truthy (get_own (field "soil_moisture" fs) "length")))
      with true
      by (destruct Hempty as [-> | ->]; now rewrite ?orb_true_r).
    apply field_set_prop_same. }
  assert (E4 : field "soil_moisture" o4 = VArr xs).
  { rewrite <- E3. apply field_of_lookup.
    rewrite (K4 "soil_moisture"), (K3 "soil_moisture"),
      (K2 "soil_moisture"), (K1 "soil_moisture") by discriminate.
    now rewrite promote_other by discriminate. }
  rewrite (field_of_lookup _ _ _
             (ensure_alerts_other "soil_moisture" _ ltac:(discriminate))).
  rewrite (field_of_lookup _ _ _
             (ensure_soil_profile_other "soil_moisture" _
                                        ltac:(discriminate))).
  rewrite ensure_arrays_keep_value by (now rewrite E4).
  exact E4.
Qed.

End NormalizerSteps.

(* ================================================================= *)
(** ** The figures of the dashboard *)

Section Means.
Import JS Spec.
Local Open Scope Q_scope.

Lemma of_nat_positive (n : nat) : Qsign (inject_Z (Z.of_nat (S n))) = Gt.
Proof.
  unfold Qsign. apply Qgt_alt. unfold Qlt. simpl. lia.
Qed.

Lemma round64_isNaN (x : Q) : isNaN (round64 x) = false.
Proof.
  pose proof (round64_not_nan x). now destruct (round64 x).
Qed.

Lemma round64_nonpos (x : Q) : x <= 0 -> num_le (round64 x) (Fin 0) = true.
Proof.
  intros H. rewrite <- (round64_zero 0) by reflexivity.
  now apply round64_mono.
Qed.

(** Adding a finite number. *)
Lemma num_add_isNaN (a : number) (x : Q) :
  isNaN a = false -> isNaN (num_add a (Fin x)) = false.
Proof.
  destruct a; cbn [num_add isNaN]; try discriminate; try reflexivity.
  intros _. apply round64_isNaN.
Qed.

Lemma num_add_nonneg (a : number) (x : Q) :
  num_le (Fin 0) a = true -> 0 <= x ->
  num_le (Fin 0) (num_add a (Fin x)) = true.
Proof.
  destruct a as [| | |y]; cbn [num_add num_le]; try discriminate;
    try reflexivity.
  intros Hy Hx. apply Qle_bool_iff in Hy. apply round64_nonneg. lra.
Qed.

Lemma num_add_nonpos (a : number) (x : Q) :
  num_le a (Fin 0) = true -> x <= 0 ->
  num_le (num_add a (Fin x)) (Fin 0) = true.
Proof.
  destruct a as [| | |y]; cbn [num_add num_le]; try discriminate;
    try reflexivity.
  intros Hy Hx. apply Qle_bool_iff in Hy. apply round64_nonpos. lra.
Qed.

(** The running sum of finite numbers is a number; it keeps the sign the
    numbers share, and it is zero when they all are. *)
Lemma sum_isNaN (lo hi : Q) (l : list number) (acc : number) :
  Forall (finite_between lo hi) l -> isNaN acc = false ->
  isNaN (fold_left num_add l acc) = false.
Proof.
  revert acc. induction l as [|n l IH]; intros acc H Hacc; [exact Hacc|].
  inversion H as [|? ? Hn Hl]; subst.
  destruct n as [| | |x]; try contradiction.
  cbn [fold_left]. apply IH; [exact Hl|]. now apply num_add_isNaN.
Qed.

Lemma sum_nonneg (lo hi : Q) (l : list number) (acc : number) :
  0 <= lo -> Forall (finite_between lo hi) l ->
  num_le (Fin 0) acc = true ->
  num_le (Fin 0) (fold_left num_add l acc) = true.
Proof.
  intros Hlo. revert acc.
  induction l as [|n l IH]; intros acc H Hacc; [exact Hacc|].
  inversion H as [|? ? Hn Hl]; subst.
  destruct n as [| | |x]; try contradiction. destruct Hn as [Hx _].
  cbn [fold_left]. apply IH; [exact Hl|].
  apply num_add_nonneg; [exact Hacc|lra].
Qed.

Lemma sum_nonpos (lo hi : Q) (l : list number) (acc : number) :
  hi <= 0 -> Forall (finite_between lo hi) l ->
  num_le acc (Fin 0) = true ->
  num_le (fold_left num_add l acc) (Fin 0) = true.
Proof.
  intros Hhi. revert acc.
  induction l as [|n l IH]; intros acc H Hacc; [exact Hacc|].
  inversion H as [|? ? Hn Hl]; subst.
  destruct n as [| | |x]; try contradiction. destruct Hn as [_ Hx].
  cbn [fold_left]. apply IH; [exact Hl|].
  apply num_add_nonpos; [exact Hacc|lra].
Qed.

Lemma sum_zero (l : list number) (acc : Q) :
  Forall (finite_between 0 0) l -> acc == 0 ->
  exists s, fold_left num_add l (Fin acc) = Fin s /\ s == 0.
Proof.
  revert acc. induction l as [|n l IH]; intros acc H Hacc.
  - exists acc. split; [reflexivity|exact Hacc].
  - inversion H as [|? ? Hn Hl]; subst.
    destruct n as [| | |x]; try contradiction. destruct Hn as [H1 H2].
    cbn [fold_left num_add].
    rewrite round64_zero by lra. apply IH; [exact Hl|reflexivity].
Qed.

(** Dividing by a length that is not zero. *)
Lemma quotient_isNaN (a : number) (n : nat) :
  isNaN a = false -> isNaN (num_div a (of_nat (S n))) = false.
Proof.
  unfold of_nat. destruct a as [| | |x]; cbn [num_div isNaN];
    try discriminate; rewrite of_nat_positive; try reflexivity.
  intros _. apply round64_isNaN.
Qed.

Lemma Qdiv_nonneg (x y : Q) : 0 <= x -> 0 < y -> 0 <= x / y.
Proof.
  intros Hx Hy. apply Qle_shift_div_l; [exact Hy|]. now rewrite Qmult_0_l.
Qed.

Lemma Qdiv_nonpos (x y : Q) : x <= 0 -> 0 < y -> x / y <= 0.
Proof.
  intros Hx Hy. apply Qle_shift_div_r; [exact Hy|]. now rewrite Qmult_0_l.
Qed.

Lemma of_nat_Qpositive (n : nat) : 0 < inject_Z (Z.of_nat (S n)).
Proof. unfold Qlt. simpl. lia. Qed.

Lemma quotient_nonneg (a : number) (n : nat) :
  num_le (Fin 0) a = true -> num_le (Fin 0) (num_div a (of_nat (S n))) = true.
Proof.
  unfold of_nat. destruct a as [| | |x]; cbn [num_div num_le];
    try discriminate; rewrite of_nat_positive; try reflexivity.
  intros Hx. apply Qle_bool_iff in Hx. apply round64_nonneg.
  apply Qdiv_nonneg; [exact Hx|apply of_nat_Qpositive].
Qed.

Lemma quotient_nonpos (a : number) (n : nat) :
  num_le a (Fin 0) = true -> num_le (num_div a (of_nat (S n))) (Fin 0) = true.
Proof.
  unfold of_nat. destruct a as [| | |x]; cbn [num_div num_le];
    try discriminate; rewrite of_nat_positive; try reflexivity.
  intros Hx. apply Qle_bool_iff in Hx. apply round64_nonpos.
  apply Qdiv_nonpos; [exact Hx|apply of_nat_Qpositive].
Qed.

Lemma quotient_zero (s : Q) (n : nat) :
  s == 0 -> num_div (Fin s) (of_nat (S n)) = Fin 0.
Proof.
  intros Hs. unfold of_nat. cbn [num_div]. rewrite of_nat_positive.
  apply round64_zero. rewrite Hs. unfold Qdiv. apply Qmult_0_l.
Qed.

End Means.

Section Figures.
Import JS Spec Dashboard.
Context {rt : Runtime}.

Lemma length_truthy (x : value) (xs : list value) :
  truthy (get_own (VArr (x :: xs)) "length") = true.
Proof. reflexivity. Qed.

(** With a key the callback of [safeAvg] never raises. *)
Lemma safeAvg_items (key : string) (l : list value) :
  String.eqb key "" = false ->
  map_result (safeAvg_item key) l
  = Ok (map (fun d => if nullish d then None
                      else Some (to_number (get_own d key))) l).
Proof.
  intros Hk. apply map_result_ok. intros d _.
  unfold safeAvg_item. rewrite Hk. now destruct (nullish d).
Qed.

Lemma known_numbers_between (key : string) (lo hi : Q) (l : list value) :
  Forall (sample_in_range key lo hi) l ->
  Forall (finite_between lo hi)
         (known_numbers
            (map (fun d => if nullish d then None
                           else Some (to_number (get_own d key))) l)).
Proof.
  induction 1 as [|d l Hd _ IH]; [constructor|].
  cbn [map known_numbers flat_map].
  fold (known_numbers
          (map (fun d => if nullish d then None
                         else Some (to_number (get_own d key))) l)).
  destruct (nullish d) eqn:En; [exact IH|].
  destruct Hd as [Hd|[Hd|Hd]]; [congruence|now rewrite Hd|].
  destruct (to_number (get_own d key)); try contradiction.
  cbn [isNaN app]. now constructor.
Qed.

Lemma known_numbers_none (key : string) (l : list value) :
  known_numbers
    (map (fun d => if nullish d then None
                   else Some (to_number (get_own d key))) l) = []
  <-> Forall (fun d => nullish d = true
                       \/ isNaN (to_number (get_own d key)) = true) l.
Proof.
  induction l as [|d l IH].
  - split; [constructor|reflexivity].
  - cbn [map known_numbers flat_map].
    fold (known_numbers
            (map (fun d => if nullish d then None
                           else Some (to_number (get_own d key))) l)).
    split.
    + intros H. apply app_eq_nil in H. destruct H as [H1 H2].
      constructor; [|now apply IH].
      destruct (nullish d); [now left|right].
      now destruct (isNaN (to_number (get_own d key))).
    + intros H. inversion H as [|? ? Hd Hl]; subst.
      rewrite (proj2 IH Hl), app_nil_r.
      destruct (nullish d) eqn:E; [reflexivity|].
      destruct Hd as [Hd|Hd]; [congruence|now rewrite Hd].
Qed.

(** X11.  Called with a key on a non-empty array whose sample values
    under the key are finite where they are numbers, [safeAvg] does not
    raise; it answers [null] exactly when no sample has a number under the
    key, and otherwise a number, never [NaN], that is not negative when no
    sample value is and not positive when none is.  The sum and the
    quotient are rounded: the mean of samples that all lie in a range need
    not lie in it. *)
Theorem safeAvg_number (key : string) (lo hi : Q) (x : value)
        (xs : list value) :
  String.eqb key "" = false ->
  Forall (sample_in_range key lo hi) (x :: xs) ->
  exists v,
    safeAvg (VArr (x :: xs)) key = Ok v
    /\ (v = VNull
        <-> Forall (fun d => nullish d = true
                             \/ isNaN (to_number (get_own d key)) = true)
                   (x :: xs))
    /\ (v = VNull
        \/ exists n,
             v = VNum n /\ isNaN n = false
             /\ (0 <= lo -> num_le (Fin 0) n = true)
             /\ (hi <= 0 -> num_le n (Fin 0) = true)).
Proof.
  intros Hk Hall. unfold safeAvg.
  rewrite length_truthy. cbn [truthy negb orb].
  rewrite (safeAvg_items key (x :: xs) Hk). cbn [bind].
  pose proof (known_numbers_between key lo hi _ Hall) as Hb.
  pose proof (known_numbers_none key (x :: xs)) as Hn.
  destruct (known_numbers _) as [|n nums] eqn:E.
  - exists VNull. split; [reflexivity|]. split; [|now left].
    split; [intros _; now apply Hn|reflexivity].
  - exists (VNum (mean (n :: nums))). split; [reflexivity|]. split.
    + split; [discriminate|]. intros H. apply Hn in H. discriminate.
    + right. exists (mean (n :: nums)). split; [reflexivity|].
      unfold mean. cbn [List.length]. repeat split.
      * apply quotient_isNaN. now apply (sum_isNaN lo hi).
      * intros Hlo. apply quotient_nonneg.
        now apply (sum_nonneg lo hi).
      * intros Hhi. apply quotient_nonpos.
        now apply (sum_nonpos lo hi).
Qed.

(** X12.  A soil-temperature series made of samples without any usable value
    is normalized to [null] values, and these count as zeros: the
    dashboard shows an average of 0, not "N/A". *)
Theorem unresolved_soil_temperature_averages_zero
        (fs : fields) (rest : list fields) :
  Forall (unresolvable ["soil_temp"; "st"]) (fs :: rest) ->
  exists rs,
    map_result soil_temperature_sample (map VObj (fs :: rest)) = Ok rs
    /\ safeAvg (VArr rs) "soil_temp" = Ok (VNum (Fin 0)).
Proof.
  intros H.
  set (out := fun f : fields =>
                VObj [("date", field "date" f); ("soil_temp", VNull)]).
  exists (map out (fs :: rest)). split.
  - rewrite <- map_map with (f := VObj) (g := fun d =>
        match d with VObj f => out f | _ => d end).
    apply map_result_ok. intros d Hd.
    apply in_map_iff in Hd. destruct Hd as [f [<- Hf]].
    rewrite Forall_forall in H.
    exact (proj1 (sibling_samples_unresolved f) (H f Hf)).
  - cbn [map].
    assert (Hall : Forall (sample_in_range "soil_temp" 0 0)
                          (out fs :: map out rest)).
    { rewrite <- (map_cons out). apply Forall_forall. intros d Hd.
      apply in_map_iff in Hd. destruct Hd as [f [<- _]].
      right. right. cbn. split; discriminate. }
    unfold safeAvg. rewrite length_truthy. cbn [truthy negb orb].
    rewrite (safeAvg_items "soil_temp" _ eq_refl). cbn [bind].
    pose proof (known_numbers_between "soil_temp" 0 0 _ Hall) as Hb.
    destruct (known_numbers _) as [|n nums] eqn:E.
    + apply known_numbers_none in E.
      inversion E as [|? ? [Hd|Hd] _]; discriminate.
    + destruct (sum_zero (n :: nums) 0 Hb ltac:(reflexivity))
        as [q [Eq Hq]].
      unfold mean. rewrite Eq. cbn [List.length].
      now rewrite quotient_zero.
Qed.

Lemma forall2_in_both {A B : Type} (P : A -> B -> Prop) (l : list A)
      (l' : list B) (x : A) :
  Forall2 P l l' -> In x l -> exists y, In y l' /\ P x y.
Proof.
  induction 1 as [|a b l l' Hab _ IH]; intros Hin; [destruct Hin|].
  destruct Hin as [<-|Hin].
  - exists b. split; [now left|exact Hab].
  - destruct (IH Hin) as [y [Hy Hp]]. exists y. split; [now right|exact Hp].
Qed.

(** A [reduce] whose callback raises on some element, whatever has been
    accumulated, raises. *)
Lemma fold_result_throws {A B : Type} (f : A -> B -> result A) (l : list B)
      (a : A) :
  (forall a x, f a x <> OutOfFuel) ->
  (exists x, In x l /\ forall a, f a x = Throw TypeError) ->
  fold_result f l a = Throw TypeError.
Proof.
  intros Hf [x [Hin Hx]]. revert a.
  induction l as [|y l IH]; intros a; [destruct Hin|].
  cbn [fold_result].
  destruct Hin as [->|Hin]; [now rewrite Hx|].
  destruct (f a y) as [a'|[]|] eqn:E; cbn [bind];
    [now apply IH|reflexivity|now elim (Hf a y)].
Qed.

(** X13.  The normalizer hands a [null] rainfall sample on as it is, and the
    total of the summary row then raises on it. *)
Theorem totalRain_null_sample (fs out : fields) (x : value)
        (xs : list value) :
  normalizeAnalytics (VObj fs) = Ok (VObj out) ->
  field "rainfall" fs = VArr (x :: xs) ->
  (exists d, In d (x :: xs) /\ nullish d = true) ->
  totalRain (VObj out) = Throw TypeError.
Proof.
  intros H Hx [d [Hin Hd]].
  destruct (series_mapped (VObj fs) out "rainfall"
              rainfall_sample x xs eq_refl H Hx) as [ys [Ey Hall]].
  apply map_result_forall2 in Hall.
  destruct (forall2_in_both _ _ _ d Hall Hin) as [r [Hr Hs]].
  assert (r = d).
  { unfold rainfall_sample in Hs.
    destruct d; try discriminate; cbn in Hs; congruence. }
  subst r.
  unfold totalRain.
  change (get_opt (VObj out) "rainfall") with (field "rainfall" out).
  rewrite Ey. destruct ys as [|y ys]; [destruct Hr|].
  change (truthy (get_opt (VArr (y :: ys)) "length")) with true.
  cbv iota.
  apply fold_result_throws.
  - intros a b. returns.
  - exists d. split; [exact Hr|]. intros a.
    unfold get_prop. now rewrite Hd.
Qed.

Lemma js_add_string_left (t : string) (b : value) :
  exists t', js_add (VStr t) b = VStr t'.
Proof. unfold js_add. cbn [orb]. eauto. Qed.

Lemma js_add_string_right (a : value) (s : string) :
  exists t', js_add a (VStr s) = VStr t'.
Proof. unfold js_add. rewrite orb_true_r. eauto. Qed.

(** X14.  A rainfall sample whose [rain_mm] is a non-empty string, which the
    normalizer does not convert, turns the total into a string: once a
    string has been added the sum goes on as a concatenation. *)
Theorem totalRain_string_sample (analytics_ : value) (xs : list value) :
  get_opt analytics_ "rainfall" = VArr xs ->
  Forall (fun d => nullish d = false) xs ->
  (exists d s, In d xs /\ get_own d "rain_mm" = VStr s
               /\ String.eqb s "" = false) ->
  exists t, totalRain analytics_ = Ok (VStr t).
Proof.
  intros Hr Hall [d [s [Hin [Hd Hs]]]].
  unfold totalRain. rewrite Hr.
  destruct xs as [|x xs]; [destruct Hin|].
  change (truthy (get_opt (VArr (x :: xs)) "length")) with true.
  cbv iota.
  set (f := fun (a b : value) =>
              let* rain_mm := get_prop b "rain_mm" in
              Ok (js_add a (or_else rain_mm (VNum (Fin 0))))).
  assert (Hstep : forall a b, nullish b = false ->
                    f a b = Ok (js_add a (or_else (get_own b "rain_mm")
                                                  (VNum (Fin 0))))).
  { intros a b Hb. unfold f, get_prop. now rewrite Hb. }
  assert (Hkeep : forall l t, Forall (fun d => nullish d = false) l ->
                    exists t', fold_result f l (VStr t) = Ok (VStr t')).
  { induction l as [|b l IH]; intros t Hl; [cbn; eauto|].
    inversion Hl as [|? ? Hb Hl']; subst.
    cbn [fold_result]. rewrite (Hstep _ _ Hb). cbn [bind].
    destruct (js_add_string_left t (or_else (get_own b "rain_mm")
                                            (VNum (Fin 0)))) as [t' ->].
    now apply IH. }
  generalize (VNum (Fin 0)). revert Hall Hin.
  generalize (x :: xs). clear x xs Hr.
  induction l as [|b l IH]; intros Hl Hin a; [destruct Hin|].
  inversion Hl as [|? ? Hb Hl']; subst.
  cbn [fold_result]. rewrite (Hstep _ _ Hb). cbn [bind].
  destruct Hin as [->|Hin].
  - rewrite Hd. unfold or_else. cbn [truthy]. rewrite Hs. cbn [negb].
    destruct (js_add_string_right a s) as [t' ->].
    now apply Hkeep.
  - now apply IH.
Qed.

(** *** The gauges *)

Lemma clamp_percent (n : number) :
  isNaN n = false ->
  exists p, num_min (num_max n (Fin 0)) (Fin 100) = Fin p
            /\ 0 <= p /\ p <= 100.
Proof.
  intros Hn. unfold num_max, num_min. rewrite Hn. cbn [isNaN orb].
  destruct n as [| | |x]; try discriminate; cbn [num_lt isNaN orb].
  - exists 100. split; [reflexivity|]. split; discriminate.
  - exists 0. split; [reflexivity|]. split; discriminate.
  - destruct (Qltb x 0) eqn:E0; cbn [isNaN orb num_lt].
    + exists 0. split; [reflexivity|]. split; discriminate.
    + apply Qltb_false_le in E0.
      destruct (Qltb 100 x) eqn:E1.
      * exists 100. split; [reflexivity|]. split; discriminate.
      * apply Qltb_false_le in E1. exists x. auto.
Qed.

(** X16.  For a value that is a number and a maximum that is a finite number
    other than zero, the gauge shows a percentage between 0 and 100. *)
Theorem CircleIndicator_percent (value_ max : value) (m : Q)
        (thresholds : list threshold) :
  nullish value_ = false -> isNaN (to_number value_) = false ->
  to_number max = Fin m -> ~ m == 0 ->
  exists p status colour,
    CircleIndicator value_ max thresholds = Gauge (Fin p) status colour
    /\ 0 <= p /\ p <= 100.
Proof.
  intros Hv Hn Hm Hm0. unfold CircleIndicator.
  rewrite Hv, Hn, Hm. cbn [orb].
  assert (Hx : isNaN (num_mul (num_div (to_number value_) (Fin m))
                              (Fin 100)) = false).
  { assert (Hs : Qsign m <> Eq).
    { unfold Qsign. intros E. apply Qeq_alt in E. contradiction. }
    assert (H100 : forall a, isNaN a = false ->
                     isNaN (num_mul a (Fin 100)) = false).
    { intros [| | |y]; try discriminate; try reflexivity.
      intros _. apply round64_isNaN. }
    apply H100.
    destruct (to_number value_) as [| | |v]; try discriminate;
      cbn [num_div]; destruct (Qsign m) eqn:E; try contradiction;
      try reflexivity; apply round64_isNaN. }
  destruct (clamp_percent _ Hx) as [p [-> Hp]].
  eauto.
Qed.

Lemma first_threshold_found (value_ : value) (thresholds : list threshold)
      (t : threshold) :
  In t thresholds -> num_le (to_number value_) (limit t) = true ->
  exists t', first_threshold value_ thresholds = Some t'
             /\ In t' thresholds.
Proof.
  induction thresholds as [|t0 ths IH]; intros Hin Hle; [destruct Hin|].
  cbn [first_threshold].
  destruct (num_le (to_number value_) (limit t0)) eqn:E.
  - exists t0. split; [reflexivity|now left].
  - destruct Hin as [->|Hin]; [congruence|].
    destruct (IH Hin Hle) as [t' [E' Hin']].
    exists t'. split; [exact E'|now right].
Qed.

(** X17.  With at least one threshold, all limits being numbers, the status of
    a gauge is the label of one of the thresholds, never "Unknown". *)
Theorem CircleIndicator_status (value_ max : value)
        (t : threshold) (thresholds : list threshold) :
  nullish value_ = false -> isNaN (to_number value_) = false ->
  Forall (fun t => isNaN (limit t) = false) (t :: thresholds) ->
  exists p status colour,
    CircleIndicator value_ max (t :: thresholds) = Gauge p status colour
    /\ In status (map label (t :: thresholds)).
Proof.
  intros Hv Hn Hl. unfold CircleIndicator. rewrite Hv, Hn. cbn [orb].
  set (ths := t :: thresholds) in *.
  destruct (rev ths) as [|lst others] eqn:Er.
  { apply (f_equal (@List.length threshold)) in Er.
    rewrite length_rev in Er. discriminate. }
  assert (Hlast : In lst ths).
  { apply in_rev. rewrite Er. now left. }
  rewrite Forall_forall in Hl.
  destruct (num_gt_or_le (to_number value_) (limit lst) Hn (Hl lst Hlast))
    as [[Eg _]|[Eg El]]; rewrite Eg.
  - do 3 eexists. split; [reflexivity|]. cbn [fst].
    now apply in_map.
  - destruct (first_threshold_found value_ ths lst Hlast El)
      as [t' [-> Hin]].
    do 3 eexists. split; [reflexivity|]. cbn [fst].
    now apply in_map.
Qed.

(** *** The status card *)

Lemma dry_total (l : list value) (q : Q) :
  q == 0 ->
  Forall (fun d => nullish d = false
                   /\ truthy (get_own d "rain_mm") = false) l ->
  exists q',
    fold_result
      (fun a b =>
         let* rain_mm := get_prop b "rain_mm" in
         Ok (js_add a (or_else rain_mm (VNum (Fin 0)))))
      l (VNum (Fin q)) = Ok (VNum (Fin q'))
    /\ q' == 0.
Proof.
  set (f := fun (a b : value) =>
              let* rain_mm := get_prop b "rain_mm" in
              Ok (js_add a (or_else rain_mm (VNum (Fin 0))))).
  assert (Hstep : forall a b, nullish b = false ->
                    f a b = Ok (js_add a (or_else (get_own b "rain_mm")
                                                  (VNum (Fin 0))))).
  { intros a b Hb. unfold f, get_prop. now rewrite Hb. }
  revert q. induction l as [|d l IH]; intros q Hq Hl.
  - exists q. split; [reflexivity|exact Hq].
  - inversion Hl as [|? ? [Hd Hr] Hl']; subst.
    cbn [fold_result]. rewrite (Hstep _ _ Hd). cbn [bind].
    unfold or_else. rewrite Hr.
    change (js_add (VNum (Fin q)) (VNum (Fin 0)))
      with (VNum (round64 (q + 0))).
    rewrite round64_zero by (rewrite Hq; reflexivity).
    apply IH; [reflexivity|exact Hl'].
Qed.

(** X15.  A period in which every rainfall sample reads no rain adds up to
    zero, and the status card reports it as missing data: with healthy
    NDVI and moisture its whole text is "No rainfall data". *)
Theorem overallStatus_dry_period
        (analytics_ avgNDVI avgMoisture : value) (xs : list value) :
  get_opt analytics_ "rainfall" = VArr xs ->
  Forall (fun d => nullish d = false
                   /\ truthy (get_own d "rain_mm") = false) xs ->
  nullish avgNDVI = false ->
  num_lt (to_number avgNDVI) (lit 0.35) = false ->
  nullish avgMoisture = true
  \/ num_lt (to_number avgMoisture) (lit 0.12) = false ->
  exists total,
    totalRain analytics_ = Ok total
    /\ overallStatus avgNDVI avgMoisture total = "No rainfall data"%string.
Proof.
  intros Hr Hall Hn Hndvi Hm.
  assert (Ht : exists q, totalRain analytics_ = Ok (VNum (Fin q)) /\ q == 0).
  { unfold totalRain. rewrite Hr.
    destruct xs as [|x xs].
    - exists 0. split; reflexivity.
    - change (truthy (get_opt (VArr (x :: xs)) "length")) with true.
      cbv iota. apply dry_total; [reflexivity|exact Hall]. }
  destruct Ht as [q [Et Hq]]. exists (VNum (Fin q)). split; [exact Et|].
  unfold overallStatus. rewrite Hn, Hndvi. cbn [app].
  assert (Hmo : negb (nullish avgMoisture)
                && num_lt (to_number avgMoisture) (lit 0.12) = false).
  { destruct Hm as [->| ->]; [reflexivity|apply andb_false_r]. }
  rewrite Hmo. cbn [app is_zero].
  apply Qeq_bool_iff in Hq. now rewrite Hq.
Qed.

End Figures.

(* ================================================================= *)
(** ** The markers of the soil map *)

Section Markers.
Import JS Spec Insights.
Context {rt : Runtime}.

Local Open Scope Q_scope.

(** The operations the radius is made of keep the order of numbers. *)
Lemma num_le_isNaN (a b : number) :
  num_le a b = true -> isNaN a = false /\ isNaN b = false.
Proof. destruct a, b; cbn; try discriminate; auto. Qed.

Lemma num_lt_isNaN (a b : number) : num_lt a b = true -> isNaN a = false.
Proof. destruct a, b; cbn; try discriminate; auto. Qed.

Lemma num_le_PosInf (a : number) : isNaN a = false -> num_le a PosInf = true.
Proof. destruct a; cbn; try discriminate; auto. Qed.

Lemma num_le_NegInf (a : number) : isNaN a = false -> num_le NegInf a = true.
Proof. destruct a; cbn; try discriminate; auto. Qed.

Lemma num_sub_antitone (c : Q) (a b : number) :
  num_le a b = true ->
  num_le (num_sub (Fin c) b) (num_sub (Fin c) a) = true.
Proof.
  destruct a as [| | |x], b as [| | |y]; cbn [num_le num_sub];
    try discriminate; try reflexivity; intros H.
  - apply num_le_PosInf, round64_isNaN.
  - apply num_le_NegInf, round64_isNaN.
  - apply Qle_bool_iff in H. apply round64_mono. lra.
Qed.

Lemma num_max_zero_mono (a b : number) :
  num_le a b = true ->
  num_le (num_max (Fin 0) a) (num_max (Fin 0) b) = true.
Proof.
  destruct a as [| | |x], b as [| | |y]; cbn [num_le];
    try discriminate; intros H; unfold num_max;
    cbn [isNaN orb num_lt num_le];
    try (apply Qle_bool_iff in H);
    repeat match goal with
           | |- context [Qltb ?u ?v] =>
               let E := fresh "E" in
               destruct (Qltb u v) eqn:E;
               [apply Qltb_lt in E|apply Qltb_false_le in E]
           end;
    cbn [num_le]; try reflexivity; apply Qle_bool_iff; lra.
Qed.

Lemma num_max_zero_nonneg (a : number) :
  isNaN a = false -> num_le (Fin 0) (num_max (Fin 0) a) = true.
Proof.
  destruct a as [| | |x]; try discriminate; try reflexivity.
  intros _. unfold num_max. cbn [isNaN orb num_lt].
  destruct (Qltb 0 x) eqn:E; cbn [num_le]; [|reflexivity].
  apply Qltb_lt in E. apply Qle_bool_iff. now apply Qlt_le_weak.
Qed.

Lemma num_mul_60_mono (a b : number) :
  num_le a b = true ->
  num_le (num_mul a (Fin 60)) (num_mul b (Fin 60)) = true.
Proof.
  destruct a as [| | |x], b as [| | |y]; cbn [num_le];
    try discriminate; try reflexivity; intros H.
  - apply num_le_NegInf, round64_isNaN.
  - apply num_le_PosInf, round64_isNaN.
  - apply Qle_bool_iff in H. apply round64_mono. lra.
Qed.

Lemma num_add_6_mono (a b : number) :
  num_le a b = true ->
  num_le (num_add (Fin 6) a) (num_add (Fin 6) b) = true.
Proof.
  destruct a as [| | |x], b as [| | |y]; cbn [num_le];
    try discriminate; try reflexivity; intros H.
  - apply num_le_NegInf, round64_isNaN.
  - apply num_le_PosInf, round64_isNaN.
  - apply Qle_bool_iff in H. apply round64_mono. lra.
Qed.

Lemma num_round_mono (a b : number) :
  num_le a b = true -> num_le (num_round a) (num_round b) = true.
Proof.
  destruct a as [| | |x], b as [| | |y]; cbn [num_le num_round];
    try discriminate; try reflexivity; intros H.
  apply Qle_bool_iff in H. apply Qle_bool_iff.
  rewrite <- Zle_Qle. apply Qfloor_resp_le. lra.
Qed.

(** The radius as a function of the number [n] the moisture converts to. *)
Lemma radius_mono (a b : number) :
  num_le a b = true ->
  num_le (num_round (num_add (Fin 6) (num_mul (num_max (Fin 0) a) (Fin 60))))
         (num_round (num_add (Fin 6) (num_mul (num_max (Fin 0) b) (Fin 60))))
  = true.
Proof.
  intros H.
  now apply num_round_mono, num_add_6_mono, num_mul_60_mono,
    num_max_zero_mono.
Qed.

Lemma literal_0_3 : exists c, lit 0.3 = Fin c.
Proof. eexists. vm_compute. reflexivity. Qed.

Lemma scale_argument_isNaN (n : number) :
  isNaN n = false -> isNaN (num_sub (lit 0.3) n) = false.
Proof.
  destruct literal_0_3 as [c ->].
  destruct n; cbn [num_sub isNaN]; try discriminate; try reflexivity.
  intros _. apply round64_isNaN.
Qed.

Lemma radius_floor :
  num_round (num_add (Fin 6) (num_mul (num_max (Fin 0) (Fin 0)) (Fin 60)))
  = Fin 6.
Proof. vm_compute. reflexivity. Qed.

(** The radius of a marker is a whole number of pixels, 6 or more, or
    infinite (for a moisture of minus infinity). *)
Lemma moistureToRadius_cases (m : value) :
  moistureToRadius m = PosInf
  \/ exists z, moistureToRadius m = Fin (inject_Z z) /\ (6 <= z)%Z.
Proof.
  unfold moistureToRadius.
  destruct (nullish m || isNaN (to_number m)) eqn:E.
  { right. exists 6%Z. split; [reflexivity|apply Z.le_refl]. }
  apply orb_false_iff in E. destruct E as [_ Hn]. cbv zeta.
  pose proof (scale_argument_isNaN _ Hn) as Hs.
  pose proof (num_max_zero_nonneg _ Hs) as H0.
  assert (H : num_le (num_max (Fin 0) (Fin 0))
                     (num_max (Fin 0) (num_sub (lit 0.3) (to_number m)))
              = true) by exact H0.
  apply num_mul_60_mono, num_add_6_mono, num_round_mono in H.
  rewrite radius_floor in H.
  destruct (num_round _) as [| | |y] eqn:Ey; try discriminate;
    [now left|right].
  (* a rounded finite number is an integer *)
  destruct (num_add _ _) as [| | |u]; try discriminate.
  cbn [num_round] in Ey. injection Ey as <-.
  eexists. split; [reflexivity|].
  cbn [num_le] in H. apply Qle_bool_iff in H.
  change (inject_Z 6 <= inject_Z (Qfloor (u + (1 # 2)))) in H.
  now rewrite <- Zle_Qle in H.
Qed.

Lemma moistureToRadius_at_least_6 (m : value) :
  num_le (Fin 6) (moistureToRadius m) = true.
Proof.
  destruct (moistureToRadius_cases m) as [->|[z [-> Hz]]]; [reflexivity|].
  cbn [num_le]. apply Qle_bool_iff.
  change (inject_Z 6 <= inject_Z z). now rewrite <- Zle_Qle.
Qed.

(** X18.  The guard [Math.max(6, radius)] of the renderer never changes
    anything: a marker is drawn with the radius [moistureToRadius] gave,
    which is never below 6. *)
Theorem soilMarker_radius (p : point) :
  radius (soilMarker p) = moistureToRadius (moisture p)
  /\ num_le (Fin 6) (radius (soilMarker p)) = true.
Proof.
  assert (E : radius (soilMarker p) = moistureToRadius (moisture p)).
  { cbn [soilMarker radius].
    destruct (moistureToRadius_cases (moisture p)) as [->|[z [-> Hz]]];
      [reflexivity|].
    unfold num_max. cbn [isNaN orb num_lt].
    destruct (Qltb 6 (inject_Z z)) eqn:E; [reflexivity|].
    apply Qltb_false_le in E.
    change (inject_Z z <= inject_Z 6) in E. rewrite <- Zle_Qle in E.
    now replace z with 6%Z by lia. }
  split; [exact E|]. rewrite E. apply moistureToRadius_at_least_6.
Qed.

(** X19.  The drier the soil the larger the marker: the radius never grows with
    the moisture. *)
Theorem moistureToRadius_antitone (m1 m2 : value) :
  nullish m1 = false -> nullish m2 = false ->
  num_le (to_number m1) (to_number m2) = true ->
  num_le (moistureToRadius m2) (moistureToRadius m1) = true.
Proof.
  intros H1 H2 Hle. unfold moistureToRadius. rewrite H1, H2. cbn [orb].
  destruct (num_le_isNaN _ _ Hle) as [N1 N2]. rewrite N1, N2. cbv zeta.
  destruct literal_0_3 as [c Ec]. rewrite Ec.
  now apply radius_mono, num_sub_antitone.
Qed.

(** X20.  A marker gets its halo exactly when it is drawn in the red of the
    critical class. *)
Theorem soilMarker_halo (p : point) :
  halo (soilMarker p) <> None <-> colour (soilMarker p) = "#e11d48"%string.
Proof.
  cbn [soilMarker halo colour]. unfold moistureToColor.
  destruct (nullish (moisture p)); cbn [negb andb orb];
    [split; [congruence|discriminate]|].
  destruct (num_lt (to_number (moisture p)) (lit 0.12)) eqn:E.
  - rewrite (num_lt_isNaN _ _ E). split; [reflexivity|discriminate].
  - split; [congruence|].
    destruct (isNaN (to_number (moisture p))),
      (num_lt (to_number (moisture p)) (lit 0.20)),
      (num_lt (to_number (moisture p)) (lit 0.35)),
      (num_lt (to_number (moisture p)) (lit 0.6)); discriminate.
Qed.

End Markers.

(* ================================================================= *)
(** ** More on the dashboard's cache *)

Section Caching.
Import JS Provider Spec.
Context {rt : Runtime}.


(** A call that returns has either left the cache alone or written the
    entry of its own key. *)
Lemma fetchAnalytics_cache_cases
      (id : string) (coords : value) (start end_ : string)
      (showLabel forceRefresh : bool)
      (w : Dashboard.world) (st st' : Dashboard.state)
      (evs : list Dashboard.event) :
  Dashboard.fetchAnalytics id coords start end_ showLabel forceRefresh w st
  = Ok (st', evs) ->
  Dashboard.analyticsCache st' = Dashboard.analyticsCache st
  \/ exists normalized,
       Dashboard.analyticsCache st'
       = set_prop (Dashboard.cache_key id start end_) normalized
                  (Dashboard.analyticsCache st).
Proof.
  intros H. unfold Dashboard.fetchAnalytics in H.
  destruct (Dashboard.parseCoords coords); cbn [bind] in H;
    try discriminate.
  destruct (negb forceRefresh && _).
  { injection H as <- _. now left. }
  destruct (Dashboard.response w) as [data|].
  2:{ injection H as <- _. left. now rewrite finally_cache. }
  destruct (get_prop data "error") as [err| |]; try discriminate.
  2:{ injection H as <- _. left. now rewrite finally_cache. }
  destruct (truthy err).
  { injection H as <- _. left. now rewrite finally_cache. }
  destruct (Dashboard.normalizeAnalytics data) as [n| |];
    try discriminate.
  2:{ injection H as <- _. left. now rewrite finally_cache. }
  injection H as <- _. rewrite finally_cache.
  destruct (Dashboard.mounted w); [right|now left].
  now exists n.
Qed.

(** X21.  Whatever a call does, the entries under the other keys stay as they
    were: none is changed, none is removed, none is added. *)
Theorem fetchAnalytics_other_keys
        (id : string) (coords : value) (start end_ : string)
        (showLabel forceRefresh : bool)
        (w : Dashboard.world) (st st' : Dashboard.state)
        (evs : list Dashboard.event) (k : string) :
  Dashboard.fetchAnalytics id coords start end_ showLabel forceRefresh w st
  = Ok (st', evs) ->
  k <> Dashboard.cache_key id start end_ ->
  lookup k (Dashboard.analyticsCache st')
  = lookup k (Dashboard.analyticsCache st).
Proof.
  intros H Hk.
  destruct (fetchAnalytics_cache_cases _ _ _ _ _ _ _ _ _ _ H)
    as [->|[n ->]]; [reflexivity|].
  now apply lookup_set_prop_other.
Qed.


(** X23.  An exception of the resolver is raised before the [try] block is
    entered: the call is rejected without an alert, a request or a change
    of state. *)
Theorem fetchAnalytics_resolver_exception
        (id : string) (first : value) (rest : list value)
        (start end_ : string) (showLabel forceRefresh : bool)
        (w : Dashboard.world) (st : Dashboard.state) :
  typeof_object first = true ->
  (exists p, In p (first :: rest) /\ nullish p = true) ->
  Dashboard.fetchAnalytics id (VArr (first :: rest)) start end_
                           showLabel forceRefresh w st
  = Throw TypeError.
Proof.
  intros Ho [p [Hin Hp]]. unfold Dashboard.fetchAnalytics.
  now rewrite (nullish_vertex_raises first p rest Ho Hin Hp).
Qed.

(** X24.  An exception of the normalizer, such as the one a primitive
    sample causes, is caught with the failures of the request: the
    response is reported by the alert of a failed request, although the
    provider answered; the analytics are cleared and nothing is cached. *)
Theorem fetchAnalytics_normalizer_exception
        (id : string) (coords c : value) (start end_ : string)
        (showLabel forceRefresh : bool)
        (w : Dashboard.world) (st : Dashboard.state)
        (data : value) (e : error) :
  Dashboard.parseCoords coords = Ok c ->
  forceRefresh = true
  \/ cache_hit (Dashboard.cache_key id start end_)
               (Dashboard.analyticsCache st) = false ->
  Dashboard.response w = Some data ->
  nullish data = false ->
  truthy (get_own data "error") = false ->
  Dashboard.normalizeAnalytics data = Throw e ->
  exists st',
    Dashboard.fetchAnalytics id coords start end_ showLabel forceRefresh w st
    = Ok (st', [Dashboard.Fetch {| coordinates := c;
                                   start_date := VStr start;
                                   end_date := VStr end_;
                                   farm_id := id;
                                   force_refresh := forceRefresh |};
                Dashboard.Normalize data;
                Dashboard.failed_alert])
    /\ Dashboard.analytics st' = VNull
    /\ Dashboard.analyticsCache st' = Dashboard.analyticsCache st
    /\ Dashboard.loading st' = negb (Dashboard.mounted w).
Proof.
  intros Hc Hmiss Hr Hdata Herr Hn.
  assert (Hguard : negb forceRefresh
                   && truthy (field (Dashboard.cache_key id start end_)
                                    (Dashboard.analyticsCache st)) = false).
  { destruct Hmiss as [->|Hmiss]; [reflexivity|].
    unfold cache_hit in Hmiss. rewrite Hmiss. apply andb_false_r. }
  unfold Dashboard.fetchAnalytics. rewrite Hc. cbn [bind].
  rewrite Hguard, Hr. unfold get_prop. rewrite Hdata, Herr, Hn.
  eexists. split; [reflexivity|].
  rewrite finally_analytics, finally_cache.
  repeat split. unfold Dashboard.finally_.
  now destruct (Dashboard.mounted w).
Qed.

End Caching.

(* ================================================================= *)
(** ** More on the insights view and the stored cache *)

Section Store.
Import JS Provider Spec Insights.
Context {rt : Runtime}.

Lemma append_assoc (a b c : string) :
  ((a ++ b) ++ c = a ++ (b ++ c))%string.
Proof. induction a as [|ch a IH]; cbn; [reflexivity|now rewrite IH]. Qed.

Lemma prefix_append (a b : string) : String.prefix a (a ++ b) = true.
Proof.
  induction a as [|ch a IH]; cbn; [now destruct b|].
  destruct (Ascii.ascii_dec ch ch); [exact IH|contradiction].
Qed.

(** Two strings of the same length that start the same text are equal. *)
Lemma prefix_same_length (a b s t : string) :
  String.length a = String.length b ->
  String.prefix (a ++ s) (b ++ t) = true -> a = b.
Proof.
  revert b. induction a as [|ch a IH]; intros [|ch' b] Hlen H;
    try discriminate; [reflexivity|].
  cbn in H. destruct (Ascii.ascii_dec ch ch') as [->|]; [|discriminate].
  f_equal. apply IH; [now injection Hlen|exact H].
Qed.

Lemma farm_key_prefix (id rest : string) :
  String.prefix (id ++ "_") (id ++ "_" ++ rest) = true.
Proof. rewrite <- append_assoc. apply prefix_append. Qed.

(** X25.  The keys of a farm whose id has the length of this farm's id but is
    another one are never candidates for this farm, whatever the dates. *)
Theorem candidateKeys_other_farm (id other rest : string)
        (savedCache : fields) :
  String.length id = String.length other -> id <> other ->
  ~ In (other ++ "_" ++ rest)%string (candidateKeys id savedCache).
Proof.
  intros Hlen Hne Hin. unfold candidateKeys in Hin.
  apply filter_In in Hin. destruct Hin as [_ Hp].
  apply Hne. exact (prefix_same_length _ _ _ _ Hlen Hp).
Qed.

(** The match is on the text [id_] only: an entry of a farm whose id is
    this farm's id followed by ["_"] and more is a candidate for this
    farm as well. *)
Lemma candidateKeys_longer_id (id more start end_ : string)
        (savedCache : fields) :
  has_key (Dashboard.cache_key (id ++ "_" ++ more) start end_) savedCache
  = true ->
  In (Dashboard.cache_key (id ++ "_" ++ more) start end_)
     (candidateKeys id savedCache).
Proof.
  intros Hk. unfold candidateKeys. apply filter_In. split.
  - unfold has_key in Hk.
    destruct (lookup _ savedCache) as [v|] eqn:E; [|discriminate].
    clear Hk. induction savedCache as [|[k' v'] fs IH]; [discriminate|].
    cbn [lookup] in E. cbn [map fst].
    destruct (String.eqb_spec (Dashboard.cache_key (id ++ "_" ++ more)
                                                   start end_) k')
      as [->|_]; [now left|right; now apply IH].
  - unfold Dashboard.cache_key. rewrite !append_assoc.
    apply farm_key_prefix.
Qed.

(** The key the loop ends on is one of the candidates. *)
Lemma bestKey_candidate (savedCache : fields) (cands : list string) :
  cands <> [] ->
  exists k, bestKey savedCache cands = Some k /\ In k cands.
Proof.
  intros Hne. destruct cands as [|k0 l]; [now elim Hne|].
  eexists. split; [reflexivity|].
  assert (Inv0 : selection_inv savedCache k0 [] (k0, NegInf)).
  { left. repeat split. intros k []. }
  pose proof (select_loop_inv savedCache k0 (k0 :: l) [] _ Inv0) as Inv.
  cbn [app] in Inv. cbn [bestKey].
  set (best := fold_left _ _ _) in *.
  destruct Inv as [(H0 & _)|(_ & l1 & l2 & Hpre & _)].
  - rewrite H0. now left.
  - rewrite Hpre. apply in_or_app. right. now left.
Qed.

(** X26.  When the stored cache holds a key of the farm and a truthy entry
    under each such key, the loader sends no request and leaves the stored
    cache as it is; loading ends false and, unless cancelled, the analytics
    are the normalization of [entry.response || entry] for the entry under
    the key that the selection ends with. *)
Theorem loadForFarm_served_from_store
        (id : string) (farm : value) (w : world) (savedCache : fields)
        (st : state) :
  candidateKeys id savedCache <> [] ->
  (forall k, In k (candidateKeys id savedCache) ->
             truthy (field k savedCache) = true) ->
  exists k st',
    bestKey savedCache (candidateKeys id savedCache) = Some k
    /\ In k (candidateKeys id savedCache)
    /\ loadForFarm id farm w (Some savedCache) st
       = (st', Some savedCache, [])
    /\ loading st' = false
    /\ (cancelled w = false ->
        analytics st'
        = normalizeAnalytics
            (or_else (get_own (field k savedCache) "response")
                     (field k savedCache))).
Proof.
  intros Hne Hall.
  destruct (bestKey_candidate savedCache _ Hne) as [k [Ek Hin]].
  exists k. unfold loadForFarm, cachedEntry. rewrite Ek, (Hall k Hin).
  eexists. split; [reflexivity|]. split; [exact Hin|].
  split; [reflexivity|].
  unfold finally_, set_analytics, set_loading.
  destruct (cancelled w); cbn [loading analytics]; split; try reflexivity.
  discriminate.
Qed.

Lemma map_fst_set_prop_fresh (k : string) (v : value) (fs : fields) :
  ~ In k (map fst fs) -> map fst (set_prop k v fs) = map fst fs ++ [k].
Proof.
  induction fs as [|[k' v'] fs IH]; intros Hk; [reflexivity|].
  cbn [set_prop]. destruct (String.eqb_spec k k') as [->|Hne].
  - elim Hk. now left.
  - cbn [map fst app]. f_equal. apply IH. intros Hin. apply Hk. now right.
Qed.

Lemma candidateKeys_first_entry (id rest : string) (v : value)
      (savedCache : fields) :
  candidateKeys id savedCache = [] ->
  candidateKeys id (set_prop (id ++ "_" ++ rest)%string v savedCache)
  = [(id ++ "_" ++ rest)%string].
Proof.
  intros Hnone. unfold candidateKeys in *.
  rewrite map_fst_set_prop_fresh.
  - rewrite filter_app, Hnone. cbn [filter app].
    now rewrite farm_key_prefix.
  - intros Hin.
    assert (H : In (id ++ "_" ++ rest)%string
                   (filter (String.prefix (id ++ "_")) (map fst savedCache))).
    { apply filter_In. split; [exact Hin|apply farm_key_prefix]. }
    rewrite Hnone in H. destruct H.
Qed.

(** X27.  The first response fetched for a farm is stored, and the next visit is
    served from the store: it shows the same response and sends
    nothing. *)
Theorem loadForFarm_then_served
        (id : string) (farm : value) (w : world) (blob : option fields)
        (st : state) (data : value) :
  candidateKeys id (match blob with Some c => c | None => [] end) = [] ->
  truthy (get_own farm "coordinates")
  && truthy (get_own (get_own farm "coordinates") "length") = true ->
  response w = Some data ->
  truthy data = true -> truthy (get_own data "error") = false ->
  exists st1 blob1,
    loadForFarm id farm w blob st
    = (st1, Some blob1,
       [Fetch {| coordinates := get_own farm "coordinates";
                 start_date := VUndefined;
                 end_date := VUndefined;
                 farm_id := id;
                 force_refresh := false |}])
    /\ forall farm' w' st',
         exists st2,
           loadForFarm id farm' w' (Some blob1) st' = (st2, Some blob1, [])
           /\ (cancelled w' = false ->
               analytics st2 = normalizeAnalytics data).
Proof.
  intros Hnone Hcoords Hr Hdata Herr.
  assert (Hg : get_prop data "error" = Ok (get_own data "error")).
  { unfold get_prop. destruct data; try discriminate; reflexivity. }
  assert (Hmiss : cachedEntry id blob = None).
  { unfold cachedEntry. destruct blob as [c|]; [|reflexivity].
    cbn in Hnone. now rewrite Hnone. }
  unfold loadForFarm at 1. rewrite Hmiss, Hcoords, Hr, Hg, Herr.
  do 2 eexists. split; [reflexivity|].
  intros farm' w' st'.
  unfold loadForFarm, cachedEntry, insights_key.
  rewrite (candidateKeys_first_entry id _ _ _ Hnone).
  cbn [bestKey fold_left fst].
  assert (Hk : forall k v fs,
             fst (select_step (set_prop k v fs) (k, NegInf) k) = k).
  { intros k v fs. unfold select_step.
    destruct (negb _); [reflexivity|].
    now destruct (num_truthy _ && _). }
  rewrite Hk, field_set_prop_same.
  change (truthy (new_entry w data)) with true. cbv iota.
  change (get_own (new_entry w data) "response") with data.
  unfold or_else at 1. rewrite Hdata.
  eexists. split; [reflexivity|].
  intros Hc. unfold finally_, set_analytics, set_loading. now rewrite Hc.
Qed.

End Store.

(* ================================================================= *)
(** ** More on the points of the soil map *)

Section MapGeometry.
Import JS Spec Insights.
Context {rt : Runtime}.

Local Open Scope Q_scope.

Lemma fold_left_projection {A : Type} (f : A -> number) (l : list A)
      (acc : number) :
  fold_left (fun s p => num_add s (f p)) l acc
  = fold_left num_add (map f l) acc.
Proof.
  revert acc. induction l as [|p l IH]; intros acc; [reflexivity|].
  cbn [fold_left map]. apply IH.
Qed.

(** X28.  The centroid of a non-empty list of positions with finite
    coordinates is a pair of numbers, neither [NaN]; a coordinate that is
    not negative in any position is not negative in the centroid, and one
    that is not positive in any position is not positive in it.  The sums
    and the quotients are rounded: the centroid of positions in a box
    need not lie in the box. *)
Theorem centroid_keeps_sign (south north west east : Q)
        (latlngs : list (number * number)) :
  latlngs <> [] ->
  Forall (in_box south north west east) latlngs ->
  exists a b,
    centroidOfLatLngs latlngs = Some (a, b)
    /\ isNaN a = false /\ isNaN b = false
    /\ (0 <= south -> num_le (Fin 0) a = true)
    /\ (north <= 0 -> num_le a (Fin 0) = true)
    /\ (0 <= west -> num_le (Fin 0) b = true)
    /\ (east <= 0 -> num_le b (Fin 0) = true).
Proof.
  intros Hne Hall.
  assert (Hlat : Forall (finite_between south north) (map fst latlngs)).
  { apply Forall_map. revert Hall. apply Forall_impl. now intros p [H _]. }
  assert (Hlng : Forall (finite_between west east) (map snd latlngs)).
  { apply Forall_map. revert Hall. apply Forall_impl. now intros p [_ H]. }
  destruct latlngs as [|p l]; [now elim Hne|].
  do 2 eexists. split.
  { unfold centroidOfLatLngs.
    rewrite (fold_left_projection fst), (fold_left_projection snd).
    reflexivity. }
  cbn [List.length]. repeat split.
  - apply quotient_isNaN. now apply (sum_isNaN south north).
  - apply quotient_isNaN. now apply (sum_isNaN west east).
  - intros H. apply quotient_nonneg. now apply (sum_nonneg south north).
  - intros H. apply quotient_nonpos. now apply (sum_nonpos south north).
  - intros H. apply quotient_nonneg. now apply (sum_nonneg west east).
  - intros H. apply quotient_nonpos. now apply (sum_nonpos west east).
Qed.

Lemma filter_all {A : Type} (f : A -> bool) (l : list A) :
  Forall (fun x => f x = true) l -> filter f l = l.
Proof.
  induction 1 as [|x l Hx _ IH]; [reflexivity|].
  cbn [filter]. now rewrite Hx, IH.
Qed.

Lemma samples_at_origin (ss : list value) :
  forallb without_position ss = true ->
  exists pts,
    map_result sample_point ss = Ok pts
    /\ List.length pts = List.length ss
    /\ Forall (fun pt => lat pt = Fin 0 /\ lng pt = Fin 0) pts.
Proof.
  induction ss as [|s ss IH]; intros H.
  - exists []. repeat split. constructor.
  - cbn [forallb] in H. apply andb_true_iff in H. destruct H as [Hs H].
    destruct (IH H) as [pts [E [Hlen Hall]]].
    unfold without_position in Hs.
    repeat (apply andb_true_iff in Hs; destruct Hs as [Hs ?]).
    apply negb_true_iff in Hs.
    cbn [map_result]. unfold sample_point at 1. rewrite Hs, E.
    cbn [bind]. eexists. split; [reflexivity|].
    split; [cbn [List.length]; now rewrite Hlen|].
    constructor; [|exact Hall]. cbn [lat lng]. unfold coalesce.
    repeat match goal with
           | H : nullish _ = true |- _ => rewrite H; clear H
           end.
    split; reflexivity.
Qed.

(** X29.  A sample of [soil_samples] that carries no position is not dropped:
    it is drawn at latitude 0, longitude 0. *)
Theorem soilPoints_samples_without_position
        (analytics_ farm : value) (positions : list (number * number))
        (ss : list value) :
  truthy analytics_ = true ->
  isArray (get_opt analytics_ "soil_moisture_points") = false ->
  get_opt analytics_ "soil_samples" = VArr ss ->
  forallb without_position ss = true ->
  exists pts,
    soilPoints analytics_ farm positions = Ok pts
    /\ List.length pts = List.length ss
    /\ Forall (fun pt => lat pt = Fin 0 /\ lng pt = Fin 0) pts.
Proof.
  intros Ht Hp Hs Hss.
  destruct (samples_at_origin ss Hss) as [pts [E [Hlen Hall]]].
  exists pts. split; [|auto].
  assert (Hf : filter on_map pts = pts).
  { apply filter_all. revert Hall. apply Forall_impl.
    intros pt [Hlat Hlng]. unfold on_map. now rewrite Hlat, Hlng. }
  unfold soilPoints. rewrite Ht. cbn [negb andb].
  destruct (get_opt analytics_ "soil_moisture_points"); try discriminate;
    rewrite Hs, E; cbn [bind]; now rewrite Hf.
Qed.

Lemma point_without_latitude (p : value) (pt : point) :
  without_latitude p = true -> moisture_point p = Ok pt ->
  isNaN (lat pt) = true.
Proof.
  intros Hw E. unfold moisture_point in E.
  destruct (nullish p); [discriminate|]. injection E as <-. cbn [lat].
  unfold without_latitude in Hw.
  repeat (apply andb_true_iff in Hw; destruct Hw as [Hw ?]).
  unfold coalesce at 1 2. rewrite Hw.
  match goal with H : nullish _ = true |- _ => rewrite H end.
  destruct (get_own p "1"); try discriminate. reflexivity.
Qed.

Lemma points_with_latitude (ps : list value) :
  forallb (fun p => negb (nullish p)) ps = true ->
  exists all,
    map_result moisture_point ps = Ok all
    /\ Forall2 (fun p pt => moisture_point p = Ok pt) ps all
    /\ (List.length (filter on_map all)
        <= List.length (filter (fun p => negb (without_latitude p)) ps))%nat.
Proof.
  induction ps as [|p ps IH]; intros H.
  - exists []. split; [reflexivity|]. split; [constructor|apply Nat.le_refl].
  - cbn [forallb] in H. apply andb_true_iff in H. destruct H as [Hp H].
    apply negb_true_iff in Hp.
    destruct (IH H) as [all [E [Hall Hle]]].
    destruct (moisture_point p) as [pt| |] eqn:Ept;
      try (unfold moisture_point in Ept; rewrite Hp in Ept; discriminate).
    exists (pt :: all). cbn [map_result]. rewrite Ept, E. cbn [bind].
    split; [reflexivity|]. split; [now constructor|].
    cbn [filter].
    destruct (without_latitude p) eqn:Hw; cbn [negb].
    + unfold on_map at 1.
      rewrite (point_without_latitude p pt Hw Ept). exact Hle.
    + destruct (on_map pt); cbn [List.length]; lia.
Qed.

(** X30.  Once [soil_moisture_points] is an array of elements that are not
    null, the points drawn are the points of its elements, in order, that
    have a latitude and a longitude other than [NaN]: an element with no
    latitude to read gives a point with latitude [NaN], which is dropped, so
    that at most the elements with a latitude are drawn; and the result is
    the same whatever the farm, the polygon, [soil_samples] and the rest of
    the analytics are. *)
Theorem soilPoints_points_without_latitude
        (analytics_ farm : value) (positions : list (number * number))
        (ps : list value) :
  truthy analytics_ = true ->
  get_opt analytics_ "soil_moisture_points" = VArr ps ->
  forallb (fun p => negb (nullish p)) ps = true ->
  exists all,
    Forall2 (fun p pt => moisture_point p = Ok pt) ps all
    /\ soilPoints analytics_ farm positions = Ok (filter on_map all)
    /\ (forall p pt,
           In p ps -> without_latitude p = true ->
           moisture_point p = Ok pt ->
           isNaN (lat pt) = true /\ ~ In pt (filter on_map all))
    /\ (List.length (filter on_map all)
        <= List.length (filter (fun p => negb (without_latitude p)) ps))%nat
    /\ (forall other farm' positions',
           truthy other = true ->
           get_opt other "soil_moisture_points" = VArr ps ->
           soilPoints other farm' positions' = Ok (filter on_map all)).
Proof.
  intros Ht Hp Hps.
  destruct (points_with_latitude ps Hps) as [all [E [Hall Hle]]].
  assert (Hrun : forall other farm' positions',
             truthy other = true ->
             get_opt other "soil_moisture_points" = VArr ps ->
             soilPoints other farm' positions' = Ok (filter on_map all)).
  { intros other farm' positions' Ht' Hp'.
    unfold soilPoints. rewrite Ht', Hp', E. reflexivity. }
  exists all. split; [exact Hall|]. split; [now apply Hrun|].
  split; [|split; [exact Hle|exact Hrun]].
  intros p pt _ Hw Ept.
  pose proof (point_without_latitude p pt Hw Ept) as Hnan.
  split; [exact Hnan|].
  intros Hin. apply filter_In in Hin. destruct Hin as [_ Hon].
  unfold on_map in Hon. rewrite Hnan in Hon. discriminate.
Qed.

End MapGeometry.

(* ================================================================= *)
(** ** The further statements at concrete inputs *)

Section MoreInstances.
Import JS Provider Spec.

Lemma parseCoords_named_objects_witness :
  forallb (fun p => negb (nullish p)) (tl Example.named_polygon) = true
  /\ Dashboard.parseCoords (rt := Example.runtime)
                           (VArr Example.named_polygon)
     = Ok (VArr [ VArr [VNum (Fin 72.50); VNum (Fin 23.01)];
                  VArr [VNum (Fin 72.51); VNum (Fin 23.02)] ]).
Proof.
  split; [reflexivity|].
  apply (proj1 (parseCoords_named_objects
                  (rt := Example.runtime)
                  [("lat", VNum (Fin 23.01)); ("lng", VNum (Fin 72.50))]
                  (tl Example.named_polygon) eq_refl)).
  reflexivity.
Defined.

Lemma parseCoords_twice_witness :
  forallb numeric_pair Example.polygon = true
  /\ Dashboard.parseCoords (rt := Example.runtime)
                           (VArr (map swapped Example.polygon))
     = Ok (VArr Example.polygon).
Proof.
  split; [reflexivity|].
  assert (Hr : lat_lng_range (Fin 23.01) (Fin 72.50))
    by (unfold lat_lng_range, Qle; simpl; lia).
  apply (proj1 (proj2 (parseCoords_twice
                         (rt := Example.runtime) (Fin 23.01) (Fin 72.50)
                         (tl Example.polygon) eq_refl Hr))).
  unfold lat_lng_range, Qle. simpl. lia.
Defined.

Lemma views_agree_on_axis_order_witness :
  forallb numeric_pair Example.polygon = true
  /\ exists positions,
       Insights.normalizeToLatLngArray (rt := Example.runtime)
                                       (VArr Example.polygon)
       = Ok positions
       /\ Dashboard.parseCoords (rt := Example.runtime)
                                (VArr Example.polygon)
          = Ok (VArr (map (fun p => VArr [VNum (snd p); VNum (fst p)])
                          positions)).
Proof.
  split; [reflexivity|].
  exact (views_agree_on_axis_order
           (rt := Example.runtime) (Fin 23.01) (Fin 72.50)
           (tl Example.polygon) eq_refl).
Defined.

Lemma parseCoords_delimited_witness :
  includes_char "," Example.delimited = true
  /\ exists pairs,
       Dashboard.parseCoords (rt := Example.runtime)
                             (VStr Example.delimited)
       = Ok (VArr pairs)
       /\ List.length pairs = List.length (split_on ";" Example.delimited)
       /\ pairs <> []
       /\ forallb Dashboard.has_length_2 pairs = true.
Proof.
  split; [reflexivity|].
  exact (parseCoords_delimited (rt := Example.runtime) Example.delimited
                               eq_refl eq_refl).
Defined.

Lemma parseCoords_nullish_vertex_witness :
  typeof_object (VArr [VNum (Fin 23.01); VNum (Fin 72.50)]) = true
  /\ Dashboard.parseCoords
       (rt := Example.runtime)
       (VArr [VArr [VNum (Fin 23.01); VNum (Fin 72.50)]; VNull])
     = Throw TypeError.
Proof.
  split; [reflexivity|].
  apply (parseCoords_nullish_vertex (rt := Example.runtime));
    [reflexivity|].
  exists VNull. split; [right; now left|reflexivity].
Defined.

Lemma normalizeAnalytics_keeps_other_fields_witness :
  Dashboard.normalizeAnalytics (rt := Example.runtime)
                               (VObj [("farm_id", VStr "farm1")])
  = Ok (VObj (Example.normalized (VObj [("farm_id", VStr "farm1")])))
  /\ lookup "farm_id" (Example.normalized (VObj [("farm_id", VStr "farm1")]))
     = Some (VStr "farm1").
Proof.
  split; [reflexivity|].
  apply (normalizeAnalytics_keeps_other_fields
           (rt := Example.runtime) (VObj [("farm_id", VStr "farm1")])
           (Example.normalized (VObj [("farm_id", VStr "farm1")]))
           "farm_id" eq_refl).
  intros Hin. apply eqb_by_in in Hin. discriminate.
Defined.

Lemma normalizeAnalytics_series_witness :
  Dashboard.normalizeAnalytics (rt := Example.runtime) Example.payload
  = Ok (VObj (Example.normalized Example.payload))
  /\ exists ys,
       field "temperature" (Example.normalized Example.payload) = VArr ys
       /\ Forall2
            (fun d r =>
               Dashboard.temperature_sample (rt := Example.runtime) d = Ok r
               /\ get_opt r "date" = get_opt d "date")
            [VObj [("temp", VNum (Fin 305)); ("date", VStr "2025-01-01")]]
            ys.
Proof.
  split; [reflexivity|].
  exact (normalizeAnalytics_series
           (rt := Example.runtime) Example.payload
           (Example.normalized Example.payload) "temperature"
           Dashboard.temperature_sample
           (VObj [("temp", VNum (Fin 305)); ("date", VStr "2025-01-01")])
           [] eq_refl eq_refl eq_refl).
Defined.

Lemma normalizeAnalytics_primitive_sample_witness :
  primitive_sample (VNum (Fin 300)) = true
  /\ Dashboard.normalizeAnalytics (rt := Example.runtime)
                                  (VObj Example.broken)
     = Throw TypeError.
Proof.
  split; [reflexivity|].
  exact (normalizeAnalytics_primitive_sample
           (rt := Example.runtime) Example.broken "temperature"
           Dashboard.temperature_sample (VNum (Fin 300)) (VNum (Fin 300)) []
           eq_refl eq_refl (or_introl eq_refl) eq_refl).
Defined.

Lemma normalizeAnalytics_promotes_soil_moisture_witness :
  Dashboard.normalizeAnalytics (rt := Example.runtime) (VObj Example.nested)
  = Ok (VObj (Example.normalized (VObj Example.nested)))
  /\ field "soil_moisture" (Example.normalized (VObj Example.nested))
     = VArr [VObj [("moisture", VNum (Fin 0.2))]].
Proof.
  split; [reflexivity|].
  exact (normalizeAnalytics_promotes_soil_moisture
           (rt := Example.runtime) Example.nested
           (Example.normalized (VObj Example.nested))
           [VObj [("moisture", VNum (Fin 0.2))]]
           (or_introl eq_refl) eq_refl eq_refl eq_refl).
Defined.

Lemma normalizeAnalytics_families_are_arrays_witness :
  Dashboard.normalizeAnalytics (rt := Example.runtime) Example.payload
  = Ok (VObj (Example.normalized Example.payload))
  /\ isArray (field "ndvi_timeseries" (Example.normalized Example.payload))
     = true.
Proof.
  split; [reflexivity|].
  apply (normalizeAnalytics_families_are_arrays
           (rt := Example.runtime) Example.payload
           (Example.normalized Example.payload) eq_refl).
  now apply in_by_eqb.
Defined.

Lemma safeAvg_number_witness :
  Forall (sample_in_range (rt := Example.runtime) "ndvi" 0 1)
         Example.tenths
  /\ exists v,
       Dashboard.safeAvg (rt := Example.runtime)
                         (VArr Example.tenths) "ndvi" = Ok v
       /\ (v = VNull
           \/ exists n,
                v = VNum n /\ isNaN n = false
                /\ ((0 <= 0)%Q -> num_le (Fin 0) n = true)
                /\ ((1 <= 0)%Q -> num_le n (Fin 0) = true)).
Proof.
  assert (H : Forall (sample_in_range (rt := Example.runtime) "ndvi" 0 1)
                     Example.tenths).
  { repeat (apply Forall_cons;
            [right; right; vm_compute; split; discriminate|]).
    apply Forall_nil. }
  split; [exact H|].
  destruct (safeAvg_number
              (rt := Example.runtime) "ndvi" 0 1
              (VObj [("ndvi", VNum (lit 0.1))])
              (tl Example.tenths) eq_refl H) as [v [E [_ Hv]]].
  exists v. split; [exact E|exact Hv].
Defined.

(** The mean of three samples of one tenth is above one tenth. *)
Lemma mean_of_tenths :
  exists n,
    Dashboard.safeAvg (rt := Example.runtime) (VArr Example.tenths) "ndvi"
    = Ok (VNum n)
    /\ num_lt (lit 0.1) n = true.
Proof. eexists. split; vm_compute; reflexivity. Qed.

Lemma unresolved_soil_temperature_averages_zero_witness :
  unresolvable (rt := Example.runtime) ["soil_temp"; "st"]
               [("date", VStr "2025-01-01")]
  /\ exists rs,
       map_result (Dashboard.soil_temperature_sample (rt := Example.runtime))
                  [VObj [("date", VStr "2025-01-01")]]
       = Ok rs
       /\ Dashboard.safeAvg (rt := Example.runtime) (VArr rs) "soil_temp"
          = Ok (VNum (Fin 0)).
Proof.
  assert (H : unresolvable (rt := Example.runtime) ["soil_temp"; "st"]
                           [("date", VStr "2025-01-01")]).
  { split; [|reflexivity]. intros n [<-|[<-|[]]]; reflexivity. }
  split; [exact H|].
  exact (unresolved_soil_temperature_averages_zero
           (rt := Example.runtime) [("date", VStr "2025-01-01")] []
           (Forall_cons _ H (Forall_nil _))).
Defined.

Lemma totalRain_null_sample_witness :
  Dashboard.normalizeAnalytics (rt := Example.runtime) (VObj Example.gaps)
  = Ok (VObj (Example.normalized (VObj Example.gaps)))
  /\ Dashboard.totalRain (rt := Example.runtime)
                         (VObj (Example.normalized (VObj Example.gaps)))
     = Throw TypeError.
Proof.
  split; [reflexivity|].
  apply (totalRain_null_sample
           (rt := Example.runtime) Example.gaps
           (Example.normalized (VObj Example.gaps)) VNull []
           eq_refl eq_refl).
  exists VNull. split; [now left|reflexivity].
Defined.

Lemma totalRain_string_sample_witness :
  get_opt Example.typed_rain "rainfall"
  = VArr [VObj [("rain_mm", VStr "4")]]
  /\ exists t,
       Dashboard.totalRain (rt := Example.runtime) Example.typed_rain
       = Ok (VStr t).
Proof.
  split; [reflexivity|].
  apply (totalRain_string_sample
           (rt := Example.runtime) Example.typed_rain
           [VObj [("rain_mm", VStr "4")]] eq_refl).
  - repeat constructor.
  - exists (VObj [("rain_mm", VStr "4")]), "4"%string.
    split; [now left|]. split; reflexivity.
Defined.

Lemma overallStatus_dry_period_witness :
  get_opt Example.dry "rainfall"
  = VArr [VObj [("rain_mm", VNum (Fin 0)); ("date", VStr "2025-01-01")];
          VObj [("rain_mm", VNum (Fin 0)); ("date", VStr "2025-01-02")]]
  /\ exists total,
       Dashboard.totalRain (rt := Example.runtime) Example.dry = Ok total
       /\ Dashboard.overallStatus (rt := Example.runtime)
                                  (VNum (Fin 0.5)) VNull total
          = "No rainfall data"%string.
Proof.
  split; [reflexivity|].
  apply (overallStatus_dry_period
           (rt := Example.runtime) Example.dry (VNum (Fin 0.5)) VNull
           _ eq_refl).
  - repeat constructor.
  - reflexivity.
  - reflexivity.
  - now left.
Defined.

Lemma CircleIndicator_percent_witness :
  isNaN (to_number (rt := Example.runtime) (VNum (Fin 0.45))) = false
  /\ exists p status colour,
       Dashboard.CircleIndicator (rt := Example.runtime)
                                 (VNum (Fin 0.45)) (VNum (Fin 1))
                                 Example.ndvi_thresholds
       = Dashboard.Gauge (Fin p) status colour
       /\ (0 <= p)%Q /\ (p <= 100)%Q.
Proof.
  split; [reflexivity|].
  apply (CircleIndicator_percent
           (rt := Example.runtime) (VNum (Fin 0.45)) (VNum (Fin 1)) 1
           Example.ndvi_thresholds eq_refl eq_refl eq_refl).
  intros H. discriminate H.
Defined.

Lemma CircleIndicator_status_witness :
  Forall (fun t => isNaN (Dashboard.limit t) = false)
         Example.ndvi_thresholds
  /\ exists p status colour,
       Dashboard.CircleIndicator (rt := Example.runtime)
                                 (VNum (Fin 0.45)) (VNum (Fin 1))
                                 Example.ndvi_thresholds
       = Dashboard.Gauge p status colour
       /\ In status (map Dashboard.label Example.ndvi_thresholds).
Proof.
  assert (H : Forall (fun t => isNaN (Dashboard.limit t) = false)
                     Example.ndvi_thresholds) by (repeat constructor).
  split; [exact H|].
  exact (CircleIndicator_status
           (rt := Example.runtime) (VNum (Fin 0.45)) (VNum (Fin 1))
           {| Dashboard.limit := lit 0.3; Dashboard.label := "Poor";
              Dashboard.colorClass := Some "indicator-bad"%string |}
           (tl Example.ndvi_thresholds) eq_refl eq_refl H).
Defined.

Lemma moistureToRadius_antitone_witness :
  num_le (to_number (rt := Example.runtime) (VNum (Fin 0.1)))
         (to_number (rt := Example.runtime) (VNum (Fin 0.25))) = true
  /\ num_le (Insights.moistureToRadius (rt := Example.runtime)
                                       (VNum (Fin 0.25)))
            (Insights.moistureToRadius (rt := Example.runtime)
                                       (VNum (Fin 0.1))) = true.
Proof.
  split; [reflexivity|].
  exact (moistureToRadius_antitone
           (rt := Example.runtime) (VNum (Fin 0.1)) (VNum (Fin 0.25))
           eq_refl eq_refl eq_refl).
Defined.

Lemma fetchAnalytics_other_keys_witness :
  Dashboard.fetchAnalytics
    (rt := Example.runtime) "farm1" (VArr Example.polygon)
    "2024-01-01" "2024-03-31" true false
    (Example.answers Example.payload) Example.warm
  = Ok (fst Example.earlier, snd Example.earlier)
  /\ lookup Example.key (Dashboard.analyticsCache (fst Example.earlier))
     = Some (VObj [("growth_stage", VStr "tillering")]).
Proof.
  split; [reflexivity|].
  apply (fetchAnalytics_other_keys
           (rt := Example.runtime) "farm1" (VArr Example.polygon)
           "2024-01-01" "2024-03-31" true false
           (Example.answers Example.payload) Example.warm
           (fst Example.earlier) (snd Example.earlier) Example.key
           eq_refl).
  intros H. discriminate H.
Defined.


Lemma fetchAnalytics_resolver_exception_witness :
  typeof_object (VArr [VNum (Fin 23.01); VNum (Fin 72.50)]) = true
  /\ Dashboard.fetchAnalytics
       (rt := Example.runtime) "farm1"
       (VArr [VArr [VNum (Fin 23.01); VNum (Fin 72.50)]; VNull])
       "2025-01-01" "2025-03-31" true false
       (Example.answers Example.payload) Example.idle
     = Throw TypeError.
Proof.
  split; [reflexivity|].
  apply (fetchAnalytics_resolver_exception (rt := Example.runtime));
    [reflexivity|].
  exists VNull. split; [right; now left|reflexivity].
Defined.

Lemma fetchAnalytics_normalizer_exception_witness :
  Dashboard.normalizeAnalytics (rt := Example.runtime) (VObj Example.broken)
  = Throw TypeError
  /\ exists st',
       Dashboard.fetchAnalytics
         (rt := Example.runtime) "farm1" (VArr Example.polygon)
         "2025-01-01" "2025-03-31" true true
         (Example.answers (VObj Example.broken)) Example.warm
       = Ok (st',
             [Dashboard.Fetch
                {| coordinates := VArr (map swapped Example.polygon);
                   start_date := VStr "2025-01-01";
                   end_date := VStr "2025-03-31";
                   farm_id := "farm1";
                   force_refresh := true |};
              Dashboard.Normalize (VObj Example.broken);
              Dashboard.failed_alert])
       /\ Dashboard.analytics st' = VNull
       /\ Dashboard.analyticsCache st'
          = Dashboard.analyticsCache Example.warm
       /\ Dashboard.loading st' = false.
Proof.
  split; [reflexivity|].
  exact (fetchAnalytics_normalizer_exception
           (rt := Example.runtime) "farm1" (VArr Example.polygon)
           (VArr (map swapped Example.polygon))
           "2025-01-01" "2025-03-31" true true
           (Example.answers (VObj Example.broken)) Example.warm
           (VObj Example.broken) TypeError
           eq_refl (or_introl eq_refl) eq_refl eq_refl eq_refl eq_refl).
Defined.

Lemma candidateKeys_other_farm_witness :
  String.length "farm1" = String.length "farm2"
  /\ ~ In "farm2_auto_auto"%string
          (Insights.candidateKeys "farm1" Example.store).
Proof.
  split; [reflexivity|].
  apply (candidateKeys_other_farm "farm1" "farm2" "auto_auto" Example.store);
    [reflexivity|discriminate].
Defined.

Lemma loadForFarm_served_from_store_witness :
  Insights.candidateKeys "farm1" Example.store <> []
  /\ exists k st',
       Insights.bestKey (rt := Example.runtime) Example.store
                        (Insights.candidateKeys "farm1" Example.store)
       = Some k
       /\ In k (Insights.candidateKeys "farm1" Example.store)
       /\ Insights.loadForFarm
            (rt := Example.runtime) "farm1" Example.farm
            (Example.insights_answers Example.failure)
            (Some Example.store) Example.insights_idle
          = (st', Some Example.store, [])
       /\ Insights.loading st' = false.
Proof.
  assert (Hne : Insights.candidateKeys "farm1" Example.store <> [])
    by discriminate.
  split; [exact Hne|].
  destruct (loadForFarm_served_from_store
              (rt := Example.runtime) "farm1" Example.farm
              (Example.insights_answers Example.failure)
              Example.store Example.insights_idle Hne)
    as [k [st' [Ek [Hin [E [Hl _]]]]]].
  - intros k [<-|[<-|[<-|[]]]]; reflexivity.
  - exists k, st'. auto.
Defined.

Lemma loadForFarm_then_served_witness :
  Insights.candidateKeys "farm3" Example.store = []
  /\ exists st1 blob1 evs,
       Insights.loadForFarm
         (rt := Example.runtime) "farm3" Example.farm
         (Example.insights_answers Example.payload)
         (Some Example.store) Example.insights_idle
       = (st1, Some blob1, evs)
       /\ exists st2,
            Insights.loadForFarm
              (rt := Example.runtime) "farm3" Example.farm
              (Example.insights_answers Example.failure)
              (Some blob1) Example.insights_idle
            = (st2, Some blob1, [])
            /\ Insights.analytics st2
               = Insights.normalizeAnalytics (rt := Example.runtime)
                                             Example.payload.
Proof.
  split; [reflexivity|].
  destruct (loadForFarm_then_served
              (rt := Example.runtime) "farm3" Example.farm
              (Example.insights_answers Example.payload)
              (Some Example.store) Example.insights_idle Example.payload
              eq_refl eq_refl eq_refl eq_refl eq_refl)
    as [st1 [blob1 [E Hnext]]].
  exists st1, blob1. eexists. split; [exact E|].
  destruct (Hnext Example.farm (Example.insights_answers Example.failure)
                  Example.insights_idle) as [st2 [E2 Ha]].
  exists st2. split; [exact E2|]. now apply Ha.
Defined.

Lemma centroid_keeps_sign_witness :
  Forall (in_box 23 24 72 73)
         [(lit 23.01, lit 72.50); (lit 23.02, lit 72.51);
          (lit 23.03, lit 72.50)]
  /\ exists a b,
       Insights.centroidOfLatLngs
         [(lit 23.01, lit 72.50); (lit 23.02, lit 72.51);
          (lit 23.03, lit 72.50)]
       = Some (a, b)
       /\ isNaN a = false /\ isNaN b = false
       /\ num_le (Fin 0) a = true /\ num_le (Fin 0) b = true.
Proof.
  assert (H : Forall (in_box 23 24 72 73)
                     [(lit 23.01, lit 72.50); (lit 23.02, lit 72.51);
                      (lit 23.03, lit 72.50)]).
  { repeat apply Forall_cons; try apply Forall_nil;
      vm_compute; repeat split; discriminate. }
  split; [exact H|].
  destruct (centroid_keeps_sign
              23 24 72 73
              [(lit 23.01, lit 72.50); (lit 23.02, lit 72.51);
               (lit 23.03, lit 72.50)])
    as (a & b & E & Ha & Hb & Hlat & _ & Hlng & _);
    [discriminate|exact H|].
  exists a, b. split; [exact E|]. split; [exact Ha|]. split; [exact Hb|].
  split; [apply Hlat|apply Hlng]; discriminate.
Defined.

Lemma soilPoints_samples_without_position_witness :
  get_opt Example.unplaced_samples "soil_samples"
  = VArr [VObj [("moisture", VNum (Fin 0.2))]]
  /\ exists pts,
       Insights.soilPoints (rt := Example.runtime)
                           Example.unplaced_samples Example.farm []
       = Ok pts
       /\ List.length pts = 1%nat
       /\ Forall (fun pt => Insights.lat pt = Fin 0
                            /\ Insights.lng pt = Fin 0) pts.
Proof.
  split; [reflexivity|].
  exact (soilPoints_samples_without_position
           (rt := Example.runtime) Example.unplaced_samples Example.farm []
           [VObj [("moisture", VNum (Fin 0.2))]]
           eq_refl eq_refl eq_refl eq_refl).
Defined.

Lemma soilPoints_points_without_latitude_witness :
  truthy Example.mixed_points = true
  /\ exists all,
       Insights.soilPoints (rt := Example.runtime)
                           Example.mixed_points Example.farm []
       = Ok (filter Insights.on_map all)
       /\ (List.length (filter Insights.on_map all) <= 1)%nat
       /\ Insights.soilPoints
            (rt := Example.runtime)
            (VObj [("soil_moisture_points",
                    get_opt Example.mixed_points "soil_moisture_points");
                   ("soil_samples",
                    VArr [VObj [("lat", VNum (Fin 1));
                                ("lng", VNum (Fin 2))]])])
            VNull [(Fin 1, Fin 2)]
          = Ok (filter Insights.on_map all).
Proof.
  split; [reflexivity|].
  destruct (soilPoints_points_without_latitude
              (rt := Example.runtime) Example.mixed_points Example.farm []
              [ VObj [("moisture", VNum (Fin 0.2))];
                VObj [("lat", VNum (Fin 23.01)); ("lng", VNum (Fin 72.50));
                      ("moisture", VNum (Fin 0.1))] ]
              eq_refl eq_refl eq_refl)
    as (all & _ & E & _ & Hle & Hany).
  exists all. split; [exact E|]. split; [exact Hle|].
  apply Hany; reflexivity.
Defined.


(** A JSON text of an array that holds [null] after a pair: what the
    reading raises is caught and the text is read as a delimited list, one
    pair of [NaN]. *)
Lemma parseCoords_json_null_vertex :
  Dashboard.parseCoords (rt := Example.reading) (VStr "[[1,2],null]")
  = Ok (VArr [VArr [VNum NaN; VNum NaN]]).
Proof. vm_compute. reflexivity. Qed.

(** A moisture of 0.275 is drawn with radius 7: the difference to 0.3 is
    rounded below 0.025. *)
Lemma moistureToRadius_0_275 :
  Insights.moistureToRadius (rt := Example.runtime) (VNum (lit 0.275))
  = Fin 7.
Proof. vm_compute. reflexivity. Qed.

(** The first sample counts in the mean of the insights view. *)
Lemma insights_safeAvg_first_sample :
  Insights.safeAvg (rt := Example.runtime)
                   (VArr [VObj [("ndvi", VNum (Fin 1))];
                          VObj [("ndvi", VNum (Fin 3))]]) "ndvi"
  = Ok (VNum (Fin 2)).
Proof. vm_compute. reflexivity. Qed.

End MoreInstances.
